(** * PythonPlotter: QLT row decoding and coordinate evaluation

    A shallow embedding of [main.py]: the [BoardSize] and [QltMachineRow]
    classes, [decode_tsv], the row-building loop of [main], and
    [QltMachineRow.calculate_coordinates] together with the part of the
    host language it relies on ([str.replace], [str.strip], [str] on
    integers, and the built-in [eval]). *)

From Stdlib Require Import ZArith List String Ascii Bool Lia PeanoNat.
From Stdlib Require Import DecimalString.
From Stdlib Require Import PrimFloat SpecFloat FloatOps.
Import ListNotations.

Set Implicit Arguments.
Local Open Scope string_scope.
Local Open Scope list_scope.

(** ** Host language: exceptions, strings *)

Module Py.

(** The built-in exception classes that occur in the program.  All of
    them derive from [Exception] except the last three, which derive
    from [BaseException] only and so pass through [except Exception]. *)
Inductive exn : Type :=
| SyntaxError
| NameError
| ZeroDivisionError
| TypeError
| AttributeError (name : string)
| OverflowError
| OtherException (cls : string)
| SystemExit
| KeyboardInterrupt
| GeneratorExit.

Definition is_Exception (e : exn) : bool :=
  match e with
  | SystemExit | KeyboardInterrupt | GeneratorExit => false
  | _ => true
  end.

(** The double-quote character. *)
Definition dquote : ascii := ascii_of_nat 34.

(** [str(n)] for an [int], below the interpreter's limit on the length
    of decimal conversions. *)
Definition str_int (z : Z) : string := NilZero.string_of_int (Z.to_int z).

(** [s.startswith(p)]. *)
Fixpoint startswith (p s : string) : bool :=
  match p, s with
  | EmptyString, _ => true
  | String a p', String b s' => Ascii.eqb a b && startswith p' s'
  | String _ _, EmptyString => false
  end.

(** [s.replace(old, new)] for a non-empty [old]: the occurrences of
    [old] are found left to right and do not overlap.  [skip] counts the
    characters of a matched occurrence still to be dropped. *)
Fixpoint replace_from (old new : string) (skip : nat) (s : string) : string :=
  match s with
  | EmptyString => EmptyString
  | String c s' =>
      match skip with
      | S k => replace_from old new k s'
      | O =>
          if startswith old s
          then new ++ replace_from old new (String.length old - 1) s'
          else String c (replace_from old new 0 s')
      end
  end.

Definition replace (s old new : string) : string := replace_from old new 0 s.

(** [s.lstrip(c)], [s.rstrip(c)] and [s.strip(c)] for a one-character
    set [c]. *)
Fixpoint lstrip (c : ascii) (s : string) : string :=
  match s with
  | EmptyString => EmptyString
  | String a s' => if Ascii.eqb a c then lstrip c s' else s
  end.

Fixpoint rstrip (c : ascii) (s : string) : string :=
  match s with
  | EmptyString => EmptyString
  | String a s' =>
      match rstrip c s' with
      | EmptyString => if Ascii.eqb a c then EmptyString else String a EmptyString
      | r => String a r
      end
  end.

Definition strip (c : ascii) (s : string) : string := rstrip c (lstrip c s).

(** *** Numbers

    The values the modelled expressions denote: [int] (unbounded),
    [float] (binary64) and [None]. *)
Inductive value : Type :=
| PyInt (z : Z)
| PyFloat (f : float)
| PyNone.

(** An integer as an unrounded binary number. *)
Definition SF_exact (z : Z) : spec_float :=
  match z with
  | Z0 => S754_zero false
  | Zpos p => S754_finite false p 0
  | Zneg p => S754_finite true p 0
  end.

Definition SF_overflows (x : spec_float) : bool :=
  match x with
  | S754_infinity _ => true
  | _ => false
  end.

(** [float(n)] for an [int]: rounded to nearest, ties to even;
    [OverflowError] when [n] is too large. *)
Definition float_of_int (z : Z) : exn + float :=
  let x := binary_normalize prec emax z 0 false in
  if SF_overflows x then inl OverflowError else inr (SF2Prim x).

(** [a / b] on two [int]s: the correctly rounded quotient. *)
Definition int_truediv (a b : Z) : exn + float :=
  if (b =? 0)%Z then inl ZeroDivisionError
  else
    let x := SFdiv prec emax (SF_exact a) (SF_exact b) in
    if SF_overflows x then inl OverflowError else inr (SF2Prim x).

(** The decimal literal with digits [m] of which the last [k] follow the
    point: the binary64 number nearest to [m / 10^k]. *)
Definition float_literal (m : Z) (k : nat) : float :=
  SF2Prim (SFdiv prec emax (SF_exact m) (SF_exact (10 ^ Z.of_nat k))).

Inductive unop : Type := UPlus | UMinus.
Inductive binop : Type := Add | Sub | Mul | Div | FloorDiv | Mod | Pow.

(** Exponents above this bound are left outside the model. *)
Definition pow_limit : Z := 4096.

Definition float_binop (op : binop) (x y : float) : option (exn + value) :=
  match op with
  | Add => Some (inr (PyFloat (x + y)%float))
  | Sub => Some (inr (PyFloat (x - y)%float))
  | Mul => Some (inr (PyFloat (x * y)%float))
  | Div =>
      if PrimFloat.eqb y zero then Some (inl ZeroDivisionError)
      else Some (inr (PyFloat (x / y)%float))
  | FloorDiv | Mod | Pow => None
  end.

Definition int_binop (op : binop) (a b : Z) : option (exn + value) :=
  match op with
  | Add => Some (inr (PyInt (a + b)))
  | Sub => Some (inr (PyInt (a - b)))
  | Mul => Some (inr (PyInt (a * b)))
  | Div =>
      match int_truediv a b with
      | inl e => Some (inl e)
      | inr f => Some (inr (PyFloat f))
      end
  | FloorDiv =>
      if (b =? 0)%Z then Some (inl ZeroDivisionError)
      else Some (inr (PyInt (a / b)))
  | Mod =>
      if (b =? 0)%Z then Some (inl ZeroDivisionError)
      else Some (inr (PyInt (a mod b)))
  | Pow =>
      if ((0 <=? b) && (b <=? pow_limit))%Z then Some (inr (PyInt (a ^ b)))
      else None
  end.

(** A binary arithmetic operator on two values; [None] where the model
    says nothing (floor division, remainder and powers of floats,
    negative and very large exponents). *)
Definition apply_binop (op : binop) (x y : value) : option (exn + value) :=
  match x, y with
  | PyNone, _ | _, PyNone => Some (inl TypeError)
  | PyInt a, PyInt b => int_binop op a b
  | PyFloat f, PyFloat g => float_binop op f g
  | PyInt a, PyFloat g =>
      match op with
      | FloorDiv | Mod | Pow => None
      | _ =>
          match float_of_int a with
          | inl e => Some (inl e)
          | inr f => float_binop op f g
          end
      end
  | PyFloat f, PyInt b =>
      match op with
      | FloorDiv | Mod | Pow => None
      | _ =>
          match float_of_int b with
          | inl e => Some (inl e)
          | inr g => float_binop op f g
          end
      end
  end.

Definition apply_unop (op : unop) (x : value) : exn + value :=
  match op, x with
  | _, PyNone => inl TypeError
  | UPlus, _ => inr x
  | UMinus, PyInt a => inr (PyInt (- a))
  | UMinus, PyFloat f => inr (PyFloat (- f)%float)
  end.

(** [x == y] on values. *)
Definition value_eq (x y : value) : bool :=
  match x, y with
  | PyNone, PyNone => true
  | PyInt a, PyInt b => (a =? b)%Z
  | PyFloat f, PyFloat g => PrimFloat.eqb f g
  | PyInt a, PyFloat g | PyFloat g, PyInt a =>
      match Prim2SF g with
      | S754_zero _ => (a =? 0)%Z
      | S754_finite s m e =>
          let n := if s then Zneg m else Zpos m in
          if (0 <=? e)%Z then (a =? n * 2 ^ e)%Z
          else (a * 2 ^ (- e) =? n)%Z
      | _ => false
      end
  | _, _ => false
  end.

(** *** Expressions: a fragment of the expression syntax

    Integer and decimal literals, names, attribute references, calls
    with at most one positional argument, unary [+] and [-], and the
    binary operators [+ - * / // % **].  Text that uses anything else is
    outside the fragment: the lexer then answers [None] and the parser
    [PUnsupported], never a syntax error. *)

Inductive token : Type :=
| TInt (z : Z)
| TFloat (m : Z) (k : nat)
| TName (s : string)
| TPlus | TMinus | TStar | TSlash | TDSlash | TPercent | TDStar
| TLParen | TRParen | TDot.

Definition is_digit (c : ascii) : bool :=
  let n := nat_of_ascii c in ((48 <=? n) && (n <=? 57))%nat.

Definition digit_value (c : ascii) : Z := Z.of_nat (nat_of_ascii c - 48).

Definition is_name_start (c : ascii) : bool :=
  let n := nat_of_ascii c in
  (((65 <=? n) && (n <=? 90)) || ((97 <=? n) && (n <=? 122)) || (n =? 95))%nat.

Definition is_space (c : ascii) : bool :=
  let n := nat_of_ascii c in ((n =? 32) || (n =? 9))%nat.

Definition keywords : list string :=
  [ "False"; "None"; "True"; "and"; "as"; "assert"; "async"; "await";
    "break"; "class"; "continue"; "def"; "del"; "elif"; "else"; "except";
    "finally"; "for"; "from"; "global"; "if"; "import"; "in"; "is";
    "lambda"; "nonlocal"; "not"; "or"; "pass"; "raise"; "return"; "try";
    "while"; "with"; "yield" ].

(** Longest integer literal read in every version of the language. *)
Definition max_int_digits : nat := 4300.

(** The token being read. *)
Inductive lex_state : Type :=
| LStart
| LInt (first_is_zero : bool) (z : Z) (ndigits : nat)
| LFrac (m : Z) (k : nat)
| LName (s : string)
| LStar
| LSlash
| LDot.

(** The tokens a finished state stands for; [None] outside the fragment
    (a keyword, an integer literal with a leading zero or too long). *)
Definition lex_flush (st : lex_state) : option (list token) :=
  match st with
  | LStart => Some []
  | LInt z0 z n =>
      if (z0 && (1 <? n)%nat) || (max_int_digits <? n)%nat then None
      else Some [TInt z]
  | LFrac m k => Some [TFloat m k]
  | LName s => if existsb (String.eqb s) keywords then None else Some [TName s]
  | LStar => Some [TStar]
  | LSlash => Some [TSlash]
  | LDot => Some [TDot]
  end.

(** A character read between tokens. *)
Definition lex_start (c : ascii) : option (list token * lex_state) :=
  if is_space c then Some ([], LStart)
  else if is_digit c then
    Some ([], LInt (Ascii.eqb c "0") (digit_value c) 1)
  else if is_name_start c then Some ([], LName (String c EmptyString))
  else if Ascii.eqb c "." then Some ([], LDot)
  else if Ascii.eqb c "*" then Some ([], LStar)
  else if Ascii.eqb c "/" then Some ([], LSlash)
  else if Ascii.eqb c "+" then Some ([TPlus], LStart)
  else if Ascii.eqb c "-" then Some ([TMinus], LStart)
  else if Ascii.eqb c "%" then Some ([TPercent], LStart)
  else if Ascii.eqb c "(" then Some ([TLParen], LStart)
  else if Ascii.eqb c ")" then Some ([TRParen], LStart)
  else None.

(** The token read so far ends before [c]. *)
Definition lex_end_then (st : lex_state) (c : ascii)
  : option (list token * lex_state) :=
  match lex_flush st, lex_start c with
  | Some ts, Some (ts', st') => Some (ts ++ ts', st')
  | _, _ => None
  end.

Definition lex_step (st : lex_state) (c : ascii)
  : option (list token * lex_state) :=
  match st with
  | LStart => lex_start c
  | LInt z0 z n =>
      if is_digit c then Some ([], LInt z0 (10 * z + digit_value c) (S n))
      else if Ascii.eqb c "." then
        if (max_int_digits <? n)%nat then None else Some ([], LFrac z 0)
      else if is_name_start c then None
      else lex_end_then st c
  | LFrac m k =>
      if is_digit c then Some ([], LFrac (10 * m + digit_value c) (S k))
      else if is_name_start c then None
      else lex_end_then st c
  | LName s =>
      if is_name_start c || is_digit c
      then Some ([], LName (s ++ String c EmptyString))
      else lex_end_then st c
  | LStar =>
      if Ascii.eqb c "*" then Some ([TDStar], LStart) else lex_end_then st c
  | LSlash =>
      if Ascii.eqb c "/" then Some ([TDSlash], LStart) else lex_end_then st c
  | LDot =>
      if is_digit c then Some ([], LFrac (digit_value c) 1)
      else if Ascii.eqb c "." then None
      else lex_end_then st c
  end.

Fixpoint lex_from (st : lex_state) (s : string) : option (list token) :=
  match s with
  | EmptyString => lex_flush st
  | String c s' =>
      match lex_step st c with
      | None => None
      | Some (ts, st') =>
          match lex_from st' s' with
          | None => None
          | Some ts' => Some (ts ++ ts')
          end
      end
  end.

Definition lex (s : string) : option (list token) := lex_from LStart s.

Inductive expr : Type :=
| EInt (z : Z)
| EFloat (m : Z) (k : nat)
| EName (s : string)
| EAttr (e : expr) (name : string)
| ECall0 (f : expr)
| ECall1 (f arg : expr)
| EUn (op : unop) (e : expr)
| EBin (op : binop) (e1 e2 : expr).

Inductive presult (A : Type) : Type :=
| POk (a : A) (rest : list token)
| PSyntaxError
| PUnsupported.
Arguments PSyntaxError {A}.
Arguments PUnsupported {A}.

Definition term_op (t : token) : option binop :=
  match t with
  | TStar => Some Mul
  | TSlash => Some Div
  | TDSlash => Some FloorDiv
  | TPercent => Some Mod
  | _ => None
  end.

Definition sum_op (t : token) : option binop :=
  match t with
  | TPlus => Some Add
  | TMinus => Some Sub
  | _ => None
  end.

(** Recursive descent over the grammar
<<
  sum     ::= term (('+' | '-') term)*
  term    ::= factor (('*' | '/' | '//' | '%') factor)*
  factor  ::= ('+' | '-') factor | power
  power   ::= primary ['**' factor]
  primary ::= atom ('.' NAME | '(' [sum] ')')*
  atom    ::= NUMBER | NAME | '(' sum ')'
>>
    A star where an operand is expected (an unpacked argument) and the
    empty tuple are outside the fragment.  [fuel] bounds the depth of the
    descent; running out of it answers [PUnsupported]. *)
Fixpoint parse_sum (fuel : nat) (ts : list token) : presult expr :=
  match fuel with
  | O => PUnsupported
  | S fuel' =>
      match parse_term fuel' ts with
      | POk e rest => parse_sum_rest fuel' e rest
      | r => r
      end
  end
with parse_sum_rest (fuel : nat) (left : expr) (ts : list token) : presult expr :=
  match fuel with
  | O => PUnsupported
  | S fuel' =>
      match ts with
      | t :: ts' =>
          match sum_op t with
          | Some op =>
              match parse_term fuel' ts' with
              | POk e rest => parse_sum_rest fuel' (EBin op left e) rest
              | r => r
              end
          | None => POk left ts
          end
      | [] => POk left ts
      end
  end
with parse_term (fuel : nat) (ts : list token) : presult expr :=
  match fuel with
  | O => PUnsupported
  | S fuel' =>
      match parse_factor fuel' ts with
      | POk e rest => parse_term_rest fuel' e rest
      | r => r
      end
  end
with parse_term_rest (fuel : nat) (left : expr) (ts : list token) : presult expr :=
  match fuel with
  | O => PUnsupported
  | S fuel' =>
      match ts with
      | t :: ts' =>
          match term_op t with
          | Some op =>
              match parse_factor fuel' ts' with
              | POk e rest => parse_term_rest fuel' (EBin op left e) rest
              | r => r
              end
          | None => POk left ts
          end
      | [] => POk left ts
      end
  end
with parse_factor (fuel : nat) (ts : list token) : presult expr :=
  match fuel with
  | O => PUnsupported
  | S fuel' =>
      match ts with
      | TPlus :: ts' =>
          match parse_factor fuel' ts' with
          | POk e rest => POk (EUn UPlus e) rest
          | r => r
          end
      | TMinus :: ts' =>
          match parse_factor fuel' ts' with
          | POk e rest => POk (EUn UMinus e) rest
          | r => r
          end
      | _ => parse_power fuel' ts
      end
  end
with parse_power (fuel : nat) (ts : list token) : presult expr :=
  match fuel with
  | O => PUnsupported
  | S fuel' =>
      match parse_atom fuel' ts with
      | POk e rest =>
          match parse_trailers fuel' e rest with
          | POk e' (TDStar :: rest') =>
              match parse_factor fuel' rest' with
              | POk x rest'' => POk (EBin Pow e' x) rest''
              | r => r
              end
          | r => r
          end
      | r => r
      end
  end
with parse_trailers (fuel : nat) (e : expr) (ts : list token) : presult expr :=
  match fuel with
  | O => PUnsupported
  | S fuel' =>
      match ts with
      | TDot :: TName n :: rest => parse_trailers fuel' (EAttr e n) rest
      | TDot :: _ => PSyntaxError
      | TLParen :: TRParen :: rest => parse_trailers fuel' (ECall0 e) rest
      | TLParen :: rest =>
          match parse_sum fuel' rest with
          | POk arg (TRParen :: rest') => parse_trailers fuel' (ECall1 e arg) rest'
          | POk _ _ => PSyntaxError
          | r => r
          end
      | _ => POk e ts
      end
  end
with parse_atom (fuel : nat) (ts : list token) : presult expr :=
  match fuel with
  | O => PUnsupported
  | S fuel' =>
      match ts with
      | TInt z :: rest => POk (EInt z) rest
      | TFloat m k :: rest => POk (EFloat m k) rest
      | TName s :: rest => POk (EName s) rest
      | TLParen :: TRParen :: _ => PUnsupported
      | TLParen :: rest =>
          match parse_sum fuel' rest with
          | POk e (TRParen :: rest') => POk e rest'
          | POk _ _ => PSyntaxError
          | r => r
          end
      | TStar :: _ | TDStar :: _ => PUnsupported
      | _ => PSyntaxError
      end
  end.

(** The depth the descent is given: every level of it reads a token,
    and no token opens more than five levels. *)
Definition parse_fuel (ts : list token) : nat := 8 * List.length ts + 8.

(** The whole text as one expression. *)
Definition parse (s : string) : presult expr :=
  match lex s with
  | None => PUnsupported
  | Some ts =>
      match parse_sum (parse_fuel ts) ts with
      | POk e [] => POk e []
      | POk _ (_ :: _) => PSyntaxError
      | r => r
      end
  end.

End Py.

(** ** The data model of [main.py] *)

(** [class BoardSize]: the constructor stores its three arguments. *)
Record BoardSize : Type := mkBoardSize {
  width : Z;
  height : Z;
  thickness : Z
}.

(** [BoardSize()] with the default arguments of [__init__]. *)
Definition BoardSize_default : BoardSize :=
  {| width := 200; height := 800; thickness := 16 |}.

Module QltMachineRow.

(** The attributes [__init__] stores on an instance. *)
Record t : Type := mk {
  coordinates : list string;
  use : string;
  layer : string;
  diam : string;
  depth : string;
  rep_qty : string;
  repx : string;
  repy : string
}.

(** The call [QltMachineRow] with the unpacked argument list [args]: the
    first ten positional arguments bind to
    [use, layer, diam, depth, x, y, rep_qty, repx, repy, z], the rest to
    [*additional_coordinates]; with fewer than ten the call raises
    [TypeError].  The body appends [x], [y], [z] and then every
    additional coordinate to [self.coordinates]. *)
Definition __init__ (args : list string) : Py.exn + t :=
  match args with
  | use :: layer :: diam :: depth :: x :: y :: rep_qty :: repx :: repy :: z
      :: additional_coordinates =>
      let coordinates := [] in
      let coordinates := coordinates ++ [x] in
      let coordinates := coordinates ++ [y] in
      let coordinates := coordinates ++ [z] in
      let coordinates :=
        fold_left (fun acc coords => acc ++ [coords])
                  additional_coordinates coordinates in
      inr {| coordinates := coordinates; use := use; layer := layer;
             diam := diam; depth := depth; rep_qty := rep_qty;
             repx := repx; repy := repy |}
  | _ => inl Py.TypeError
  end.

(** What an attribute of an instance holds. *)
Inductive attr : Type :=
| AStr (s : string)
| AList (l : list string)
| AMethod (name : string).

(** The instance dictionary after [__init__], in assignment order. *)
Definition __dict__ (self : t) : list (string * attr) :=
  [ ("coordinates", AList (coordinates self));
    ("use", AStr (use self));
    ("layer", AStr (layer self));
    ("diam", AStr (diam self));
    ("depth", AStr (depth self));
    ("rep_qty", AStr (rep_qty self));
    ("repx", AStr (repx self));
    ("repy", AStr (repy self)) ].

(** The names the class body defines. *)
Definition class_names : list string :=
  [ "__init__"; "calculate_coordinates"; "pack_coordinate"; "__repr__" ].

Fixpoint assoc (k : string) (d : list (string * attr)) : option attr :=
  match d with
  | [] => None
  | (k', v) :: d' => if String.eqb k k' then Some v else assoc k d'
  end.

(** [self.name]: the instance dictionary first, then the class. *)
Definition getattr (self : t) (name : string) : Py.exn + attr :=
  match assoc name (__dict__ self) with
  | Some a => inr a
  | None =>
      if existsb (String.eqb name) class_names
      then inr (AMethod name)
      else inl (Py.AttributeError name)
  end.

(** A piece of a formatted string literal: constant text, or a value
    still to be formatted. *)
Inductive piece : Type :=
| Lit (s : string)
| Fmt (a : attr).

Definition bind {A B : Type} (m : Py.exn + A) (k : A -> Py.exn + B) : Py.exn + B :=
  match m with
  | inl e => inl e
  | inr a => k a
  end.

(** [__repr__]: the replacement fields of the two adjacent f-strings
    are evaluated left to right. *)
Definition __repr__ (self : t) : Py.exn + list piece :=
  bind (getattr self "use") (fun v_use =>
  bind (getattr self "layer") (fun v_layer =>
  bind (getattr self "diam") (fun v_diam =>
  bind (getattr self "depth") (fun v_depth =>
  bind (getattr self "x") (fun v_x =>
  inr [ Lit "QltMachineRow(use="; Fmt v_use;
        Lit ", layer="; Fmt v_layer;
        Lit ", diam="; Fmt v_diam;
        Lit ", "; Lit "depth="; Fmt v_depth;
        Lit ", first_coordinate="; Fmt v_x; Lit ")" ]))))).

(** *** [calculate_coordinates]

    [eval(coord_expr)] runs the text in the scope of the method, where
    the names [self], [panel], [results] and [current_triplet] denote the
    very objects the loop works on and [calculated_value] the value of
    the last evaluation that succeeded, unbound before the first.  They
    are therefore kept in a [frame] that the evaluator receives and hands
    back; the evaluator itself is a parameter, with the value type [V] of
    what it computes.  It answers [None] when it gives no answer at
    all. *)

Section Evaluate.

Variable V : Type.

Record frame : Type := mkFrame {
  self : t;
  panel : BoardSize;
  results : list (list V);
  current_triplet : list V;
  calculated_value : option V
}.

Inductive outcome : Type :=
| Value (v : V)
| Raised (e : Py.exn).

Definition evaluator : Type := string -> frame -> option (outcome * frame).

(** A line printed by the method: the echo of an expression, or the
    report of a failed evaluation. *)
Inductive output : Type :=
| Echo (coord_expr : string)
| EvalError (coord_expr : string) (e : Py.exn).

(** How the call ends. *)
Inductive completion : Type :=
| Returned (res : list (list V))
| Propagated (e : Py.exn).

(** The three [replace] calls and the [strip] of the loop body. *)
Definition prepare (panel : BoardSize) (coord_expr : string) : string :=
  let coord_expr := Py.replace coord_expr "Dim1" (Py.str_int (height panel)) in
  let coord_expr := Py.replace coord_expr "Dim2" (Py.str_int (width panel)) in
  let coord_expr := Py.replace coord_expr "Dim3" (Py.str_int (thickness panel)) in
  Py.strip Py.dquote coord_expr.

(** The assignment [calculated_value = eval(coord_expr)], once the
    evaluation has given its value. *)
Definition assign (fr : frame) (v : V) : frame :=
  {| self := self fr; panel := panel fr; results := results fr;
     current_triplet := current_triplet fr; calculated_value := Some v |}.

(** [current_triplet.append(calculated_value)] and the test that
    follows it. *)
Definition push (fr : frame) (v : V) : frame :=
  let current_triplet := current_triplet fr ++ [v] in
  if (List.length current_triplet =? 3)%nat
  then {| self := self fr; panel := panel fr;
          results := results fr ++ [current_triplet];
          current_triplet := [];
          calculated_value := calculated_value fr |}
  else {| self := self fr; panel := panel fr;
          results := results fr;
          current_triplet := current_triplet;
          calculated_value := calculated_value fr |}.

Variable eval : evaluator.

(** The [for] loop: the list iterator holds an index [i] into
    [self.coordinates] and stops when the index reaches the current
    length of the list.  [fuel] bounds the number of iterations. *)
Fixpoint loop (fuel i : nat) (fr : frame) (out : list output)
  : option (completion * frame * list output) :=
  match fuel with
  | O => None
  | S fuel' =>
      match nth_error (coordinates (self fr)) i with
      | None => Some (Returned (results fr), fr, out)
      | Some coord_expr =>
          if String.eqb coord_expr EmptyString then loop fuel' (S i) fr out
          else
            let out := out ++ [Echo coord_expr] in
            let coord_expr := prepare (panel fr) coord_expr in
            match eval coord_expr fr with
            | None => None
            | Some (Raised e, fr') =>
                if Py.is_Exception e
                then loop fuel' (S i) fr' (out ++ [EvalError coord_expr e])
                else Some (Propagated e, fr', out)
            | Some (Value v, fr') =>
                loop fuel' (S i) (push (assign fr' v) v) out
            end
      end
  end.

Definition enter (self : t) (panel : BoardSize) : frame :=
  {| self := self; panel := panel; results := []; current_triplet := [];
     calculated_value := None |}.

Definition calculate_coordinates (fuel : nat) (self : t) (panel : BoardSize)
  : option (completion * frame * list output) :=
  loop fuel 0 (enter self panel) [].

(** The static method [pack_coordinate]. *)
Definition pack_coordinate (x y z : V) : list V := [x; y; z].

End Evaluate.

Arguments Value {V} v.
Arguments Raised {V} e.
Arguments Returned {V} res.
Arguments Propagated {V} e.

End QltMachineRow.

(** ** The built-in [eval] in the scope of [calculate_coordinates]

    A model of [eval] on the fragment of [Py.parse].  Names resolve in
    the scope of the call: the locals [self], [panel], [results],
    [current_triplet], [calculated_value] and [coord_expr], then the
    names of the module and the built-in names.  Of the objects in scope
    the model follows the three attributes of [panel], [self.coordinates],
    the value of [calculated_value], and the list methods
    [current_triplet.append], [current_triplet.clear], [results.clear]
    and [self.coordinates.clear].  Whatever else the text does is outside
    the model, which then answers [None]. *)

Module Eval.

Import QltMachineRow.

(** The objects a name or an attribute reference can denote. *)
Inductive ref : Type := RPanel | RSelf | RCoordinates | RResults | RTriplet.

Inductive rv : Type :=
| RVal (v : Py.value)
| RRef (r : ref)
| RMeth (r : ref) (name : string).

(** Names bound by the module. *)
Definition module_names : list string :=
  [ "csv"; "plt"; "patches"; "List"; "Any"; "COLUMN_KEYS"; "COLUMN_TYPES";
    "BoardSize"; "QltMachineRow"; "decode_tsv"; "main" ].

(** Built-in names other than exception classes and keywords. *)
Definition builtin_names : list string :=
  [ "abs"; "aiter"; "all"; "anext"; "any"; "ascii"; "bin"; "bool";
    "breakpoint"; "bytearray"; "bytes"; "callable"; "chr"; "classmethod";
    "compile"; "complex"; "copyright"; "credits"; "delattr"; "dict"; "dir";
    "divmod"; "enumerate"; "eval"; "exec"; "exit"; "filter"; "float";
    "format"; "frozenset"; "getattr"; "globals"; "hasattr"; "hash"; "help";
    "hex"; "id"; "input"; "int"; "isinstance"; "issubclass"; "iter"; "len";
    "license"; "list"; "locals"; "map"; "max"; "memoryview"; "min"; "next";
    "object"; "oct"; "open"; "ord"; "pow"; "print"; "property"; "quit";
    "range"; "repr"; "reversed"; "round"; "set"; "setattr"; "slice";
    "sorted"; "staticmethod"; "str"; "sum"; "super"; "tuple"; "type";
    "vars"; "zip"; "Ellipsis"; "NotImplemented" ].

(** The endings of the names of the built-in exception classes. *)
Definition exception_suffixes : list string :=
  [ "Error"; "Exception"; "Warning"; "Exit"; "Interrupt"; "Iteration";
    "Group" ].

Fixpoint endswith (s suffix : string) : bool :=
  String.eqb s suffix ||
  match s with
  | EmptyString => false
  | String _ s' => endswith s' suffix
  end.

(** A name that may be bound in scope although the model does not
    follow it. *)
Definition maybe_bound (name : string) : bool :=
  Py.startswith "_" name
  || String.eqb name "coord_expr"
  || existsb (String.eqb name) module_names
  || existsb (String.eqb name) builtin_names
  || existsb (endswith name) exception_suffixes.

Definition frame : Type := QltMachineRow.frame Py.value.

(** A name: the locals of the method first.  [calculated_value] is
    bound from the first successful evaluation on. *)
Definition lookup_name (name : string) (fr : frame) : option (Py.exn + rv) :=
  if String.eqb name "self" then Some (inr (RRef RSelf))
  else if String.eqb name "panel" then Some (inr (RRef RPanel))
  else if String.eqb name "results" then Some (inr (RRef RResults))
  else if String.eqb name "current_triplet" then Some (inr (RRef RTriplet))
  else if String.eqb name "calculated_value" then
    match calculated_value fr with
    | Some v => Some (inr (RVal v))
    | None => Some (inl Py.NameError)
    end
  else if maybe_bound name then None
  else Some (inl Py.NameError).

Definition is_list (r : ref) : bool :=
  match r with
  | RCoordinates | RResults | RTriplet => true
  | RPanel | RSelf => false
  end.

Definition get_attribute (x : rv) (name : string) (fr : frame) : option rv :=
  match x with
  | RRef RPanel =>
      if String.eqb name "width" then Some (RVal (Py.PyInt (width (panel fr))))
      else if String.eqb name "height" then Some (RVal (Py.PyInt (height (panel fr))))
      else if String.eqb name "thickness" then Some (RVal (Py.PyInt (thickness (panel fr))))
      else None
  | RRef RSelf =>
      if String.eqb name "coordinates" then Some (RRef RCoordinates) else None
  | RRef r =>
      if is_list r && (String.eqb name "append" || String.eqb name "clear")
      then Some (RMeth r name)
      else None
  | _ => None
  end.

Definition set_coordinates (self : t) (l : list string) : t :=
  {| coordinates := l; use := use self; layer := layer self;
     diam := diam self; depth := depth self; rep_qty := rep_qty self;
     repx := repx self; repy := repy self |}.

(** [l.clear()] on one of the three lists. *)
Definition clear (r : ref) (fr : frame) : option frame :=
  match r with
  | RTriplet =>
      Some {| self := self fr; panel := panel fr; results := results fr;
              current_triplet := [];
              calculated_value := calculated_value fr |}
  | RResults =>
      Some {| self := self fr; panel := panel fr; results := [];
              current_triplet := current_triplet fr;
              calculated_value := calculated_value fr |}
  | RCoordinates =>
      Some {| self := set_coordinates (self fr) []; panel := panel fr;
              results := results fr; current_triplet := current_triplet fr;
              calculated_value := calculated_value fr |}
  | _ => None
  end.

Definition call0 (f : rv) (fr : frame) : option (rv * frame) :=
  match f with
  | RMeth r name =>
      if String.eqb name "clear" then
        match clear r fr with
        | Some fr' => Some (RVal Py.PyNone, fr')
        | None => None
        end
      else None
  | _ => None
  end.

Definition call1 (f arg : rv) (fr : frame) : option (rv * frame) :=
  match f, arg with
  | RMeth RTriplet name, RVal v =>
      if String.eqb name "append" then
        Some (RVal Py.PyNone,
              {| self := self fr; panel := panel fr; results := results fr;
                 current_triplet := current_triplet fr ++ [v];
                 calculated_value := calculated_value fr |})
      else None
  | _, _ => None
  end.

(** Evaluation, operands left to right. *)
Fixpoint eval_expr (e : Py.expr) (fr : frame) : option ((Py.exn + rv) * frame) :=
  match e with
  | Py.EInt z => Some (inr (RVal (Py.PyInt z)), fr)
  | Py.EFloat m k => Some (inr (RVal (Py.PyFloat (Py.float_literal m k))), fr)
  | Py.EName name =>
      match lookup_name name fr with
      | Some r => Some (r, fr)
      | None => None
      end
  | Py.EAttr e1 name =>
      match eval_expr e1 fr with
      | Some (inr x, fr1) =>
          match get_attribute x name fr1 with
          | Some y => Some (inr y, fr1)
          | None => None
          end
      | r => r
      end
  | Py.ECall0 f =>
      match eval_expr f fr with
      | Some (inr x, fr1) =>
          match call0 x fr1 with
          | Some (y, fr2) => Some (inr y, fr2)
          | None => None
          end
      | r => r
      end
  | Py.ECall1 f arg =>
      match eval_expr f fr with
      | Some (inr x, fr1) =>
          match eval_expr arg fr1 with
          | Some (inr a, fr2) =>
              match call1 x a fr2 with
              | Some (y, fr3) => Some (inr y, fr3)
              | None => None
              end
          | r => r
          end
      | r => r
      end
  | Py.EUn op e1 =>
      match eval_expr e1 fr with
      | Some (inr (RVal v), fr1) =>
          match Py.apply_unop op v with
          | inl x => Some (inl x, fr1)
          | inr w => Some (inr (RVal w), fr1)
          end
      | Some (inr _, _) => None
      | r => r
      end
  | Py.EBin op e1 e2 =>
      match eval_expr e1 fr with
      | Some (inr x, fr1) =>
          match eval_expr e2 fr1 with
          | Some (inr y, fr2) =>
              match x, y with
              | RVal v, RVal w =>
                  match Py.apply_binop op v w with
                  | Some (inl x) => Some (inl x, fr2)
                  | Some (inr u) => Some (inr (RVal u), fr2)
                  | None => None
                  end
              | _, _ => None
              end
          | r => r
          end
      | r => r
      end
  end.

(** [eval(coord_expr)]. *)
Definition py_eval : evaluator Py.value :=
  fun coord_expr fr =>
    match Py.parse coord_expr with
    | Py.PUnsupported => None
    | Py.PSyntaxError => Some (Raised Py.SyntaxError, fr)
    | Py.POk e _ =>
        match eval_expr e fr with
        | Some (inl x, fr') => Some (Raised x, fr')
        | Some (inr (RVal v), fr') => Some (Value v, fr')
        | _ => None
        end
    end.

End Eval.

(** ** Reading and decoding rows *)

(** [decode_tsv]: [reader] is the sequence of rows [csv.reader] yields
    for the file; the comprehension keeps the rows that are truthy, that
    is, non-empty. *)
Definition truthy_row (row : list string) : bool :=
  match row with
  | [] => false
  | _ :: _ => true
  end.

Definition decode_tsv (reader : list (list string)) : list (list string) :=
  filter truthy_row reader.

(** What the first loop of [main] prints. *)
Inductive row_report : Type :=
| RowError (i : nat) (e : Py.exn).

(** The first loop of [main], from index [i] on: [row[1:]] is [tl row],
    and [except Exception] catches the [TypeError] of the constructor. *)
Fixpoint main_rows_from (i : nat) (decoded_data : list (list string))
    (qlt_rows : list QltMachineRow.t) (out : list row_report)
  : list QltMachineRow.t * list row_report :=
  match decoded_data with
  | [] => (qlt_rows, out)
  | row :: rest =>
      if (i <? 4)%nat || (List.length row <? 10)%nat
      then main_rows_from (S i) rest qlt_rows out
      else
        match QltMachineRow.__init__ (tl row) with
        | inr qlt_row => main_rows_from (S i) rest (qlt_rows ++ [qlt_row]) out
        | inl e => main_rows_from (S i) rest qlt_rows (out ++ [RowError i e])
        end
  end.

Definition main_rows (decoded_data : list (list string))
  : list QltMachineRow.t * list row_report :=
  main_rows_from 0 decoded_data [] [].

(** [main] up to the end of its first loop, on the rows of the reader. *)
Definition main_decode (reader : list (list string)) : list QltMachineRow.t :=
  fst (main_rows (decode_tsv reader)).

(** ** Vocabulary of the statements *)

Import QltMachineRow.

(** A row that carries the coordinate expressions [l]. *)
Definition row_of (l : list string) : QltMachineRow.t :=
  {| coordinates := l; use := "1"; layer := "Top"; diam := "M3";
     depth := "Through"; rep_qty := "1"; repx := "0"; repy := "0" |}.

(** What the first loop of [main] makes of one row past the header. *)
Definition accepted (row : list string) : list QltMachineRow.t :=
  if (List.length row <? 10)%nat then []
  else
    match __init__ (tl row) with
    | inr qlt_row => [qlt_row]
    | inl _ => []
    end.

Section Grouping.

Variable V : Type.

(** Successive groups of three, and what is left over. *)
Fixpoint chunk3 (l : list V) : list (list V) :=
  match l with
  | a :: b :: c :: l' => [a; b; c] :: chunk3 l'
  | _ => []
  end.

Fixpoint rest3 (l : list V) : list V :=
  match l with
  | _ :: _ :: _ :: l' => rest3 l'
  | _ => l
  end.

Variable eval : evaluator V.
Variable self0 : QltMachineRow.t.
Variable panel0 : BoardSize.

(** The frame of a call on [self0] and [panel0] with the given
    results, buffer and last value. *)
Definition at_rest (res : list (list V)) (trip : list V) (cv : option V)
  : frame V :=
  {| self := self0; panel := panel0; results := res; current_triplet := trip;
     calculated_value := cv |}.

(** An outcome the [try] statement lets the loop go on after. *)
Definition caught (o : outcome V) : Prop :=
  match o with
  | Value _ => True
  | Raised e => Py.is_Exception e = true
  end.

(** Evaluating [coord_expr] gives the same answer in every state of the
    call, leaves the objects of the call as they are, and raises nothing
    that escapes [except Exception]. *)
Definition quiet_expr (coord_expr : string) : Prop :=
  exists o, caught o /\
    forall res trip cv,
      eval (prepare panel0 coord_expr) (at_rest res trip cv)
      = Some (o, at_rest res trip cv).

Definition quiet : Prop :=
  forall coord_expr,
    In coord_expr (coordinates self0) -> coord_expr <> EmptyString ->
    quiet_expr coord_expr.

(** What the loop body makes of the frame after a successful
    evaluation: lines 88, 93 and 94-96. *)
Definition take (fr : frame V) (v : V) : frame V := push (assign fr v) v.

(** The last of the values [vs], or [cv] when there is none. *)
Definition latest (cv : option V) (vs : list V) : option V :=
  fold_left (fun _ v => Some v) vs cv.

(** The evaluations of a call in their order, from the expressions [l]
    and the frame [fr] on: every expression that is evaluated, with the
    outcome of its evaluation in the state the call is in at that
    moment.  Nothing follows an evaluation that gives no answer or
    raises past [except Exception]. *)
Fixpoint evaluations (l : list string) (fr : frame V)
  : list (string * outcome V) :=
  match l with
  | [] => []
  | coord_expr :: l' =>
      if String.eqb coord_expr EmptyString then evaluations l' fr
      else
        match eval (prepare (panel fr) coord_expr) fr with
        | None => []
        | Some (Value v, fr') =>
            (coord_expr, Value v) :: evaluations l' (take fr' v)
        | Some (Raised e, fr') =>
            (coord_expr, Raised e)
              :: (if Py.is_Exception e then evaluations l' fr' else [])
        end
  end.

(** The value an evaluation resolves to, if it succeeds. *)
Definition value_in (eo : string * outcome V) : list V :=
  match snd eo with
  | Value v => [v]
  | Raised _ => []
  end.

(** The lines printed for an evaluation: the echo of the expression and,
    after a failure that is caught, its report. *)
Definition lines_in (eo : string * outcome V) : list output :=
  match snd eo with
  | Value _ => [Echo (fst eo)]
  | Raised e =>
      if Py.is_Exception e
      then [Echo (fst eo); EvalError (prepare panel0 (fst eo)) e]
      else [Echo (fst eo)]
  end.

(** The values the expressions of the row resolve to in the course of
    the call, in the order of their expressions, and the lines the call
    prints. *)
Definition resolved_in_call : list V :=
  flat_map value_in (evaluations (coordinates self0) (enter V self0 panel0)).

Definition printed_in_call : list output :=
  flat_map lines_in (evaluations (coordinates self0) (enter V self0 panel0)).

(** Evaluating an expression of the row, in whatever state the call is,
    leaves the list of expressions of the row, the list of results and
    the buffer as they are.  The outcome may depend on the state. *)
Definition keeps_lists : Prop :=
  forall coord_expr fr o fr',
    In coord_expr (coordinates self0) -> coord_expr <> EmptyString ->
    coordinates (self fr) = coordinates self0 ->
    eval (prepare (panel fr) coord_expr) fr = Some (o, fr') ->
    coordinates (self fr') = coordinates self0
    /\ results fr' = results fr
    /\ current_triplet fr' = current_triplet fr.

(** Evaluating an expression of the row gives an answer, and raises
    nothing that escapes [except Exception]. *)
Definition answers_within_Exception : Prop :=
  forall coord_expr fr,
    In coord_expr (coordinates self0) -> coord_expr <> EmptyString ->
    coordinates (self fr) = coordinates self0 ->
    exists o fr',
      eval (prepare (panel fr) coord_expr) fr = Some (o, fr') /\ caught o.

(** Evaluating an expression of the row hands back the row and the
    board it was given.  Nothing is asked of the outcome, of the results
    or of the buffer. *)
Definition keeps_row_and_board : Prop :=
  forall coord_expr fr o fr',
    In coord_expr (coordinates self0) -> coord_expr <> EmptyString ->
    self fr = self0 -> panel fr = panel0 ->
    eval (prepare panel0 coord_expr) fr = Some (o, fr') ->
    self fr' = self0 /\ panel fr' = panel0.

(** Evaluating an expression of the row gives an answer. *)
Definition answers : Prop :=
  forall coord_expr fr,
    In coord_expr (coordinates self0) -> coord_expr <> EmptyString ->
    self fr = self0 -> panel fr = panel0 ->
    exists r, eval (prepare panel0 coord_expr) fr = Some r.

(** The outcome of an expression in the frame on entry. *)
Definition outcome_of (coord_expr : string) : option (outcome V) :=
  option_map fst (eval (prepare panel0 coord_expr) (enter V self0 panel0)).

(** The value an expression resolves to, if it is non-empty and its
    evaluation succeeds. *)
Definition value_of (coord_expr : string) : list V :=
  if String.eqb coord_expr EmptyString then []
  else
    match outcome_of coord_expr with
    | Some (Value v) => [v]
    | _ => []
    end.

(** The lines printed for an expression. *)
Definition lines_of (coord_expr : string) : list output :=
  if String.eqb coord_expr EmptyString then []
  else
    match outcome_of coord_expr with
    | Some (Raised e) =>
        [Echo coord_expr; EvalError (prepare panel0 coord_expr) e]
    | _ => [Echo coord_expr]
    end.

(** The successfully resolved values of the row, in the order of their
    expressions, and the lines printed for the row. *)
Definition resolved : list V := flat_map value_of (coordinates self0).
Definition reported : list output := flat_map lines_of (coordinates self0).

End Grouping.

(** The grammar the specification describes: decimal literals, unary
    minus, the binary operators [+ - * /] and parentheses. *)
Fixpoint spec_expr (e : Py.expr) : bool :=
  match e with
  | Py.EInt _ | Py.EFloat _ _ => true
  | Py.EUn Py.UMinus e1 => spec_expr e1
  | Py.EBin (Py.Add | Py.Sub | Py.Mul | Py.Div) e1 e2 => spec_expr e1 && spec_expr e2
  | _ => false
  end.

Definition in_spec_grammar (s : string) : bool :=
  match Py.parse s with
  | Py.POk e _ => spec_expr e
  | _ => false
  end.

(** An expression in which nothing is called, and a text that is read
    as such an expression or not read as an expression at all. *)
Fixpoint call_free (e : Py.expr) : bool :=
  match e with
  | Py.EInt _ | Py.EFloat _ _ | Py.EName _ => true
  | Py.EAttr e1 _ | Py.EUn _ e1 => call_free e1
  | Py.EBin _ e1 e2 => call_free e1 && call_free e2
  | Py.ECall0 _ | Py.ECall1 _ _ => false
  end.

Definition call_free_text (s : string) : bool :=
  match Py.parse s with
  | Py.POk e _ => call_free e
  | _ => true
  end.

(** The arithmetic value of an expression of that grammar; [None] where
    it has none (the other forms of expression). *)
Fixpoint arith (e : Py.expr) : option (Py.exn + Py.value) :=
  match e with
  | Py.EInt z => Some (inr (Py.PyInt z))
  | Py.EFloat m k => Some (inr (Py.PyFloat (Py.float_literal m k)))
  | Py.EUn Py.UMinus e1 =>
      match arith e1 with
      | Some (inr v) => Some (Py.apply_unop Py.UMinus v)
      | r => r
      end
  | Py.EBin op e1 e2 =>
      match arith e1 with
      | Some (inr v) =>
          match arith e2 with
          | Some (inr w) => Py.apply_binop op v w
          | r => r
          end
      | r => r
      end
  | _ => None
  end.

Definition outcome_of_arith (r : Py.exn + Py.value) : outcome Py.value :=
  match r with
  | inl x => Raised x
  | inr v => Value v
  end.

(** A header row of eleven columns, a data row, and the record made of
    the data row. *)
Definition example_header : list string :=
  [ "0"; "Use"; "Layer"; "Diam"; "Depth"; "x"; "y"; "RepQty"; "Repx";
    "Repy"; "z" ].

Definition example_data : list string :=
  [ "1"; "1"; "Top"; "M3"; "Through"; "Dim1/2"; "50"; "1"; "0"; "0"; "" ].

Definition example_record : QltMachineRow.t :=
  {| coordinates := ["Dim1/2"; "50"; ""]; use := "1"; layer := "Top";
     diam := "M3"; depth := "Through"; rep_qty := "1"; repx := "0";
     repy := "0" |}.

(** The characters of the decimal form of an integer. *)
Definition sign_or_digit (c : ascii) : bool := Py.is_digit c || Ascii.eqb c "-".

Fixpoint all_chars (p : ascii -> bool) (s : string) : bool :=
  match s with
  | EmptyString => true
  | String c s' => p c && all_chars p s'
  end.

(** ** The rest of [main.py] *)

(** A string between double quotes. *)
Definition quoted (s : string) : string :=
  String Py.dquote (s ++ String Py.dquote EmptyString).

(** The two module-level tables. *)
Definition COLUMN_KEYS : list string :=
  EmptyString ::
  map quoted
    [ "Use"; "Layer"; "Diam"; "Depth"; "x"; "y"; "RepQty"; "Repx"; "Repy"; "z";
      "x2"; "y2"; "z2"; "x3"; "y3"; "z3"; "x4"; "y4"; "z4"; "x5"; "y5"; "z5";
      "x6"; "y6"; "z6"; "x7"; "y7"; "z7"; "x8"; "y8"; "z8"; "x9"; "y9"; "z9";
      "x10"; "y10"; "z10" ].

Definition COLUMN_TYPES : list string :=
  [ "Whole Number\String"; "Whole Number"; "String"; "Length"; "String";
    "String"; "String";
    "Whole Number"; "String"; "String"; "<none>"; "String"; "String";
    "<none>"; "String"; "String";
    "<none>"; "String"; "String"; "<none>"; "String"; "String"; "<none>";
    "String"; "String"; "<none>";
    "<none>"; "<none>"; "<none>"; "<none>"; "<none>"; "<none>"; "<none>";
    "<none>"; "<none>"; "<none>";
    "<none>"; "<none>" ].

(** How a call into the host ends: normally, with an exception, or in a
    way the model does not follow. *)
Inductive effect : Type :=
| Done
| Fails (e : Py.exn)
| Unknown.

Section Main.

Variable V : Type.
Variable eval : evaluator V.

(** The two calls of the second loop that are handed values:
    [print(triplet)] and [ax.plot(x, y, 'ro')]. *)
Variable print_triplet : list V -> effect.
Variable ax_plot : V -> V -> effect.

(** What [main] does that can be observed, in order: the lines it
    prints and the calls it makes on the plot. *)
Inductive event : Type :=
| ERow (r : row_report)
| EPatch (x y w h : Z)
| ECalc (o : output)
| ETriplet (triplet : list V)
| EPlot (x y : V)
| EShow.

(** The inner loop of the second loop of [main]: [print(triplet)], then
    [ax.plot(triplet[0], triplet[1], 'ro')].  Either call can raise, and
    an index out of range raises [IndexError]; an exception ends the
    loop.  The result is the events so far and the exception that ended
    the loop, if any; there is none where the model does not follow a
    call. *)
Fixpoint plot_triplets (coordinates : list (list V))
  : option (list event * option Py.exn) :=
  match coordinates with
  | [] => Some ([], None)
  | triplet :: rest =>
      match print_triplet triplet with
      | Unknown => None
      | Fails e => Some ([], Some e)
      | Done =>
          match nth_error triplet 0, nth_error triplet 1 with
          | Some x, Some y =>
              match ax_plot x y with
              | Unknown => None
              | Fails e => Some ([ETriplet triplet], Some e)
              | Done =>
                  match plot_triplets rest with
                  | None => None
                  | Some (evs, end_) =>
                      Some (ETriplet triplet :: EPlot x y :: evs, end_)
                  end
              end
          | _, _ =>
              Some ([ETriplet triplet], Some (Py.OtherException "IndexError"))
          end
      end
  end.

(** The second loop of [main]: every row is evaluated against the one
    board object, which the next row receives as the call left it. *)
Fixpoint plot_rows (fuel : nat) (board : BoardSize)
    (qlt_rows : list QltMachineRow.t) : option (list event * option Py.exn) :=
  match qlt_rows with
  | [] => Some ([], None)
  | machine_row :: rest =>
      match calculate_coordinates eval fuel machine_row board with
      | None => None
      | Some (Propagated e, _, out) => Some (map ECalc out, Some e)
      | Some (Returned coordinates, fr, out) =>
          match plot_triplets coordinates with
          | None => None
          | Some (evs, Some e) => Some (map ECalc out ++ evs, Some e)
          | Some (evs, None) =>
              match plot_rows fuel (panel fr) rest with
              | None => None
              | Some (evs', end_) => Some (map ECalc out ++ evs ++ evs', end_)
              end
          end
      end
  end.

(** [main] on the rows the reader yields for the file.  [fuel] bounds
    the iterations of each call of [calculate_coordinates]. *)
Definition main (fuel : nat) (reader : list (list string))
  : option (list event * option Py.exn) :=
  let decoded_data := decode_tsv reader in
  let (qlt_rows, reports) := main_rows decoded_data in
  let board := BoardSize_default in
  let before := map ERow reports ++ [EPatch 0 0 (width board) (height board)] in
  match plot_rows fuel board qlt_rows with
  | None => None
  | Some (evs, Some e) => Some (before ++ evs, Some e)
  | Some (evs, None) => Some (before ++ evs ++ [EShow], None)
  end.

End Main.

Arguments ERow {V} r.
Arguments EPatch {V} x y w h.
Arguments ECalc {V} o.
Arguments EShow {V}.

(** [print] of a list of numbers and [ax.plot] of two, where they end
    normally whatever the version of the host and of the plotting
    library: an [int] is printed when it has at most [Py.max_int_digits]
    digits, and what is plotted is an [int] a float holds exactly or a
    finite float.  On anything else the model says nothing. *)
Definition printable (v : Py.value) : bool :=
  match v with
  | Py.PyInt z => (Z.abs z <? 10 ^ Z.of_nat Py.max_int_digits)%Z
  | _ => true
  end.

Definition print_values (triplet : list Py.value) : effect :=
  if forallb printable triplet then Done else Unknown.

(** [print] of a list of numbers in the versions of the host that bound
    the decimal conversion of an [int]: [ValueError] beyond
    [Py.max_int_digits] digits. *)
Definition print_within_limit (triplet : list Py.value) : effect :=
  if forallb printable triplet then Done
  else Fails (Py.OtherException "ValueError").

Definition plottable (v : Py.value) : bool :=
  match v with
  | Py.PyInt z => (Z.abs z <=? 2 ^ 53)%Z
  | Py.PyFloat f => PrimFloat.is_finite f
  | Py.PyNone => false
  end.

Definition plot_values (x y : Py.value) : effect :=
  if plottable x && plottable y then Done else Unknown.

(** [eval] extended with the call [exit()], which raises [SystemExit]. *)
Definition py_eval_exit : evaluator Py.value :=
  fun coord_expr fr =>
    if String.eqb coord_expr "exit()" then Some (Raised Py.SystemExit, fr)
    else Eval.py_eval coord_expr fr.

(** ** More vocabulary *)

(** An expression text as a sequence of literal text and placeholders. *)
Inductive dim : Type := Dim1 | Dim2 | Dim3.

Inductive part : Type :=
| Text (s : string)
| Hole (d : dim).

Definition fill (a b c : string) (p : part) : string :=
  match p with
  | Text s => s
  | Hole Dim1 => a
  | Hole Dim2 => b
  | Hole Dim3 => c
  end.

Fixpoint render (a b c : string) (ps : list part) : string :=
  match ps with
  | [] => EmptyString
  | p :: ps' => fill a b c p ++ render a b c ps'
  end.

(** [c] does not occur in [s]. *)
Definition free_of (c : ascii) (s : string) : bool :=
  all_chars (fun x => negb (Ascii.eqb x c)) s.

(** Literal text with no capital D and no double quote. *)
Definition plain_part (p : part) : bool :=
  match p with
  | Text s => free_of "D" s && free_of Py.dquote s
  | Hole _ => true
  end.

Definition first_char (s : string) : option ascii :=
  match s with
  | EmptyString => None
  | String c _ => Some c
  end.

Fixpoint last_char (s : string) : option ascii :=
  match s with
  | EmptyString => None
  | String c EmptyString => Some c
  | String _ s' => last_char s'
  end.

(** [str.replace] turns a leading [x] into [x'] and goes on after it. *)
Definition carries (old new x x' : string) : Prop :=
  forall rest,
    Py.replace_from old new 0 (x ++ rest) = (x' ++ Py.replace_from old new 0 rest)%string.

(** The arguments a record was built from, read back from the record. *)
Definition columns (r : QltMachineRow.t) : list string :=
  match coordinates r with
  | x :: y :: z :: further =>
      use r :: layer r :: diam r :: depth r :: x :: y :: rep_qty r :: repx r
        :: repy r :: z :: further
  | _ => []
  end.

(** The rows of [data] with their indices, from [i] on. *)
Fixpoint enumerate_from (i : nat) (data : list (list string))
  : list (nat * list string) :=
  match data with
  | [] => []
  | row :: rest => (i, row) :: enumerate_from (S i) rest
  end.

(** The report the first loop of [main] prints for a row, if any. *)
Definition report_of (ir : nat * list string) : list row_report :=
  if (4 <=? fst ir)%nat && (List.length (snd ir) =? 10)%nat
  then [RowError (fst ir) Py.TypeError]
  else [].

Definition non_empty (s : string) : bool := negb (String.eqb s EmptyString).

(** The arithmetic value of a prepared expression, if it has one. *)
Definition arith_value (panel0 : BoardSize) (coord_expr : string)
  : list Py.value :=
  if String.eqb coord_expr EmptyString then []
  else
    match Py.parse (prepare panel0 coord_expr) with
    | Py.POk e _ =>
        match arith e with
        | Some (inr v) => [v]
        | _ => []
        end
    | _ => []
    end.

(** Every non-empty expression of the row is, once prepared, an
    expression of the arithmetic grammar. *)
Definition arithmetic_row (panel0 : BoardSize) (self0 : QltMachineRow.t) : Prop :=
  forall coord_expr,
    In coord_expr (coordinates self0) -> coord_expr <> EmptyString ->
    in_spec_grammar (prepare panel0 coord_expr) = true.

(** A key of [COLUMN_KEYS] that names a coordinate. *)
Definition coordinate_key (k : string) : bool :=
  match k with
  | String _ (String c _) =>
      Ascii.eqb c "x" || Ascii.eqb c "y" || Ascii.eqb c "z"
  | _ => false
  end.

(** A triple the two calls of the second loop end normally on. *)
Definition drawn (V : Type) (print_triplet : list V -> effect)
    (ax_plot : V -> V -> effect) (triplet : list V) : Prop :=
  print_triplet triplet = Done
  /\ forall x y,
       nth_error triplet 0 = Some x -> nth_error triplet 1 = Some y ->
       ax_plot x y = Done.

(** The events of the second loop of [main] for one triple that is
    printed and plotted, and for one row whose evaluation is quiet. *)

Definition events_of_triplet (V : Type) (triplet : list V) : list (event V) :=
  match triplet with
  | x :: y :: _ => [ETriplet triplet; EPlot x y]
  | _ => []
  end.

Definition events_of_row (V : Type) (eval : evaluator V) (board : BoardSize)
    (machine_row : QltMachineRow.t) : list (event V) :=
  map (@ECalc V) (reported eval machine_row board)
  ++ flat_map (@events_of_triplet V) (chunk3 (resolved eval machine_row board)).

(** ** Vocabulary for the grammar of the evaluated text *)

(** An expression of integer literals, unary minus and the operators
    [+], [-] and [*], and its value in the integers. *)
Fixpoint int_expr (e : Py.expr) : bool :=
  match e with
  | Py.EInt _ => true
  | Py.EUn Py.UMinus e1 => int_expr e1
  | Py.EBin (Py.Add | Py.Sub | Py.Mul) e1 e2 => int_expr e1 && int_expr e2
  | _ => false
  end.

Fixpoint exact_int (e : Py.expr) : Z :=
  match e with
  | Py.EInt z => z
  | Py.EUn _ e1 => - exact_int e1
  | Py.EBin Py.Add e1 e2 => exact_int e1 + exact_int e2
  | Py.EBin Py.Sub e1 e2 => exact_int e1 - exact_int e2
  | Py.EBin Py.Mul e1 e2 => exact_int e1 * exact_int e2
  | _ => 0
  end.

(** The quotient of two integers as the host gives it: the binary64
    number nearest to it, an error when the divisor is zero or the
    quotient too large. *)
Definition rounded_quotient (a b : Z) : outcome Py.value :=
  if (b =? 0)%Z then Raised Py.ZeroDivisionError
  else
    match SFdiv prec emax (Py.SF_exact a) (Py.SF_exact b) with
    | S754_infinity _ => Raised Py.OverflowError
    | q => Value (Py.PyFloat (SF2Prim q))
    end.

(** The binary64 operation of an operator of the grammar. *)
Definition ieee (op : Py.binop) (x y : float) : float :=
  match op with
  | Py.Add => (x + y)%float
  | Py.Sub => (x - y)%float
  | Py.Mul => (x * y)%float
  | _ => (x / y)%float
  end.

(** What arithmetic can give: a number, or one of its two errors. *)
Definition is_number (v : Py.value) : bool :=
  match v with
  | Py.PyNone => false
  | _ => true
  end.

Definition arithmetic_outcome (o : outcome Py.value) : Prop :=
  match o with
  | Value v => is_number v = true
  | Raised x => x = Py.ZeroDivisionError \/ x = Py.OverflowError
  end.

(** The outcome of a text evaluated at the start of a call. *)
Definition outcome_at (s : string) : option (outcome Py.value) :=
  option_map fst
    (Eval.py_eval s (enter Py.value (row_of []) BoardSize_default)).

(** The parsers read at least one token (the two loops and the trailers
    at least none) of the tokens they are given. *)
Definition consumes (f : nat) : Prop :=
  (forall ts e rest, Py.parse_sum f ts = Py.POk e rest ->
     (List.length rest < List.length ts)%nat)
  /\ (forall l ts e rest, Py.parse_sum_rest f l ts = Py.POk e rest ->
        (List.length rest <= List.length ts)%nat)
  /\ (forall ts e rest, Py.parse_term f ts = Py.POk e rest ->
        (List.length rest < List.length ts)%nat)
  /\ (forall l ts e rest, Py.parse_term_rest f l ts = Py.POk e rest ->
        (List.length rest <= List.length ts)%nat)
  /\ (forall ts e rest, Py.parse_factor f ts = Py.POk e rest ->
        (List.length rest < List.length ts)%nat)
  /\ (forall ts e rest, Py.parse_power f ts = Py.POk e rest ->
        (List.length rest < List.length ts)%nat)
  /\ (forall l ts e rest, Py.parse_trailers f l ts = Py.POk e rest ->
        (List.length rest <= List.length ts)%nat)
  /\ (forall ts e rest, Py.parse_atom f ts = Py.POk e rest ->
        (List.length rest < List.length ts)%nat).

(** With five levels of descent for every token and a few more, a
    parser answers what it answers at any greater depth. *)
Definition stable (f : nat) : Prop :=
  (forall g ts, (f <= g)%nat -> (5 * List.length ts + 5 <= f)%nat ->
     Py.parse_sum g ts = Py.parse_sum f ts)
  /\ (forall g l ts, (f <= g)%nat -> (5 * List.length ts + 1 <= f)%nat ->
        Py.parse_sum_rest g l ts = Py.parse_sum_rest f l ts)
  /\ (forall g ts, (f <= g)%nat -> (5 * List.length ts + 4 <= f)%nat ->
        Py.parse_term g ts = Py.parse_term f ts)
  /\ (forall g l ts, (f <= g)%nat -> (5 * List.length ts + 1 <= f)%nat ->
        Py.parse_term_rest g l ts = Py.parse_term_rest f l ts)
  /\ (forall g ts, (f <= g)%nat -> (5 * List.length ts + 3 <= f)%nat ->
        Py.parse_factor g ts = Py.parse_factor f ts)
  /\ (forall g ts, (f <= g)%nat -> (5 * List.length ts + 2 <= f)%nat ->
        Py.parse_power g ts = Py.parse_power f ts)
  /\ (forall g l ts, (f <= g)%nat -> (5 * List.length ts + 1 <= f)%nat ->
        Py.parse_trailers g l ts = Py.parse_trailers f l ts)
  /\ (forall g ts, (f <= g)%nat -> (5 * List.length ts + 1 <= f)%nat ->
        Py.parse_atom g ts = Py.parse_atom f ts).

(** An identifier that is no keyword. *)
Definition is_name_char (c : ascii) : bool :=
  Py.is_name_start c || Py.is_digit c.

Definition is_identifier (s : string) : bool :=
  match s with
  | EmptyString => false
  | String c s' => Py.is_name_start c && all_chars is_name_char s'
  end
  && negb (existsb (String.eqb s) Py.keywords).

(** A name that is bound in the scope of the evaluation, or may be. *)
Definition in_scope (name : string) : bool :=
  String.eqb name "self" || String.eqb name "panel"
  || String.eqb name "results" || String.eqb name "current_triplet"
  || String.eqb name "calculated_value" || Eval.maybe_bound name.

(** A text made of double quotes only. *)
Definition only_quotes (s : string) : bool :=
  all_chars (fun c => Ascii.eqb c Py.dquote) s.

(** ** Lemmas on the host functions *)

Lemma fold_left_append (A : Type) (l init : list A) :
  fold_left (fun acc x => acc ++ [x]) l init = init ++ l.
Proof.
  revert init; induction l as [|a l IH]; intros init; simpl.
  - now rewrite app_nil_r.
  - rewrite IH, <- app_assoc. reflexivity.
Qed.

Lemma init_ten (use layer diam depth x y rep_qty repx repy z : string)
    (additional : list string) :
  __init__ (use :: layer :: diam :: depth :: x :: y :: rep_qty :: repx
              :: repy :: z :: additional)
  = inr {| coordinates := x :: y :: z :: additional; use := use;
           layer := layer; diam := diam; depth := depth;
           rep_qty := rep_qty; repx := repx; repy := repy |}.
Proof.
  unfold __init__. rewrite fold_left_append. reflexivity.
Qed.

Lemma init_short (args : list string) :
  (List.length args < 10)%nat -> __init__ args = inl Py.TypeError.
Proof.
  intros H.
  do 10 (destruct args as [|? args]; [reflexivity|]).
  simpl in H. lia.
Qed.

Lemma init_long (args : list string) :
  (10 <= List.length args)%nat -> exists r, __init__ args = inr r.
Proof.
  intros H.
  do 10 (destruct args as [|? args]; [simpl in H; lia|]).
  rewrite init_ten. eauto.
Qed.

(** The first loop of [main] past the header: each row contributes what
    [accepted] makes of it. *)
Lemma main_rows_from_past_header (data : list (list string)) :
  forall i qs out, (4 <= i)%nat ->
    fst (main_rows_from i data qs out) = qs ++ flat_map accepted data.
Proof.
  induction data as [|row rest IH]; intros i qs out Hi; simpl.
  - now rewrite app_nil_r.
  - assert (Hlt : (i <? 4)%nat = false) by (apply Nat.ltb_ge; lia).
    rewrite Hlt. simpl. unfold accepted at 1.
    destruct (List.length row <? 10)%nat.
    + simpl. apply IH. lia.
    + destruct (__init__ (tl row)) as [e|r].
      * simpl. apply IH. lia.
      * rewrite IH by lia. simpl. now rewrite <- app_assoc.
Qed.

Lemma main_rows_from_header (data : list (list string)) :
  forall i qs out, (i <= 4)%nat ->
    fst (main_rows_from i data qs out)
    = qs ++ flat_map accepted (skipn (4 - i) data).
Proof.
  induction data as [|row rest IH]; intros i qs out Hi.
  - rewrite skipn_nil. simpl. now rewrite app_nil_r.
  - destruct (Nat.eq_dec i 4) as [->|Hne].
    + apply main_rows_from_past_header. lia.
    + assert (Hlt : (i <? 4)%nat = true) by (apply Nat.ltb_lt; lia).
      replace (4 - i)%nat with (S (4 - S i)) by lia.
      cbn [main_rows_from skipn]. rewrite Hlt. cbn [orb].
      apply IH. lia.
Qed.

Lemma main_decode_spec (reader : list (list string)) :
  main_decode reader = flat_map accepted (skipn 4 (decode_tsv reader)).
Proof.
  unfold main_decode, main_rows.
  rewrite main_rows_from_header by lia. reflexivity.
Qed.

Lemma accepted_short (row : list string) :
  (List.length (tl row) < 10)%nat -> accepted row = [].
Proof.
  intros H. unfold accepted.
  destruct (List.length row <? 10)%nat; [reflexivity|].
  now rewrite init_short.
Qed.

Lemma accepted_long (row : list string) :
  (10 <= List.length (tl row))%nat ->
  exists q, accepted row = [q] /\ __init__ (tl row) = inr q.
Proof.
  intros H. unfold accepted.
  assert (Hlen : (List.length row <? 10)%nat = false).
  { apply Nat.ltb_ge. destruct row; simpl in *; lia. }
  rewrite Hlen. destruct (init_long (tl row) H) as [q Hq].
  rewrite Hq. eauto.
Qed.

(** ** Lemmas on grouping by three *)

Section GroupingFacts.

Variable V : Type.

Lemma list_ind3 (P : list V -> Prop) :
  P [] -> (forall a, P [a]) -> (forall a b, P [a; b]) ->
  (forall a b c l, P l -> P (a :: b :: c :: l)) ->
  forall l, P l.
Proof.
  intros H0 H1 H2 H3 l.
  assert (H : P l /\ (forall a, P (a :: l)) /\ (forall a b, P (a :: b :: l))).
  { induction l as [|x l [IHa [IHb IHc]]].
    - repeat split; auto.
    - repeat split; auto. }
  apply H.
Qed.

Lemma chunk3_length (l : list V) :
  List.length (chunk3 l) = (List.length l / 3)%nat.
Proof.
  induction l as [| a | a b | a b c l IH] using list_ind3; try reflexivity.
  cbn [chunk3 List.length]. rewrite IH.
  change (S (S (S (List.length l)))) with (1 * 3 + List.length l)%nat.
  now rewrite Nat.div_add_l by discriminate.
Qed.

Lemma chunk3_concat (l : list V) : List.concat (chunk3 l) ++ rest3 l = l.
Proof.
  induction l as [| a | a b | a b c l IH] using list_ind3; try reflexivity.
  cbn [chunk3 rest3 List.concat]. simpl. now rewrite IH.
Qed.

Lemma rest3_length (l : list V) : (List.length (rest3 l) < 3)%nat.
Proof.
  induction l as [| a | a b | a b c l IH] using list_ind3; simpl; lia.
Qed.

Lemma chunk3_triples (l : list V) :
  Forall (fun t => List.length t = 3%nat) (chunk3 l).
Proof.
  induction l as [| a | a b | a b c l IH] using list_ind3;
    simpl; constructor; auto.
Qed.

Variable eval : evaluator V.
Variable self0 : QltMachineRow.t.
Variable panel0 : BoardSize.

Local Abbreviation rest_frame := (at_rest self0 panel0).

Lemma push_at_rest (res : list (list V)) (trip : list V) (cv : option V)
    (v : V) :
  push (rest_frame res trip cv) v
  = if (List.length (trip ++ [v]) =? 3)%nat
    then rest_frame (res ++ [trip ++ [v]]) [] cv
    else rest_frame res (trip ++ [v]) cv.
Proof.
  unfold push, at_rest. simpl.
  destruct (List.length (trip ++ [v]) =? 3)%nat; reflexivity.
Qed.

Lemma take_at_rest (res : list (list V)) (trip : list V) (cv : option V)
    (v : V) :
  take (rest_frame res trip cv) v
  = if (List.length (trip ++ [v]) =? 3)%nat
    then rest_frame (res ++ [trip ++ [v]]) [] (Some v)
    else rest_frame res (trip ++ [v]) (Some v).
Proof.
  unfold take, assign. cbn [self panel results current_triplet at_rest].
  apply (push_at_rest res trip (Some v) v).
Qed.

(** Pushing values one by one groups them by three. *)
Lemma feed_at_rest (vs : list V) :
  forall res trip cv, (List.length trip < 3)%nat ->
    fold_left (@take V) vs (rest_frame res trip cv)
    = rest_frame (res ++ chunk3 (trip ++ vs)) (rest3 (trip ++ vs))
        (latest cv vs).
Proof.
  induction vs as [|v vs IH]; intros res trip cv Hlen.
  - rewrite app_nil_r. simpl.
    destruct trip as [|a [|b [|c trip]]]; simpl in *; try lia;
      now rewrite app_nil_r.
  - cbn [fold_left]. rewrite take_at_rest. unfold latest. cbn [fold_left].
    fold (latest (Some v) vs).
    destruct trip as [|a [|b [|c trip]]]; simpl in Hlen; try lia.
    + simpl. rewrite IH by (simpl; lia). reflexivity.
    + simpl. rewrite IH by (simpl; lia). reflexivity.
    + simpl. rewrite IH by (simpl; lia). simpl.
      now rewrite <- app_assoc.
Qed.

Hypothesis Hquiet : quiet eval self0 panel0.

Lemma quiet_outcome (coord_expr : string) :
  In coord_expr (coordinates self0) -> coord_expr <> EmptyString ->
  exists o, caught o /\ outcome_of eval self0 panel0 coord_expr = Some o /\
    forall res trip cv,
      eval (prepare panel0 coord_expr) (rest_frame res trip cv)
      = Some (o, rest_frame res trip cv).
Proof.
  intros Hin Hne. pose proof Hquiet as Hq. unfold quiet in Hq.
  destruct (Hq coord_expr Hin Hne) as [o [Hc Ho]].
  exists o. repeat split; auto.
  unfold outcome_of.
  change (enter V self0 panel0) with (@at_rest V self0 panel0 [] [] None).
  now rewrite Ho.
Qed.

(** The loop on a quiet row, from any position in the row. *)
Lemma loop_quiet (suf : list string) :
  forall pre, coordinates self0 = pre ++ suf ->
  forall fuel res trip cv out, (List.length suf < fuel)%nat ->
    let fr := fold_left (@take V)
                (flat_map (value_of eval self0 panel0) suf)
                (rest_frame res trip cv) in
    loop eval fuel (List.length pre) (rest_frame res trip cv) out
    = Some (Returned (results fr), fr,
            out ++ flat_map (lines_of eval self0 panel0) suf).
Proof.
  induction suf as [|e suf IH]; intros pre Hco fuel res trip cv out Hfuel fr.
  - destruct fuel as [|fuel]; [simpl in Hfuel; lia|].
    cbn [loop]. cbn [self at_rest]. rewrite Hco.
    rewrite (proj2 (nth_error_None _ _)) by (rewrite app_nil_r; lia).
    subst fr. simpl. now rewrite app_nil_r.
  - destruct fuel as [|fuel]; [simpl in Hfuel; lia|].
    assert (Hco' : coordinates self0 = (pre ++ [e]) ++ suf)
      by (rewrite <- app_assoc; exact Hco).
    assert (Hlen : List.length (pre ++ [e]) = S (List.length pre))
      by (rewrite length_app; simpl; lia).
    cbn [loop]. cbn [self at_rest]. rewrite Hco.
    rewrite nth_error_app2 by lia. rewrite Nat.sub_diag. cbn [nth_error].
    subst fr. cbn [flat_map].
    destruct (String.eqb_spec e EmptyString) as [He|He].
    + assert (Hv : value_of eval self0 panel0 e = [])
        by (unfold value_of; rewrite He; reflexivity).
      assert (Hl : lines_of eval self0 panel0 e = [])
        by (unfold lines_of; rewrite He; reflexivity).
      rewrite Hv, Hl. cbn [app]. rewrite <- Hlen.
      apply IH; [exact Hco'|simpl in Hfuel; lia].
    + destruct (@quiet_outcome e) as [o [Hc [Ho Hev]]]; auto.
      { rewrite Hco. apply in_or_app. right. now left. }
      assert (Hv : value_of eval self0 panel0 e
                   = match o with Value v => [v] | Raised _ => [] end).
      { unfold value_of. rewrite (proj2 (String.eqb_neq _ _) He), Ho.
        now destruct o. }
      assert (Hl : lines_of eval self0 panel0 e
                   = match o with
                     | Value _ => [Echo e]
                     | Raised x => [Echo e; EvalError (prepare panel0 e) x]
                     end).
      { unfold lines_of. rewrite (proj2 (String.eqb_neq _ _) He), Ho.
        now destruct o. }
      rewrite Hv, Hl. cbn [panel].
      change {| self := self0; panel := panel0; results := res;
                current_triplet := trip; calculated_value := cv |}
        with (rest_frame res trip cv).
      rewrite Hev. destruct o as [v|x].
      * cbn [app fold_left]. fold (take (rest_frame res trip cv) v).
        rewrite take_at_rest, <- Hlen.
        destruct (List.length (trip ++ [v]) =? 3)%nat;
          (rewrite IH; [|exact Hco'|simpl in Hfuel; lia]);
          now rewrite <- app_assoc.
      * simpl in Hc. rewrite Hc. rewrite <- Hlen.
        rewrite IH; [|exact Hco'|simpl in Hfuel; lia].
        cbn [app]. now rewrite <- !app_assoc.
Qed.

(** The whole call on a quiet row. *)
Lemma calculate_coordinates_quiet (fuel : nat) :
  (List.length (coordinates self0) < fuel)%nat ->
  let vs := resolved eval self0 panel0 in
  calculate_coordinates eval fuel self0 panel0
  = Some (Returned (chunk3 vs),
          rest_frame (chunk3 vs) (rest3 vs) (latest None vs),
          reported eval self0 panel0).
Proof.
  intros Hfuel vs. unfold calculate_coordinates.
  change (enter V self0 panel0) with (@at_rest V self0 panel0 [] [] None).
  change 0%nat with (List.length (@nil string)).
  rewrite (loop_quiet (coordinates self0) []) by auto.
  fold (resolved eval self0 panel0). fold vs.
  rewrite feed_at_rest by (simpl; lia). reflexivity.
Qed.

End GroupingFacts.

(** ** Lemmas on the course of a call *)

Section CallFacts.

Variable V : Type.
Variable eval : evaluator V.
Variable self0 : QltMachineRow.t.
Variable panel0 : BoardSize.

Lemma chunk3_short (l : list V) : (List.length l < 3)%nat -> chunk3 l = [].
Proof.
  destruct l as [|a [|b [|c l]]]; simpl; intros H; try reflexivity; lia.
Qed.

Lemma rest3_short (l : list V) : (List.length l < 3)%nat -> rest3 l = l.
Proof.
  destruct l as [|a [|b [|c l]]]; simpl; intros H; try reflexivity; lia.
Qed.

Lemma take_frame (fr : frame V) (v : V) :
  self (take fr v) = self fr /\ panel (take fr v) = panel fr.
Proof.
  unfold take, push, assign.
  cbn [self panel results current_triplet calculated_value].
  destruct (List.length (current_triplet fr ++ [v]) =? 3)%nat;
    split; reflexivity.
Qed.

(** One more value in the buffer, seen from the values still to come. *)
Lemma take_groups (fr : frame V) (v : V) (vs : list V) :
  (List.length (current_triplet fr) < 3)%nat ->
  results (take fr v) ++ chunk3 (current_triplet (take fr v) ++ vs)
  = results fr ++ chunk3 (current_triplet fr ++ v :: vs)
  /\ rest3 (current_triplet (take fr v) ++ vs)
     = rest3 (current_triplet fr ++ v :: vs)
  /\ (List.length (current_triplet (take fr v)) < 3)%nat.
Proof.
  destruct fr as [s p res trip cv]. unfold take, push, assign.
  cbn [self panel results current_triplet calculated_value].
  intros H. destruct trip as [|a [|b [|c trip]]]; simpl in H; try lia.
  - simpl. repeat split; lia.
  - simpl. repeat split; lia.
  - simpl. rewrite <- app_assoc. simpl. repeat split; lia.
Qed.

Lemma position_after (pre : list string) (e : string) :
  List.length (pre ++ [e]) = S (List.length pre).
Proof.
  rewrite length_app. simpl. lia.
Qed.

(** What the loop returns, in terms of the values its evaluations
    resolve to. *)
Lemma loop_groups (suf : list string) :
  keeps_lists eval self0 ->
  forall pre fuel fr out res fr' out',
    coordinates self0 = pre ++ suf ->
    coordinates (self fr) = coordinates self0 ->
    (List.length (current_triplet fr) < 3)%nat ->
    loop eval fuel (List.length pre) fr out = Some (Returned res, fr', out') ->
    res = results fr
          ++ chunk3 (current_triplet fr
                     ++ flat_map (@value_in V) (evaluations eval suf fr))
    /\ current_triplet fr'
       = rest3 (current_triplet fr
                ++ flat_map (@value_in V) (evaluations eval suf fr)).
Proof.
  intros Hkeeps.
  induction suf as [|e suf IH];
    intros pre fuel fr out res fr' out' Hco Hself Hlen Hloop;
    (destruct fuel as [|fuel]; [discriminate Hloop|]);
    cbn [loop] in Hloop; rewrite Hself, Hco in Hloop.
  - rewrite (proj2 (nth_error_None _ _)) in Hloop
      by (rewrite app_nil_r; lia).
    inversion Hloop; subst. cbn [evaluations flat_map].
    rewrite !app_nil_r, chunk3_short, rest3_short by exact Hlen.
    now rewrite app_nil_r.
  - rewrite nth_error_app2, Nat.sub_diag in Hloop by lia.
    cbn [nth_error] in Hloop. cbn [evaluations].
    assert (Hco' : coordinates self0 = (pre ++ [e]) ++ suf)
      by (rewrite <- app_assoc; exact Hco).
    assert (Hin : In e (coordinates self0))
      by (rewrite Hco; apply in_or_app; right; now left).
    rewrite <- (position_after pre e) in Hloop.
    destruct (String.eqb_spec e EmptyString) as [He|He].
    + exact (IH _ _ _ _ _ _ _ Hco' Hself Hlen Hloop).
    + destruct (eval (prepare (panel fr) e) fr) as [[[v|x] fr1]|] eqn:Hev;
        [| |discriminate Hloop];
        destruct (Hkeeps e fr _ fr1 Hin He Hself Hev) as [Hc [Hr Ht]].
      * fold (take fr1 v) in Hloop.
        assert (Hlen1 : (List.length (current_triplet fr1) < 3)%nat)
          by (rewrite Ht; exact Hlen).
        destruct (take_groups fr1 v
                    (flat_map (@value_in V)
                       (evaluations eval suf (take fr1 v))) Hlen1)
          as [Hg [Hrest Hlen2]].
        assert (Hself1 : coordinates (self (take fr1 v)) = coordinates self0)
          by (rewrite (proj1 (take_frame fr1 v)); exact Hc).
        destruct (IH _ _ _ _ _ _ _ Hco' Hself1 Hlen2 Hloop) as [Hres Htrip].
        cbn [flat_map value_in snd app].
        rewrite Hres, Htrip, Hg, Hrest, Hr, Ht. split; reflexivity.
      * destruct (Py.is_Exception x); [|discriminate Hloop].
        assert (Hlen1 : (List.length (current_triplet fr1) < 3)%nat)
          by (rewrite Ht; exact Hlen).
        destruct (IH _ _ _ _ _ _ _ Hco' Hc Hlen1 Hloop) as [Hres Htrip].
        cbn [flat_map value_in snd app].
        rewrite Hres, Htrip, Hr, Ht. split; reflexivity.
Qed.

(** The loop returns when every evaluation answers within
    [Exception]. *)
Lemma loop_returns (suf : list string) :
  keeps_lists eval self0 ->
  answers_within_Exception eval self0 ->
  forall pre fuel fr out,
    coordinates self0 = pre ++ suf ->
    coordinates (self fr) = coordinates self0 ->
    (List.length suf < fuel)%nat ->
    exists res fr' out',
      loop eval fuel (List.length pre) fr out = Some (Returned res, fr', out').
Proof.
  intros Hkeeps Hans.
  induction suf as [|e suf IH]; intros pre fuel fr out Hco Hself Hfuel;
    (destruct fuel as [|fuel]; [simpl in Hfuel; lia|]);
    cbn [loop]; rewrite Hself, Hco.
  - rewrite (proj2 (nth_error_None _ _)) by (rewrite app_nil_r; lia).
    eauto.
  - rewrite nth_error_app2, Nat.sub_diag by lia. cbn [nth_error].
    assert (Hco' : coordinates self0 = (pre ++ [e]) ++ suf)
      by (rewrite <- app_assoc; exact Hco).
    assert (Hin : In e (coordinates self0))
      by (rewrite Hco; apply in_or_app; right; now left).
    assert (Hfuel' : (List.length suf < fuel)%nat) by (simpl in Hfuel; lia).
    rewrite <- (position_after pre e).
    destruct (String.eqb_spec e EmptyString) as [He|He].
    + exact (IH _ _ _ _ Hco' Hself Hfuel').
    + destruct (Hans e fr Hin He Hself) as [o [fr1 [Hev Hcaught]]].
      rewrite Hev.
      destruct (Hkeeps e fr _ fr1 Hin He Hself Hev) as [Hc _].
      destruct o as [v|x].
      * apply (IH _ _ _ _ Hco'); [|exact Hfuel'].
        fold (take fr1 v). rewrite (proj1 (take_frame fr1 v)). exact Hc.
      * simpl in Hcaught. rewrite Hcaught.
        exact (IH _ _ _ _ Hco' Hc Hfuel').
Qed.

(** Row, board and printed lines when the evaluations hand back the row
    and the board, however the call ends. *)
Lemma loop_frame (suf : list string) :
  keeps_row_and_board eval self0 panel0 ->
  forall pre fuel fr out c fr' out',
    coordinates self0 = pre ++ suf ->
    self fr = self0 -> panel fr = panel0 ->
    loop eval fuel (List.length pre) fr out = Some (c, fr', out') ->
    self fr' = self0 /\ panel fr' = panel0
    /\ out' = out ++ flat_map (lines_in panel0) (evaluations eval suf fr).
Proof.
  intros Hkeeps.
  induction suf as [|e suf IH];
    intros pre fuel fr out c fr' out' Hco Hself Hpanel Hloop;
    (destruct fuel as [|fuel]; [discriminate Hloop|]);
    cbn [loop] in Hloop; rewrite Hself, Hco in Hloop.
  - rewrite (proj2 (nth_error_None _ _)) in Hloop
      by (rewrite app_nil_r; lia).
    inversion Hloop; subst. cbn [evaluations flat_map].
    now rewrite app_nil_r.
  - rewrite nth_error_app2, Nat.sub_diag in Hloop by lia.
    cbn [nth_error] in Hloop. cbn [evaluations].
    assert (Hco' : coordinates self0 = (pre ++ [e]) ++ suf)
      by (rewrite <- app_assoc; exact Hco).
    assert (Hin : In e (coordinates self0))
      by (rewrite Hco; apply in_or_app; right; now left).
    rewrite <- (position_after pre e) in Hloop.
    destruct (String.eqb_spec e EmptyString) as [He|He].
    + exact (IH _ _ _ _ _ _ _ Hco' Hself Hpanel Hloop).
    + rewrite Hpanel in *.
      destruct (eval (prepare panel0 e) fr) as [[[v|x] fr1]|] eqn:Hev;
        [| |discriminate Hloop];
        destruct (Hkeeps e fr _ fr1 Hin He Hself Hpanel Hev) as [Hs Hp].
      * fold (take fr1 v) in Hloop.
        destruct (take_frame fr1 v) as [Hs1 Hp1].
        destruct (IH _ _ _ _ _ _ _ Hco' (eq_trans Hs1 Hs) (eq_trans Hp1 Hp)
                    Hloop)
          as [Hs' [Hp' Hout]].
        split; [exact Hs'|split; [exact Hp'|]].
        rewrite Hout. cbn [flat_map lines_in fst snd].
        now rewrite <- app_assoc.
      * cbn [flat_map lines_in fst snd].
        destruct (Py.is_Exception x).
        -- destruct (IH _ _ _ _ _ _ _ Hco' Hs Hp Hloop) as [Hs' [Hp' Hout]].
           split; [exact Hs'|split; [exact Hp'|]].
           rewrite Hout. now rewrite <- !app_assoc.
        -- injection Hloop as _ Hf Ho. rewrite <- Hf, <- Ho.
           split; [exact Hs|split; [exact Hp|]].
           cbn [flat_map]. now rewrite app_nil_r.
Qed.

(** The loop ends, one way or another, when every evaluation answers. *)
Lemma loop_answers (suf : list string) :
  keeps_row_and_board eval self0 panel0 ->
  answers eval self0 panel0 ->
  forall pre fuel fr out,
    coordinates self0 = pre ++ suf ->
    self fr = self0 -> panel fr = panel0 ->
    (List.length suf < fuel)%nat ->
    exists c fr' out',
      loop eval fuel (List.length pre) fr out = Some (c, fr', out').
Proof.
  intros Hkeeps Hans.
  induction suf as [|e suf IH];
    intros pre fuel fr out Hco Hself Hpanel Hfuel;
    (destruct fuel as [|fuel]; [simpl in Hfuel; lia|]);
    cbn [loop]; rewrite Hself, Hco.
  - rewrite (proj2 (nth_error_None _ _)) by (rewrite app_nil_r; lia).
    eauto.
  - rewrite nth_error_app2, Nat.sub_diag by lia. cbn [nth_error].
    assert (Hco' : coordinates self0 = (pre ++ [e]) ++ suf)
      by (rewrite <- app_assoc; exact Hco).
    assert (Hin : In e (coordinates self0))
      by (rewrite Hco; apply in_or_app; right; now left).
    assert (Hfuel' : (List.length suf < fuel)%nat) by (simpl in Hfuel; lia).
    rewrite <- (position_after pre e).
    destruct (String.eqb_spec e EmptyString) as [He|He].
    + exact (IH _ _ _ _ Hco' Hself Hpanel Hfuel').
    + rewrite Hpanel.
      destruct (Hans e fr Hin He Hself Hpanel) as [[o fr1] Hev].
      rewrite Hev.
      destruct (Hkeeps e fr _ fr1 Hin He Hself Hpanel Hev) as [Hs Hp].
      destruct o as [v|x].
      * apply (IH _ _ _ _ Hco'); [| |exact Hfuel'];
          fold (take fr1 v); destruct (take_frame fr1 v) as [Hs1 Hp1];
          congruence.
      * destruct (Py.is_Exception x); [|eauto].
        exact (IH _ _ _ _ Hco' Hs Hp Hfuel').
Qed.

End CallFacts.

(** ** Lemmas on placeholder substitution *)

Lemma string_app_nil_r (s : string) : (s ++ EmptyString)%string = s.
Proof.
  induction s as [|c s IH]; simpl; [reflexivity|now rewrite IH].
Qed.

Lemma uint_chars (d : Decimal.uint) :
  all_chars sign_or_digit (NilEmpty.string_of_uint d) = true.
Proof.
  induction d; simpl; auto.
Qed.

Lemma str_int_chars (z : Z) : all_chars sign_or_digit (Py.str_int z) = true.
Proof.
  unfold Py.str_int, NilZero.string_of_int, NilZero.string_of_uint.
  destruct (Z.to_int z) as [d|d]; destruct d;
    try reflexivity; apply (uint_chars (_ _)) || (simpl; apply uint_chars).
Qed.

Lemma sign_or_digit_not (c : ascii) (forbidden : ascii) :
  sign_or_digit forbidden = false -> sign_or_digit c = true ->
  Ascii.eqb forbidden c = false.
Proof.
  intros Hf Hc. destruct (Ascii.eqb_spec forbidden c) as [->|]; congruence.
Qed.

(** A placeholder is not found in the decimal form of a number. *)
Lemma replace_from_plain (old_tail new s : string) :
  all_chars sign_or_digit s = true ->
  Py.replace_from (String "D" old_tail) new 0 s = s.
Proof.
  induction s as [|c s IH]; intros H; [reflexivity|].
  simpl in H. apply andb_prop in H. destruct H as [Hc Hs].
  cbn [Py.replace_from Py.startswith].
  rewrite (sign_or_digit_not c "D" eq_refl Hc). cbn [andb].
  now rewrite IH.
Qed.

Lemma lstrip_plain (s : string) :
  all_chars sign_or_digit s = true -> Py.lstrip Py.dquote s = s.
Proof.
  destruct s as [|c s]; intros H; [reflexivity|].
  simpl in H. apply andb_prop in H. destruct H as [Hc _].
  cbn [Py.lstrip]. rewrite Ascii.eqb_sym.
  now rewrite (sign_or_digit_not c Py.dquote eq_refl Hc).
Qed.

Lemma rstrip_plain (s : string) :
  all_chars sign_or_digit s = true -> Py.rstrip Py.dquote s = s.
Proof.
  induction s as [|c s IH]; intros H; [reflexivity|].
  simpl in H. apply andb_prop in H. destruct H as [Hc Hs].
  cbn [Py.rstrip]. rewrite IH by assumption.
  destruct s; [|reflexivity].
  rewrite Ascii.eqb_sym.
  now rewrite (sign_or_digit_not c Py.dquote eq_refl Hc).
Qed.

Lemma prepare_number (panel : BoardSize) (z : Z) :
  Py.strip Py.dquote
    (Py.replace (Py.replace (Py.str_int z) "Dim2" (Py.str_int (width panel)))
                "Dim3" (Py.str_int (thickness panel)))
  = Py.str_int z.
Proof.
  unfold Py.replace, Py.strip.
  rewrite (replace_from_plain "im2" _ (Py.str_int z)) by apply str_int_chars.
  rewrite (replace_from_plain "im3" _ (Py.str_int z)) by apply str_int_chars.
  rewrite lstrip_plain, rstrip_plain by apply str_int_chars.
  reflexivity.
Qed.

(** ** Lemmas on the arithmetic grammar *)

Lemma apply_binop_caught (op : Py.binop) (v w : Py.value) (x : Py.exn) :
  Py.apply_binop op v w = Some (inl x) -> Py.is_Exception x = true.
Proof.
  unfold Py.apply_binop, Py.int_binop, Py.float_binop, Py.int_truediv,
    Py.float_of_int.
  destruct op, v, w; simpl;
    repeat match goal with
           | |- context [if ?c then _ else _] => destruct c
           end;
    intros H; inversion H; reflexivity.
Qed.

Lemma apply_unop_caught (op : Py.unop) (v : Py.value) (x : Py.exn) :
  Py.apply_unop op v = inl x -> Py.is_Exception x = true.
Proof.
  destruct op, v; simpl; intros H; inversion H; reflexivity.
Qed.

Lemma apply_binop_answers (op : Py.binop) (v w : Py.value) :
  match op with Py.Add | Py.Sub | Py.Mul | Py.Div => True | _ => False end ->
  exists r, Py.apply_binop op v w = Some r.
Proof.
  unfold Py.apply_binop, Py.int_binop, Py.float_binop, Py.int_truediv,
    Py.float_of_int.
  destruct op, v, w; simpl; intros H; try contradiction;
    repeat match goal with
           | |- context [if ?c then _ else _] => destruct c
           end;
    eauto.
Qed.

(** An expression of the grammar has an arithmetic value or an
    arithmetic error, and its evaluation touches nothing. *)
Lemma eval_expr_arith (e : Py.expr) :
  spec_expr e = true ->
  exists r, arith e = Some r /\
    (forall x, r = inl x -> Py.is_Exception x = true) /\
    forall fr,
      Eval.eval_expr e fr
      = Some (match r with
              | inl x => inl x
              | inr v => inr (Eval.RVal v)
              end, fr).
Proof.
  induction e as [z|m k|s|e IH n|f IH|f IHf a IHa|op e IH|op e1 IH1 e2 IH2];
    simpl; intros H; try discriminate.
  - exists (inr (Py.PyInt z)).
    split; [reflexivity|split; [intros x Hx; discriminate|reflexivity]].
  - exists (inr (Py.PyFloat (Py.float_literal m k))).
    split; [reflexivity|split; [intros x Hx; discriminate|reflexivity]].
  - destruct op; try discriminate.
    destruct (IH H) as [r [Ha [Hc He]]]. rewrite Ha.
    destruct r as [x|v].
    + exists (inl x). split; [reflexivity|split; [exact Hc|]].
      intros fr. now rewrite He.
    + exists (Py.apply_unop Py.UMinus v). split; [reflexivity|split].
      * intros x Hx. eapply apply_unop_caught; eauto.
      * intros fr. rewrite He. now destruct (Py.apply_unop Py.UMinus v).
  - assert (Hop : match op with
                  | Py.Add | Py.Sub | Py.Mul | Py.Div => True
                  | _ => False
                  end) by (destruct op; try discriminate; exact I).
    assert (H12 : spec_expr e1 = true /\ spec_expr e2 = true)
      by (destruct op; try discriminate; now apply andb_prop).
    destruct H12 as [H1 H2].
    destruct (IH1 H1) as [r1 [Ha1 [Hc1 He1]]].
    destruct (IH2 H2) as [r2 [Ha2 [Hc2 He2]]].
    rewrite Ha1, Ha2.
    destruct r1 as [x1|v1].
    + exists (inl x1). split; [reflexivity|split; [exact Hc1|]].
      intros fr. now rewrite He1.
    + destruct r2 as [x2|v2].
      * exists (inl x2). split; [reflexivity|split; [exact Hc2|]].
        intros fr. now rewrite He1, He2.
      * destruct (apply_binop_answers op v1 v2 Hop) as [r Hr].
        exists r. split; [exact Hr|split].
        -- intros x ->. eapply apply_binop_caught; eauto.
        -- intros fr. rewrite He1, He2, Hr. now destruct r.
Qed.

Lemma py_eval_arith (s : string) :
  in_spec_grammar s = true ->
  exists e r, Py.parse s = Py.POk e [] /\ arith e = Some r /\
    caught (outcome_of_arith r) /\
    forall fr, Eval.py_eval s fr = Some (outcome_of_arith r, fr).
Proof.
  unfold in_spec_grammar, Eval.py_eval. intros H.
  destruct (Py.parse s) as [e rest| |] eqn:Hp; try discriminate.
  assert (rest = []) as ->.
  { unfold Py.parse in Hp.
    destruct (Py.lex s); [|discriminate].
    destruct (Py.parse_sum (Py.parse_fuel l) l) as [e' [|t r']| |];
      try discriminate; now inversion Hp. }
  destruct (eval_expr_arith e H) as [r [Ha [Hc He]]].
  exists e, r. split; [reflexivity|split; [exact Ha|split]].
  - destruct r as [x|v]; simpl; auto.
  - intros fr. rewrite He. now destruct r.
Qed.

(** A row of arithmetic expressions is quiet. *)
Lemma arithmetic_rows_are_quiet (self0 : QltMachineRow.t) (panel0 : BoardSize) :
  (forall coord_expr,
      In coord_expr (coordinates self0) -> coord_expr <> EmptyString ->
      in_spec_grammar (prepare panel0 coord_expr) = true) ->
  quiet Eval.py_eval self0 panel0.
Proof.
  intros H e Hin Hne.
  destruct (py_eval_arith _ (H e Hin Hne)) as [ex [r [_ [_ [Hc He]]]]].
  exists (outcome_of_arith r). split; [exact Hc|].
  intros res trip cv. apply He.
Qed.

(** ** The decoder *)

Lemma single_row_past_header (i : nat) (row : list string)
    (qs : list t) (out : list row_report) :
  fst (main_rows_from (4 + i) [row] qs out) = qs ++ accepted row.
Proof.
  rewrite main_rows_from_past_header by lia.
  simpl. now rewrite app_nil_r.
Qed.

(** C3.  Past the four header rows a raw row is accepted exactly when it
    has at least ten columns after column 0: a row with nine usable
    columns passes the length test of the loop but the constructor
    raises, so the row is reported and no record is made of it; a row
    with exactly ten usable columns gives a record whose coordinate
    expressions are just x, y and z. *)
Theorem column_count_gate (i : nat) (row : list string)
    (qs : list t) (out : list row_report) :
  ((exists q, fst (main_rows_from (4 + i) [row] qs out) = qs ++ [q])
   <-> (10 <= List.length (tl row))%nat)
  /\ (fst (main_rows_from (4 + i) [row] qs out) = qs
      <-> (List.length (tl row) < 10)%nat)
  /\ (forall k c1 c2 c3 c4 c5 c6 c7 c8 c9,
        main_rows_from (4 + i) [[k; c1; c2; c3; c4; c5; c6; c7; c8; c9]] qs out
        = (qs, out ++ [RowError (4 + i) Py.TypeError]))
  /\ (forall k c1 c2 c3 c4 c5 c6 c7 c8 c9 c10,
        main_rows_from (4 + i)
          [[k; c1; c2; c3; c4; c5; c6; c7; c8; c9; c10]] qs out
        = (qs ++ [{| coordinates := [c5; c6; c10]; use := c1; layer := c2;
                     diam := c3; depth := c4; rep_qty := c7; repx := c8;
                     repy := c9 |}], out)).
Proof.
  rewrite single_row_past_header.
  split; [|split; [|split; reflexivity]].
  - destruct (Nat.lt_ge_cases (List.length (tl row)) 10) as [Hlt|Hge].
    + rewrite (accepted_short row Hlt). split; [|lia]. intros [q Hq].
      apply app_inv_head in Hq. discriminate.
    + destruct (accepted_long row Hge) as [q [Hq _]]. rewrite Hq.
      split; [tauto|]. intros _. now exists q.
  - destruct (Nat.lt_ge_cases (List.length (tl row)) 10) as [Hlt|Hge].
    + rewrite (accepted_short row Hlt), app_nil_r. tauto.
    + destruct (accepted_long row Hge) as [q [Hq _]]. rewrite Hq.
      split; [|lia]. intros H.
      rewrite <- (app_nil_r qs) in H at 2.
      apply app_inv_head in H. discriminate.
Qed.

(** C6.  An accepted raw row is mapped by position: after column 0 come
    use, layer, diam, depth, x, y, repQty, repX, repY, z, and the
    coordinate expressions are x, y, z in that order followed by every
    further column in file order. *)
Theorem positional_mapping (i : nat) (qs : list t) (out : list row_report)
    (k use layer diam depth x y rep_qty repx repy z : string)
    (further : list string) :
  main_rows_from (4 + i)
    [k :: use :: layer :: diam :: depth :: x :: y :: rep_qty :: repx
       :: repy :: z :: further] qs out
  = (qs ++ [{| coordinates := x :: y :: z :: further; use := use;
               layer := layer; diam := diam; depth := depth;
               rep_qty := rep_qty; repx := repx; repy := repy |}], out).
Proof.
  cbn [main_rows_from tl]. rewrite init_ten. reflexivity.
Qed.

(** C9.  [decode_tsv] drops the empty rows before the first loop of
    [main] counts anything: the rows passed over as header are the
    first four non-empty rows, an empty row anywhere in the file changes
    nothing, and a file with an empty line among its first lines shows
    the difference from skipping four physical lines. *)
Theorem header_skip_counts_non_empty_rows (reader : list (list string)) :
  Forall (fun row => row <> []) (decode_tsv reader)
  /\ main_decode reader
     = fst (main_rows_from 4 (skipn 4 (filter truthy_row reader)) [] [])
  /\ (forall pre post,
        main_decode (pre ++ [] :: post) = main_decode (pre ++ post))
  /\ main_decode
       [["a"]; []; ["b"]; ["c"]; example_header; example_data]
     = [example_record]
  /\ fst (main_rows_from 4
            (skipn 4 [["a"]; []; ["b"]; ["c"]; example_header; example_data])
            [] [])
     <> [example_record].
Proof.
  split; [|split; [|split; [|split]]].
  - unfold decode_tsv. apply Forall_forall. intros row Hin.
    apply filter_In in Hin. destruct Hin as [_ Hrow].
    now destruct row.
  - rewrite main_decode_spec.
    now rewrite main_rows_from_past_header by lia.
  - intros pre post. rewrite !main_decode_spec. unfold decode_tsv.
    now rewrite !filter_app.
  - reflexivity.
  - vm_compute. discriminate.
Qed.

(** C10.  The representation of a row always raises [AttributeError]:
    [__repr__] reads [self.x], and no attribute of that name is stored
    by the constructor or defined by the class. *)
Theorem repr_raises_attribute_error (self0 : QltMachineRow.t) :
  __repr__ self0 = inl (Py.AttributeError "x")
  /\ assoc "x" (__dict__ self0) = None
  /\ existsb (String.eqb "x") class_names = false.
Proof.
  split; [|split]; reflexivity.
Qed.

(** ** The evaluator *)

(** Discharges [quiet] for [Eval.py_eval] on a concrete row by running
    the evaluator on each of its expressions. *)
Ltac quiet_by_evaluation :=
  let c := fresh "c" in
  let Hin := fresh "Hin" in
  let Hne := fresh "Hne" in
  intros c Hin Hne; simpl in Hin;
  repeat (destruct Hin as [Hin|Hin];
          [subst c;
           first [ exfalso; apply Hne; reflexivity
                 | eexists; split;
                   [|intros res trip cv; lazy; reflexivity]; simpl; auto ]
          |]);
  contradiction.

(** An expression in which nothing is called changes nothing. *)
Lemma eval_expr_call_free (e : Py.expr) :
  call_free e = true ->
  forall fr r fr', Eval.eval_expr e fr = Some (r, fr') -> fr' = fr.
Proof.
  induction e as [z|m k|name|e1 IH name|f IH|f IHf arg IHa|op e1 IH
                 |op e1 IH1 e2 IH2];
    cbn [call_free Eval.eval_expr]; intros Hc fr r fr' H;
    try discriminate Hc.
  - now inversion H.
  - now inversion H.
  - destruct (Eval.lookup_name name fr); now inversion H.
  - destruct (Eval.eval_expr e1 fr) as [[[x|y] fr1]|] eqn:He;
      [| |discriminate H].
    + inversion H; subst. exact (IH Hc _ _ _ He).
    + destruct (Eval.get_attribute y name fr1); inversion H; subst.
      exact (IH Hc _ _ _ He).
  - destruct (Eval.eval_expr e1 fr) as [[[x|[v|r0|r0 n]] fr1]|] eqn:He;
      try discriminate H.
    + inversion H; subst. exact (IH Hc _ _ _ He).
    + destruct (Py.apply_unop op v); inversion H; subst;
        exact (IH Hc _ _ _ He).
  - apply andb_prop in Hc. destruct Hc as [Hc1 Hc2].
    destruct (Eval.eval_expr e1 fr) as [[[x|y] fr1]|] eqn:He1;
      [| |discriminate H].
    + inversion H; subst. exact (IH1 Hc1 _ _ _ He1).
    + rewrite <- (IH1 Hc1 _ _ _ He1).
      destruct (Eval.eval_expr e2 fr1) as [[[x2|y2] fr2]|] eqn:He2;
        [| |discriminate H].
      * inversion H; subst. exact (IH2 Hc2 _ _ _ He2).
      * rewrite <- (IH2 Hc2 _ _ _ He2).
        destruct y as [v| |]; try discriminate H.
        destruct y2 as [w| |]; try discriminate H.
        destruct (Py.apply_binop op v w) as [[x|u]|];
          now inversion H.
Qed.

Lemma py_eval_call_free (s : string) (fr fr' : Eval.frame)
    (o : outcome Py.value) :
  call_free_text s = true ->
  Eval.py_eval s fr = Some (o, fr') -> fr' = fr.
Proof.
  unfold call_free_text, Eval.py_eval. intros Hc H.
  destruct (Py.parse s) as [e rest| |]; [| |discriminate H].
  - destruct (Eval.eval_expr e fr) as [[[x|[v|r0|r0 n]] fr1]|] eqn:He;
      try discriminate H; inversion H; subst;
      exact (eval_expr_call_free e Hc _ He).
  - now inversion H.
Qed.

(** C1, counterexample.  The constructor builds, from a row of the file,
    a record whose x expression is [current_triplet.append(1)].  That
    text evaluates without error, to [None], and puts a value of its own
    in the buffer: two expressions resolve and yet one triple is
    returned.  In the same way [results.clear()] drops the triples made
    before it: six expressions resolve and one triple is returned. *)
Lemma triple_count_counterexample :
  __init__ ["1"; "Top"; "M3"; "Through"; "current_triplet.append(1)"; "1";
            "1"; "0"; "0"; ""]
  = inr (row_of ["current_triplet.append(1)"; "1"; ""])
  /\ calculate_coordinates Eval.py_eval 4
       (row_of ["current_triplet.append(1)"; "1"; ""]) BoardSize_default
     = Some (Returned [[Py.PyInt 1; Py.PyNone; Py.PyInt 1]],
             at_rest (row_of ["current_triplet.append(1)"; "1"; ""])
                     BoardSize_default
                     [[Py.PyInt 1; Py.PyNone; Py.PyInt 1]] []
                     (Some (Py.PyInt 1)),
             [Echo "current_triplet.append(1)"; Echo "1"])
  /\ resolved_in_call Eval.py_eval
       (row_of ["current_triplet.append(1)"; "1"; ""]) BoardSize_default
     = [Py.PyNone; Py.PyInt 1]
  /\ List.length [[Py.PyInt 1; Py.PyNone; Py.PyInt 1]]
     <> (List.length
           (resolved_in_call Eval.py_eval
              (row_of ["current_triplet.append(1)"; "1"; ""])
              BoardSize_default)
         / 3)%nat
  /\ __init__ ["1"; "Top"; "M3"; "Through"; "1"; "2"; "1"; "0"; "0"; "3";
               "results.clear()"; "5"; "6"]
     = inr (row_of ["1"; "2"; "3"; "results.clear()"; "5"; "6"])
  /\ calculate_coordinates Eval.py_eval 7
       (row_of ["1"; "2"; "3"; "results.clear()"; "5"; "6"]) BoardSize_default
     = Some (Returned [[Py.PyNone; Py.PyInt 5; Py.PyInt 6]],
             at_rest (row_of ["1"; "2"; "3"; "results.clear()"; "5"; "6"])
                     BoardSize_default
                     [[Py.PyNone; Py.PyInt 5; Py.PyInt 6]] []
                     (Some (Py.PyInt 6)),
             map Echo ["1"; "2"; "3"; "results.clear()"; "5"; "6"])
  /\ resolved_in_call Eval.py_eval
       (row_of ["1"; "2"; "3"; "results.clear()"; "5"; "6"]) BoardSize_default
     = [Py.PyInt 1; Py.PyInt 2; Py.PyInt 3; Py.PyNone; Py.PyInt 5; Py.PyInt 6].
Proof.
  split; [|split; [|split; [|split; [|split; [|split]]]]].
  - reflexivity.
  - vm_compute. reflexivity.
  - vm_compute. reflexivity.
  - vm_compute. discriminate.
  - reflexivity.
  - vm_compute. reflexivity.
  - vm_compute. reflexivity.
Qed.

(** C1, amended.  Take any row and board such that evaluating an
    expression of the row, in whatever state the call is, leaves the
    list of expressions of the row, the list of results and the buffer
    as they are; the outcome of an evaluation may depend on the state,
    as that of [calculated_value] does.  Then a call that returns
    returns floor(n / 3) triples, n being the number of expressions that
    resolve in the course of the call; each triple has three values, the
    values are in the order of their expressions, and the one or two
    left over stay in the buffer and are not returned.  And the call
    does return when moreover every evaluation gives an answer and
    raises nothing outside [Exception]. *)
Theorem triple_count_law (V : Type) (eval : evaluator V)
    (self0 : QltMachineRow.t) (panel0 : BoardSize) :
  keeps_lists eval self0 ->
  (forall fuel res fr out,
      calculate_coordinates eval fuel self0 panel0
      = Some (Returned res, fr, out) ->
      List.length res
      = (List.length (resolved_in_call eval self0 panel0) / 3)%nat
      /\ Forall (fun t => List.length t = 3%nat) res
      /\ List.concat res ++ current_triplet fr
         = resolved_in_call eval self0 panel0
      /\ (List.length (current_triplet fr) < 3)%nat)
  /\ (answers_within_Exception eval self0 ->
      forall fuel, (List.length (coordinates self0) < fuel)%nat ->
        exists res fr out,
          calculate_coordinates eval fuel self0 panel0
          = Some (Returned res, fr, out)).
Proof.
  intros Hkeeps. split.
  - intros fuel res fr out Hcall. unfold calculate_coordinates in Hcall.
    change 0%nat with (List.length (@nil string)) in Hcall.
    destruct (@loop_groups V eval self0 (coordinates self0) Hkeeps
                [] fuel (enter V self0 panel0) [] res fr out
                eq_refl eq_refl (Nat.lt_0_succ 2) Hcall) as [Hres Htrip].
    cbn [results current_triplet enter app] in Hres, Htrip.
    fold (resolved_in_call eval self0 panel0) in Hres, Htrip.
    rewrite Hres, Htrip.
    split; [apply chunk3_length|].
    split; [apply chunk3_triples|].
    split; [apply chunk3_concat|apply rest3_length].
  - intros Hans fuel Hfuel. unfold calculate_coordinates.
    change 0%nat with (List.length (@nil string)).
    exact (@loop_returns V eval self0 (coordinates self0) Hkeeps Hans
             [] fuel (enter V self0 panel0) [] eq_refl eq_refl Hfuel).
Qed.

Lemma triple_count_law_witness :
  exists res fr out,
    calculate_coordinates Eval.py_eval 7
      (row_of ["1"; "calculated_value"; "calculated_value"; "bad(((";
               "7/2"; ""]) BoardSize_default
    = Some (Returned res, fr, out)
    /\ res = [[Py.PyInt 1; Py.PyInt 1; Py.PyInt 1]]
    /\ List.length res
       = (List.length
            (resolved_in_call Eval.py_eval
               (row_of ["1"; "calculated_value"; "calculated_value";
                        "bad((("; "7/2"; ""]) BoardSize_default) / 3)%nat
    /\ Forall (fun t => List.length t = 3%nat) res
    /\ List.concat res ++ current_triplet fr
       = resolved_in_call Eval.py_eval
           (row_of ["1"; "calculated_value"; "calculated_value"; "bad(((";
                    "7/2"; ""]) BoardSize_default
    /\ (List.length (current_triplet fr) < 3)%nat.
Proof.
  assert (Hkeeps : keeps_lists Eval.py_eval
                     (row_of ["1"; "calculated_value"; "calculated_value";
                              "bad((("; "7/2"; ""])).
  { intros c fr o fr' Hin Hne Hco Hev.
    assert (Hfr : fr' = fr).
    { apply (@py_eval_call_free (prepare (panel fr) c) fr fr' o);
        [|exact Hev].
      simpl in Hin.
      repeat (destruct Hin as [Hin|Hin];
              [subst c; first [exfalso; apply Hne; reflexivity
                              |lazy; reflexivity]|]).
      contradiction. }
    subst fr'. auto. }
  assert (Hans : answers_within_Exception Eval.py_eval
                   (row_of ["1"; "calculated_value"; "calculated_value";
                            "bad((("; "7/2"; ""])).
  { intros c [s p r t [v|]] Hin Hne Hco; simpl in Hin;
      repeat (destruct Hin as [Hin|Hin];
              [subst c; first [exfalso; apply Hne; reflexivity
                              |eexists; eexists; split;
                               [lazy; reflexivity|simpl; auto]]|]);
      contradiction. }
  destruct (triple_count_law BoardSize_default Hkeeps) as [Hlaw Hret].
  destruct (Hret Hans 7%nat) as [res [fr [out Hcall]]]; [simpl; lia|].
  exists res, fr, out. split; [exact Hcall|].
  split; [|exact (Hlaw _ _ _ _ Hcall)].
  vm_compute in Hcall. now inversion Hcall.
Defined.

(** C8, counterexample.  The text [self.coordinates.clear()] empties the
    coordinate list of the row it is read from: after the call the row
    is not the row that was passed. *)
Lemma row_mutated_by_evaluated_text :
  __init__ ["1"; "Top"; "M3"; "Through"; "self.coordinates.clear()"; "1";
            "1"; "0"; "0"; "2"]
  = inr (row_of ["self.coordinates.clear()"; "1"; "2"])
  /\ calculate_coordinates Eval.py_eval 3
       (row_of ["self.coordinates.clear()"; "1"; "2"]) BoardSize_default
     = Some (Returned [],
             at_rest (row_of []) BoardSize_default [] [Py.PyNone]
               (Some Py.PyNone),
             [Echo "self.coordinates.clear()"])
  /\ row_of [] <> row_of ["self.coordinates.clear()"; "1"; "2"].
Proof.
  split; [reflexivity|split; [vm_compute; reflexivity|discriminate]].
Qed.

(** C8, amended.  The method itself assigns to no attribute of the row
    or of the board; only the text it evaluates can.  For every row and
    board such that evaluating an expression of the row hands back the
    row and the board it was given, the row and the board after the call
    are the ones passed in, however the call ends and whatever the
    evaluations do to the results and to the buffer.  What the call
    prints is the echo of every expression it evaluates and the report
    of every failure it catches.  And the call does end when every
    evaluation gives an answer. *)
Theorem calculate_coordinates_frame (V : Type) (eval : evaluator V)
    (self0 : QltMachineRow.t) (panel0 : BoardSize) :
  keeps_row_and_board eval self0 panel0 ->
  (forall fuel c fr out,
      calculate_coordinates eval fuel self0 panel0 = Some (c, fr, out) ->
      self fr = self0 /\ panel fr = panel0
      /\ out = printed_in_call eval self0 panel0)
  /\ (answers eval self0 panel0 ->
      forall fuel, (List.length (coordinates self0) < fuel)%nat ->
        exists c fr out,
          calculate_coordinates eval fuel self0 panel0 = Some (c, fr, out)).
Proof.
  intros Hkeeps. split.
  - intros fuel c fr out Hcall. unfold calculate_coordinates in Hcall.
    change 0%nat with (List.length (@nil string)) in Hcall.
    exact (@loop_frame V eval self0 panel0 (coordinates self0) Hkeeps
             [] fuel (enter V self0 panel0) [] c fr out
             eq_refl eq_refl eq_refl Hcall).
  - intros Hans fuel Hfuel. unfold calculate_coordinates.
    change 0%nat with (List.length (@nil string)).
    exact (@loop_answers V eval self0 panel0 (coordinates self0) Hkeeps Hans
             [] fuel (enter V self0 panel0) [] eq_refl eq_refl eq_refl Hfuel).
Qed.

Lemma calculate_coordinates_frame_witness :
  exists c fr out,
    calculate_coordinates Eval.py_eval 4
      (row_of ["current_triplet.append(1)"; "1/0"; "panel.width + 1"])
      BoardSize_default
    = Some (c, fr, out)
    /\ c = Returned [[Py.PyInt 1; Py.PyNone; Py.PyInt 201]]
    /\ self fr
       = row_of ["current_triplet.append(1)"; "1/0"; "panel.width + 1"]
    /\ panel fr = BoardSize_default
    /\ out = printed_in_call Eval.py_eval
               (row_of ["current_triplet.append(1)"; "1/0";
                        "panel.width + 1"]) BoardSize_default.
Proof.
  assert (Hkeeps : keeps_row_and_board Eval.py_eval
                     (row_of ["current_triplet.append(1)"; "1/0";
                              "panel.width + 1"]) BoardSize_default).
  { intros c [s p r t cv] o fr' Hin Hne Hs Hp Hev.
    cbn [self panel] in Hs, Hp. subst s p. simpl in Hin.
    repeat (destruct Hin as [Hin|Hin];
            [subst c; lazy in Hev; inversion Hev; split; reflexivity|]).
    contradiction. }
  assert (Hans : answers Eval.py_eval
                   (row_of ["current_triplet.append(1)"; "1/0";
                            "panel.width + 1"]) BoardSize_default).
  { intros c [s p r t cv] Hin Hne Hs Hp.
    cbn [self panel] in Hs, Hp. subst s p. simpl in Hin.
    repeat (destruct Hin as [Hin|Hin];
            [subst c; eexists; lazy; reflexivity|]).
    contradiction. }
  destruct (calculate_coordinates_frame Hkeeps) as [Hframe Hend].
  destruct (Hend Hans 4%nat) as [c [fr [out Hcall]]]; [simpl; lia|].
  exists c, fr, out. split; [exact Hcall|].
  split; [|exact (Hframe _ _ _ _ Hcall)].
  vm_compute in Hcall. now inversion Hcall.
Defined.

(** C5.  A failed evaluation whose exception derives from [Exception]
    (a syntax error, a division by zero, an unknown name) is reported,
    nothing is put in the buffer for it, and the loop goes on with the
    next expression.  On a quiet row the call therefore returns, and
    returns the triples made of the values of the other expressions
    alone. *)
Theorem failed_expression_is_skipped (V : Type) (eval : evaluator V) :
  (forall fuel i fr out coord_expr x fr',
      nth_error (coordinates (self fr)) i = Some coord_expr ->
      coord_expr <> EmptyString ->
      eval (prepare (panel fr) coord_expr) fr = Some (Raised x, fr') ->
      Py.is_Exception x = true ->
      loop eval (S fuel) i fr out
      = loop eval fuel (S i) fr'
          (out ++ [Echo coord_expr;
                   EvalError (prepare (panel fr) coord_expr) x]))
  /\ (forall self0 panel0 fuel before coord_expr after x,
        coordinates self0 = before ++ coord_expr :: after ->
        quiet eval self0 panel0 ->
        (List.length (coordinates self0) < fuel)%nat ->
        coord_expr <> EmptyString ->
        outcome_of eval self0 panel0 coord_expr = Some (Raised x) ->
        let vs := flat_map (value_of eval self0 panel0) before
                  ++ flat_map (value_of eval self0 panel0) after in
        calculate_coordinates eval fuel self0 panel0
        = Some (Returned (chunk3 vs),
                at_rest self0 panel0 (chunk3 vs) (rest3 vs) (latest None vs),
                flat_map (lines_of eval self0 panel0) before
                ++ [Echo coord_expr; EvalError (prepare panel0 coord_expr) x]
                ++ flat_map (lines_of eval self0 panel0) after))
  /\ (Py.is_Exception Py.SyntaxError = true
      /\ Py.is_Exception Py.ZeroDivisionError = true
      /\ Py.is_Exception Py.NameError = true).
Proof.
  split; [|split; [|repeat split]].
  - intros fuel i fr out e x fr' Hnth Hne Hev Hx.
    cbn [loop]. rewrite Hnth, (proj2 (String.eqb_neq _ _) Hne), Hev, Hx.
    now rewrite <- app_assoc.
  - intros self0 panel0 fuel before e after x Hco Hq Hfuel Hne Ho vs.
    rewrite (calculate_coordinates_quiet Hq Hfuel).
    unfold resolved, reported. rewrite Hco, !flat_map_app. cbn [flat_map].
    assert (Hv : value_of eval self0 panel0 e = [])
      by (unfold value_of; now rewrite (proj2 (String.eqb_neq _ _) Hne), Ho).
    assert (Hl : lines_of eval self0 panel0 e
                 = [Echo e; EvalError (prepare panel0 e) x])
      by (unfold lines_of; now rewrite (proj2 (String.eqb_neq _ _) Hne), Ho).
    rewrite Hv, Hl. reflexivity.
Qed.

Lemma failed_expression_is_skipped_witness :
  loop Eval.py_eval 3 1
    (at_rest (row_of ["1+1"; "bad((("; "3"]) BoardSize_default [] [Py.PyInt 2]
       (Some (Py.PyInt 2)))
    [Echo "1+1"]
  = loop Eval.py_eval 2 2
      (at_rest (row_of ["1+1"; "bad((("; "3"]) BoardSize_default [] [Py.PyInt 2]
         (Some (Py.PyInt 2)))
      ([Echo "1+1"] ++ [Echo "bad((("; EvalError "bad(((" Py.SyntaxError])
  /\ calculate_coordinates Eval.py_eval 4
       (row_of ["1+1"; "bad((("; "3"]) BoardSize_default
     = Some (Returned [],
             at_rest (row_of ["1+1"; "bad((("; "3"]) BoardSize_default
               [] [Py.PyInt 2; Py.PyInt 3] (Some (Py.PyInt 3)),
             [Echo "1+1"; Echo "bad((("; EvalError "bad(((" Py.SyntaxError;
              Echo "3"]).
Proof.
  split.
  - apply (proj1 (failed_expression_is_skipped Eval.py_eval) 2 1
             (at_rest (row_of ["1+1"; "bad((("; "3"]) BoardSize_default
                      [] [Py.PyInt 2] (Some (Py.PyInt 2)))
             [Echo "1+1"] "bad(((" Py.SyntaxError
             (at_rest (row_of ["1+1"; "bad((("; "3"]) BoardSize_default
                      [] [Py.PyInt 2] (Some (Py.PyInt 2))));
      [reflexivity|discriminate|vm_compute; reflexivity|reflexivity].
  - apply (proj1 (proj2 (failed_expression_is_skipped Eval.py_eval))
             (row_of ["1+1"; "bad((("; "3"]) BoardSize_default 4
             ["1+1"] "bad(((" ["3"] Py.SyntaxError);
      [reflexivity|quiet_by_evaluation|simpl; lia|discriminate
      |vm_compute; reflexivity].
Defined.

(** C4.  An empty expression is passed over before anything is done
    with it: nothing is printed, nothing is evaluated, the buffer is as
    it was.  With the expressions 100, empty, 50 the buffer ends with
    the two values 100 and 50 and no triple is returned. *)
Theorem empty_expression_is_dropped :
  (forall (V : Type) (eval : evaluator V) fuel i fr out,
      nth_error (coordinates (self fr)) i = Some EmptyString ->
      loop eval (S fuel) i fr out = loop eval fuel (S i) fr out)
  /\ (forall panel0 fuel,
        calculate_coordinates Eval.py_eval (4 + fuel)
          (row_of ["100"; ""; "50"]) panel0
        = Some (Returned [],
                at_rest (row_of ["100"; ""; "50"]) panel0
                  [] [Py.PyInt 100; Py.PyInt 50] (Some (Py.PyInt 50)),
                [Echo "100"; Echo "50"])).
Proof.
  split.
  - intros V eval fuel i fr out Hnth. cbn [loop]. now rewrite Hnth.
  - intros panel0 fuel. destruct panel0. vm_compute. reflexivity.
Qed.

Lemma empty_expression_is_dropped_witness :
  loop Eval.py_eval 3 1
    (at_rest (row_of ["100"; ""; "50"]) BoardSize_default [] [Py.PyInt 100]
       (Some (Py.PyInt 100)))
    [Echo "100"]
  = loop Eval.py_eval 2 2
      (at_rest (row_of ["100"; ""; "50"]) BoardSize_default [] [Py.PyInt 100]
         (Some (Py.PyInt 100)))
      [Echo "100"].
Proof.
  apply (proj1 empty_expression_is_dropped). reflexivity.
Defined.

(** C7.  The placeholders [Dim1], [Dim2] and [Dim3] are replaced by the
    height, the width and the thickness of the board, and quotes around
    the text are stripped after that: with height 800, [Dim1/2] resolves
    to 400.0, also when quoted; with width 200, [Dim2*2] resolves to
    400, which equals 400.0; [Dim3] resolves to the thickness. *)
Theorem placeholder_substitution :
  (forall panel0,
      prepare panel0 "Dim1" = Py.str_int (height panel0)
      /\ prepare panel0 "Dim2" = Py.str_int (width panel0)
      /\ prepare panel0 "Dim3" = Py.str_int (thickness panel0))
  /\ (forall w t fuel,
        prepare (mkBoardSize w 800 t) "Dim1/2" = "800/2"
        /\ prepare (mkBoardSize w 800 t)
             (String Py.dquote ("Dim1/2" ++ String Py.dquote EmptyString))
           = "800/2"
        /\ calculate_coordinates Eval.py_eval (2 + fuel)
             (row_of ["Dim1/2"]) (mkBoardSize w 800 t)
           = Some (Returned [],
                   at_rest (row_of ["Dim1/2"]) (mkBoardSize w 800 t)
                     [] [Py.PyFloat 400] (Some (Py.PyFloat 400)),
                   [Echo "Dim1/2"]))
  /\ (forall h t fuel,
        prepare (mkBoardSize 200 h t) "Dim2*2" = "200*2"
        /\ calculate_coordinates Eval.py_eval (2 + fuel)
             (row_of ["Dim2*2"]) (mkBoardSize 200 h t)
           = Some (Returned [],
                   at_rest (row_of ["Dim2*2"]) (mkBoardSize 200 h t)
                     [] [Py.PyInt 400] (Some (Py.PyInt 400)),
                   [Echo "Dim2*2"]))
  /\ Py.value_eq (Py.PyInt 400) (Py.PyFloat 400) = true
  /\ (forall fuel,
        calculate_coordinates Eval.py_eval (4 + fuel)
          (row_of ["Dim1"; "Dim2"; "Dim3"]) BoardSize_default
        = Some (Returned [[Py.PyInt 800; Py.PyInt 200; Py.PyInt 16]],
                at_rest (row_of ["Dim1"; "Dim2"; "Dim3"]) BoardSize_default
                  [[Py.PyInt 800; Py.PyInt 200; Py.PyInt 16]] []
                  (Some (Py.PyInt 16)),
                [Echo "Dim1"; Echo "Dim2"; Echo "Dim3"])).
Proof.
  split; [|split; [|split; [|split]]].
  - intros panel0. unfold prepare.
    split; [|split].
    + change (Py.replace "Dim1" "Dim1" (Py.str_int (height panel0)))
        with (Py.str_int (height panel0) ++ EmptyString)%string.
      rewrite string_app_nil_r. apply prepare_number.
    + change (Py.replace "Dim2" "Dim1" (Py.str_int (height panel0)))
        with "Dim2".
      change (Py.replace "Dim2" "Dim2" (Py.str_int (width panel0)))
        with (Py.str_int (width panel0) ++ EmptyString)%string.
      rewrite string_app_nil_r. unfold Py.replace, Py.strip.
      rewrite replace_from_plain by apply str_int_chars.
      now rewrite lstrip_plain, rstrip_plain by apply str_int_chars.
    + change (Py.replace
                (Py.replace (Py.replace "Dim3" "Dim1"
                               (Py.str_int (height panel0)))
                            "Dim2" (Py.str_int (width panel0)))
                "Dim3" (Py.str_int (thickness panel0)))
        with (Py.str_int (thickness panel0) ++ EmptyString)%string.
      rewrite string_app_nil_r. unfold Py.strip.
      now rewrite lstrip_plain, rstrip_plain by apply str_int_chars.
  - intros w t fuel. split; [|split]; vm_compute; reflexivity.
  - intros h t fuel. split; vm_compute; reflexivity.
  - vm_compute. reflexivity.
  - intros fuel. vm_compute. reflexivity.
Qed.

(** ** Further properties of the decoder *)

(** X1.  The constructor loses nothing: the argument list can be read
    back from the record it builds, and the record carries seven fewer
    coordinate expressions than there were arguments, so at least
    three. *)
Theorem init_round_trip (args : list string) (r : QltMachineRow.t) :
  __init__ args = inr r ->
  columns r = args
  /\ List.length (coordinates r) = (List.length args - 7)%nat
  /\ (3 <= List.length (coordinates r))%nat.
Proof.
  intros H.
  do 10 (destruct args as [|? args]; [discriminate H|]).
  rewrite init_ten in H. inversion H; subst r; clear H.
  unfold columns. cbn [coordinates use layer diam depth rep_qty repx repy].
  split; [reflexivity|]. simpl. split; lia.
Qed.

Lemma init_round_trip_witness :
  columns example_record = tl example_data
  /\ List.length (coordinates example_record)
     = (List.length (tl example_data) - 7)%nat
  /\ (3 <= List.length (coordinates example_record))%nat.
Proof.
  apply init_round_trip. reflexivity.
Defined.

Lemma main_rows_from_reports (data : list (list string)) :
  forall i qs out,
    snd (main_rows_from i data qs out)
    = out ++ flat_map report_of (enumerate_from i data).
Proof.
  induction data as [|row rest IH]; intros i qs out.
  - simpl. now rewrite app_nil_r.
  - cbn [main_rows_from enumerate_from flat_map].
    unfold report_of at 1. cbn [fst snd].
    destruct (Nat.ltb_spec i 4) as [Hi|Hi].
    + cbn [orb]. rewrite (proj2 (Nat.leb_gt 4 i) Hi). cbn [andb app].
      apply IH.
    + cbn [orb]. rewrite (proj2 (Nat.leb_le 4 i) Hi). cbn [andb].
      destruct (Nat.ltb_spec (List.length row) 10) as [Hr|Hr].
      * rewrite (proj2 (Nat.eqb_neq _ _)) by lia. cbn [app]. apply IH.
      * destruct (Nat.eqb_spec (List.length row) 10) as [H10|H10].
        -- rewrite init_short by (destruct row; simpl in *; lia).
           rewrite IH. now rewrite <- app_assoc.
        -- destruct (init_long (tl row)) as [r Hr'];
             [destruct row; simpl in *; lia|].
           rewrite Hr'. cbn [app]. apply IH.
Qed.

(** X3.  The first loop of [main] skips a row in one of two ways: a row
    of fewer than ten columns, and every one of the first four rows, is
    passed over without a word; a row past the header with exactly ten
    columns is reported, with its index, as a [TypeError].  Nothing else
    is ever reported. *)
Theorem skipped_rows_reported (data : list (list string)) :
  snd (main_rows data) = flat_map report_of (enumerate_from 0 data).
Proof.
  unfold main_rows. now rewrite main_rows_from_reports.
Qed.

Lemma accepted_length (row : list string) :
  (List.length (accepted row) <= 1)%nat.
Proof.
  unfold accepted. destruct (List.length row <? 10)%nat; [simpl; lia|].
  destruct (__init__ (tl row)); simpl; lia.
Qed.

Lemma flat_map_accepted_length (data : list (list string)) :
  (List.length (flat_map accepted data) <= List.length data)%nat.
Proof.
  induction data as [|row rest IH]; [simpl; lia|].
  cbn [flat_map]. rewrite length_app. simpl.
  pose proof (accepted_length row). lia.
Qed.

Lemma accepted_origin (row : list string) (q : QltMachineRow.t) :
  In q (accepted row) ->
  (10 <= List.length (tl row))%nat /\ __init__ (tl row) = inr q.
Proof.
  unfold accepted.
  destruct (List.length row <? 10)%nat; [intros []|].
  destruct (__init__ (tl row)) as [e|r] eqn:Hr; [intros []|].
  intros [<-|[]]. split; [|reflexivity].
  destruct (Nat.lt_ge_cases (List.length (tl row)) 10) as [Hlt|Hge];
    [|exact Hge].
  rewrite (init_short _ Hlt) in Hr. discriminate.
Qed.

(** X4.  The records [main] builds are those of the non-empty rows after
    the fourth, in file order and at most one per row; each comes from a
    row of the file with at least ten columns after column 0, through
    the constructor. *)
Theorem records_in_file_order (reader : list (list string)) :
  main_decode reader = flat_map accepted (skipn 4 (decode_tsv reader))
  /\ (List.length (main_decode reader)
      <= List.length (decode_tsv reader) - 4)%nat
  /\ (forall q, In q (main_decode reader) ->
        exists row, In row reader /\ (10 <= List.length (tl row))%nat
                    /\ __init__ (tl row) = inr q).
Proof.
  rewrite main_decode_spec. split; [reflexivity|split].
  - etransitivity; [apply flat_map_accepted_length|].
    rewrite length_skipn. lia.
  - intros q Hq. apply in_flat_map in Hq. destruct Hq as [row [Hrow Hq]].
    exists row. split; [|now apply accepted_origin].
    assert (Hin : In row (decode_tsv reader)).
    { rewrite <- (firstn_skipn 4 (decode_tsv reader)).
      apply in_or_app. now right. }
    unfold decode_tsv in Hin. apply filter_In in Hin. tauto.
Qed.

Lemma records_in_file_order_witness :
  exists row,
    In row [["a"]; []; ["b"]; ["c"]; example_header; example_data]
    /\ (10 <= List.length (tl row))%nat
    /\ __init__ (tl row) = inr example_record.
Proof.
  apply (proj2 (proj2 (records_in_file_order
           [["a"]; []; ["b"]; ["c"]; example_header; example_data]))).
  vm_compute. left. reflexivity.
Defined.

(** ** Further properties of placeholder substitution *)

Lemma string_app_assoc (a b c : string) :
  ((a ++ b) ++ c)%string = (a ++ (b ++ c))%string.
Proof.
  induction a as [|x a IH]; simpl; [reflexivity|now rewrite IH].
Qed.

Lemma free_of_app (c : ascii) (a b : string) :
  free_of c (a ++ b) = free_of c a && free_of c b.
Proof.
  unfold free_of. induction a as [|x a IH]; simpl; [reflexivity|].
  now rewrite IH, andb_assoc.
Qed.

Lemma number_free_of (c : ascii) (s : string) :
  sign_or_digit c = false -> all_chars sign_or_digit s = true ->
  free_of c s = true.
Proof.
  intros Hc. unfold free_of.
  induction s as [|x s IH]; simpl; intros H; [reflexivity|].
  apply andb_prop in H. destruct H as [Hx Hs].
  rewrite IH by assumption. rewrite andb_true_r.
  rewrite Ascii.eqb_sym, (sign_or_digit_not x c Hc Hx). reflexivity.
Qed.

Lemma carries_text (tail new t : string) :
  free_of "D" t = true -> carries (String "D" tail) new t t.
Proof.
  unfold free_of, carries.
  induction t as [|x t IH]; intros H rest; [reflexivity|].
  cbn [all_chars] in H. apply andb_prop in H. destruct H as [Hx Ht].
  apply negb_true_iff in Hx. rewrite Ascii.eqb_sym in Hx.
  cbn [append Py.replace_from Py.startswith].
  rewrite Hx. cbn [andb]. now rewrite IH.
Qed.

Lemma render_replace (tail new a b c a' b' c' : string) :
  carries (String "D" tail) new a a' ->
  carries (String "D" tail) new b b' ->
  carries (String "D" tail) new c c' ->
  forall ps rest, forallb plain_part ps = true ->
    Py.replace_from (String "D" tail) new 0 (render a b c ps ++ rest)
    = (render a' b' c' ps
       ++ Py.replace_from (String "D" tail) new 0 rest)%string.
Proof.
  intros Ha Hb Hc ps rest.
  induction ps as [|p ps IH]; intros H; [reflexivity|].
  cbn [forallb] in H. apply andb_prop in H. destruct H as [Hp Hps].
  cbn [render]. rewrite !string_app_assoc.
  destruct p as [t|[| |]]; cbn [fill].
  - apply andb_prop in Hp. destruct Hp as [HD _].
    rewrite (carries_text tail new t HD). now rewrite IH.
  - rewrite Ha. now rewrite IH.
  - rewrite Hb. now rewrite IH.
  - rewrite Hc. now rewrite IH.
Qed.

Lemma render_free_of (q : ascii) (a b c : string) (ps : list part) :
  free_of q a = true -> free_of q b = true -> free_of q c = true ->
  forallb (fun p => match p with Text t => free_of q t | Hole _ => true end) ps
  = true ->
  free_of q (render a b c ps) = true.
Proof.
  intros Ha Hb Hc. induction ps as [|p ps IH]; intros H; [reflexivity|].
  cbn [forallb] in H. apply andb_prop in H. destruct H as [Hp Hps].
  cbn [render]. rewrite free_of_app, IH by assumption.
  rewrite andb_true_r. destruct p as [t|[| |]]; assumption.
Qed.

Lemma lstrip_free (q : ascii) (s : string) :
  free_of q s = true -> Py.lstrip q s = s.
Proof.
  unfold free_of. destruct s as [|x s]; simpl; intros H; [reflexivity|].
  apply andb_prop in H. destruct H as [Hx _].
  apply negb_true_iff in Hx. now rewrite Hx.
Qed.

Lemma rstrip_free (q : ascii) (s : string) :
  free_of q s = true -> Py.rstrip q s = s.
Proof.
  unfold free_of. induction s as [|x s IH]; simpl; intros H; [reflexivity|].
  apply andb_prop in H. destruct H as [Hx Hs].
  rewrite IH by assumption. apply negb_true_iff in Hx.
  destruct s; [now rewrite Hx|reflexivity].
Qed.

Lemma rstrip_closing_quote (q : ascii) (s : string) :
  free_of q s = true -> Py.rstrip q (s ++ String q EmptyString) = s.
Proof.
  unfold free_of. induction s as [|x s IH]; simpl; intros H.
  - now rewrite Ascii.eqb_refl.
  - apply andb_prop in H. destruct H as [Hx Hs].
    rewrite IH by assumption. apply negb_true_iff in Hx.
    destruct s; [now rewrite Hx|reflexivity].
Qed.

Lemma strip_quoted (q : ascii) (s : string) :
  free_of q s = true ->
  Py.strip q (String q (s ++ String q EmptyString)) = s.
Proof.
  intros H. unfold Py.strip. cbn [Py.lstrip]. rewrite Ascii.eqb_refl.
  destruct s as [|x s].
  - simpl. now rewrite Ascii.eqb_refl.
  - assert (Hx : Ascii.eqb x q = false).
    { unfold free_of in H. simpl in H. apply andb_prop in H.
      destruct H as [Hx _]. now apply negb_true_iff in Hx. }
    cbn [append Py.lstrip]. rewrite Hx.
    apply (rstrip_closing_quote q (String x s) H).
Qed.

Lemma plain_parts_free (q : ascii) (ps : list part) :
  q = "D"%char \/ q = Py.dquote ->
  forallb plain_part ps = true ->
  forallb (fun p => match p with Text t => free_of q t | Hole _ => true end) ps
  = true.
Proof.
  intros Hq. induction ps as [|p ps IH]; intros H; [reflexivity|].
  cbn [forallb] in *. apply andb_prop in H. destruct H as [Hp Hps].
  rewrite IH by assumption. rewrite andb_true_r.
  destruct p as [t|d]; [|reflexivity].
  simpl in Hp. apply andb_prop in Hp. destruct Hp as [HD Hquote].
  destruct Hq as [->| ->]; assumption.
Qed.

(** The three passes of [replace] on a text of plain parts, with any
    text after it. *)
Lemma three_passes (panel0 : BoardSize) (ps : list part) (rest : string) :
  forallb plain_part ps = true ->
  free_of "D" rest = true ->
  Py.replace
    (Py.replace
       (Py.replace (render "Dim1" "Dim2" "Dim3" ps ++ rest)
                   "Dim1" (Py.str_int (height panel0)))
       "Dim2" (Py.str_int (width panel0)))
    "Dim3" (Py.str_int (thickness panel0))
  = (render (Py.str_int (height panel0)) (Py.str_int (width panel0))
            (Py.str_int (thickness panel0)) ps ++ rest)%string.
Proof.
  intros Hps Hrest. unfold Py.replace.
  assert (Hnum : forall z tail new,
             carries (String "D" tail) new (Py.str_int z) (Py.str_int z)).
  { intros z tail new. apply carries_text.
    apply number_free_of; [reflexivity|apply str_int_chars]. }
  assert (Hend : forall tail new,
             Py.replace_from (String "D" tail) new 0 rest = rest).
  { intros tail new.
    pose proof (carries_text tail new rest Hrest EmptyString) as H.
    rewrite string_app_nil_r in H. rewrite H. apply string_app_nil_r. }
  assert (H1 : forall new, carries "Dim1" new "Dim1" new
                           /\ carries "Dim1" new "Dim2" "Dim2"
                           /\ carries "Dim1" new "Dim3" "Dim3")
    by (intros new; repeat split; intros r; reflexivity).
  assert (H2 : forall new, carries "Dim2" new "Dim2" new
                           /\ carries "Dim2" new "Dim3" "Dim3")
    by (intros new; split; intros r; reflexivity).
  assert (H3 : forall new, carries "Dim3" new "Dim3" new)
    by (intros new r; reflexivity).
  destruct (H1 (Py.str_int (height panel0))) as [H11 [H12 H13]].
  destruct (H2 (Py.str_int (width panel0))) as [H22 H23].
  rewrite (render_replace H11 H12 H13 ps rest Hps), Hend.
  rewrite (render_replace (Hnum (height panel0) "im2" _) H22 H23 ps rest Hps),
    Hend.
  rewrite (render_replace (Hnum (height panel0) "im3" _)
             (Hnum (width panel0) "im3" _)
             (H3 (Py.str_int (thickness panel0))) ps rest Hps).
  now rewrite Hend.
Qed.

Lemma rendered_values_free (panel0 : BoardSize) (ps : list part) :
  forallb plain_part ps = true ->
  free_of Py.dquote
    (render (Py.str_int (height panel0)) (Py.str_int (width panel0))
            (Py.str_int (thickness panel0)) ps) = true.
Proof.
  intros H.
  apply render_free_of;
    try (apply number_free_of; [reflexivity|apply str_int_chars]).
  apply plain_parts_free; [now right|assumption].
Qed.

(** X5.  In an expression whose literal text has no capital D and no
    double quote, every [Dim1], [Dim2] and [Dim3] is replaced by the
    decimal form of the height, the width and the thickness of the
    board, and nothing else changes; the same text between a pair of
    double quotes gives the same result. *)
Theorem template_substitution (panel0 : BoardSize) (ps : list part) :
  forallb plain_part ps = true ->
  prepare panel0 (render "Dim1" "Dim2" "Dim3" ps)
  = render (Py.str_int (height panel0)) (Py.str_int (width panel0))
           (Py.str_int (thickness panel0)) ps
  /\ prepare panel0 (quoted (render "Dim1" "Dim2" "Dim3" ps))
     = render (Py.str_int (height panel0)) (Py.str_int (width panel0))
              (Py.str_int (thickness panel0)) ps.
Proof.
  intros H. unfold prepare. split.
  - rewrite <- (string_app_nil_r (render "Dim1" "Dim2" "Dim3" ps)).
    rewrite three_passes by (assumption || reflexivity).
    rewrite string_app_nil_r. unfold Py.strip.
    now rewrite lstrip_free, rstrip_free by now apply rendered_values_free.
  - unfold quoted, Py.replace.
    pose proof (three_passes panel0 ps (String Py.dquote "") H eq_refl) as Hp.
    unfold Py.replace in Hp.
    change (Py.replace_from "Dim1" (Py.str_int (height panel0)) 0
              (String Py.dquote
                 (render "Dim1" "Dim2" "Dim3" ps ++ String Py.dquote "")))
      with (String Py.dquote
              (Py.replace_from "Dim1" (Py.str_int (height panel0)) 0
                 (render "Dim1" "Dim2" "Dim3" ps ++ String Py.dquote ""))).
    change (Py.replace_from "Dim2" (Py.str_int (width panel0)) 0
              (String Py.dquote ?x))
      with (String Py.dquote
              (Py.replace_from "Dim2" (Py.str_int (width panel0)) 0 x)).
    change (Py.replace_from "Dim3" (Py.str_int (thickness panel0)) 0
              (String Py.dquote ?x))
      with (String Py.dquote
              (Py.replace_from "Dim3" (Py.str_int (thickness panel0)) 0 x)).
    rewrite Hp. apply strip_quoted. now apply rendered_values_free.
Qed.

Lemma template_substitution_witness :
  prepare BoardSize_default "Dim1/2-Dim3" = "800/2-16"
  /\ prepare BoardSize_default (quoted "Dim1/2-Dim3") = "800/2-16".
Proof.
  apply (template_substitution BoardSize_default
           [Hole Dim1; Text "/2-"; Hole Dim3]).
  reflexivity.
Defined.

Lemma lstrip_first (q : ascii) (s : string) :
  first_char (Py.lstrip q s) <> Some q.
Proof.
  induction s as [|x s IH]; [discriminate|].
  cbn [Py.lstrip]. destruct (Ascii.eqb_spec x q) as [->|Hx]; [exact IH|].
  simpl. congruence.
Qed.

Lemma rstrip_first (q : ascii) (s : string) :
  first_char s <> Some q -> first_char (Py.rstrip q s) <> Some q.
Proof.
  destruct s as [|x s]; [auto|]. cbn [Py.rstrip first_char]. intros Hx.
  destruct (Py.rstrip q s); [|exact Hx].
  destruct (Ascii.eqb x q); [discriminate|exact Hx].
Qed.

Lemma rstrip_last (q : ascii) (s : string) :
  last_char (Py.rstrip q s) <> Some q.
Proof.
  induction s as [|x s IH]; [discriminate|].
  cbn [Py.rstrip]. destruct (Py.rstrip q s) as [|y r] eqn:Hr.
  - destruct (Ascii.eqb_spec x q) as [->|Hx]; [discriminate|].
    simpl. congruence.
  - exact IH.
Qed.

(** X6.  Whatever the expression and the board, the text handed to the
    evaluator neither begins nor ends with a double quote. *)
Theorem prepared_text_is_unquoted (panel0 : BoardSize) (coord_expr : string) :
  first_char (prepare panel0 coord_expr) <> Some Py.dquote
  /\ last_char (prepare panel0 coord_expr) <> Some Py.dquote.
Proof.
  unfold prepare, Py.strip. split.
  - apply rstrip_first, lstrip_first.
  - apply rstrip_last.
Qed.

(** ** The grammar of the evaluated text *)

Ltac break_parse :=
  repeat match goal with
  | H : Py.POk _ _ = Py.POk _ _ |- _ => inversion H; subst; clear H
  | H : Py.PSyntaxError = Py.POk _ _ |- _ => discriminate H
  | H : Py.PUnsupported = Py.POk _ _ |- _ => discriminate H
  | H : match ?x with _ => _ end = Py.POk _ _ |- _ => destruct x eqn:?
  end.

Lemma parse_consumes (f : nat) : consumes f.
Proof.
  induction f as [|f IH]; unfold consumes.
  - repeat split; intros; discriminate.
  - destruct IH as [Hs [Hsr [Ht [Htr [Hf [Hp [Hl Ha]]]]]]].
    repeat split; intros;
      match goal with
      | H : _ = Py.POk _ _ |- _ =>
          cbn [Py.parse_sum Py.parse_sum_rest Py.parse_term
               Py.parse_term_rest Py.parse_factor Py.parse_power
               Py.parse_trailers Py.parse_atom] in H
      end;
      break_parse;
      repeat match goal with
             | Hx : Py.parse_sum f _ = Py.POk _ _ |- _ => apply Hs in Hx
             | Hx : Py.parse_sum_rest f _ _ = Py.POk _ _ |- _ =>
                 apply Hsr in Hx
             | Hx : Py.parse_term f _ = Py.POk _ _ |- _ => apply Ht in Hx
             | Hx : Py.parse_term_rest f _ _ = Py.POk _ _ |- _ =>
                 apply Htr in Hx
             | Hx : Py.parse_factor f _ = Py.POk _ _ |- _ => apply Hf in Hx
             | Hx : Py.parse_power f _ = Py.POk _ _ |- _ => apply Hp in Hx
             | Hx : Py.parse_trailers f _ _ = Py.POk _ _ |- _ =>
                 apply Hl in Hx
             | Hx : Py.parse_atom f _ = Py.POk _ _ |- _ => apply Ha in Hx
             end;
      simpl in *; lia.
Qed.

Lemma parse_stable (f : nat) : stable f.
Proof.
  induction f as [|f IH]; unfold stable.
  - repeat split; intros; lia.
  - destruct IH as [Hs [Hsr [Ht [Htr [Hf [Hp [Hl Ha]]]]]]].
    destruct (parse_consumes f) as [Cs [Csr [Ct [Ctr [Cf [Cp [Cl Ca]]]]]]].
    repeat split; intros g;
      (destruct g as [|g]; [intros; lia|]); intros;
      cbn [Py.parse_sum Py.parse_sum_rest Py.parse_term Py.parse_term_rest
           Py.parse_factor Py.parse_power Py.parse_trailers Py.parse_atom];
      repeat first
        [ reflexivity
        | match goal with
          | |- context [Py.parse_sum g ?a] =>
              rewrite (Hs g a) by (cbn [List.length] in *; lia)
          | |- context [Py.parse_sum_rest g ?l ?a] =>
              rewrite (Hsr g l a) by (cbn [List.length] in *; lia)
          | |- context [Py.parse_term g ?a] =>
              rewrite (Ht g a) by (cbn [List.length] in *; lia)
          | |- context [Py.parse_term_rest g ?l ?a] =>
              rewrite (Htr g l a) by (cbn [List.length] in *; lia)
          | |- context [Py.parse_factor g ?a] =>
              rewrite (Hf g a) by (cbn [List.length] in *; lia)
          | |- context [Py.parse_power g ?a] =>
              rewrite (Hp g a) by (cbn [List.length] in *; lia)
          | |- context [Py.parse_trailers g ?l ?a] =>
              rewrite (Hl g l a) by (cbn [List.length] in *; lia)
          | |- context [Py.parse_atom g ?a] =>
              rewrite (Ha g a) by (cbn [List.length] in *; lia)
          end
        | match goal with
          | |- context [match ?x with _ => _ end] =>
              destruct x eqn:?;
              repeat match goal with
                | Hx : Py.parse_sum f _ = Py.POk _ _ |- _ => apply Cs in Hx
                | Hx : Py.parse_sum_rest f _ _ = Py.POk _ _ |- _ =>
                    apply Csr in Hx
                | Hx : Py.parse_term f _ = Py.POk _ _ |- _ => apply Ct in Hx
                | Hx : Py.parse_term_rest f _ _ = Py.POk _ _ |- _ =>
                    apply Ctr in Hx
                | Hx : Py.parse_factor f _ = Py.POk _ _ |- _ =>
                    apply Cf in Hx
                | Hx : Py.parse_power f _ = Py.POk _ _ |- _ => apply Cp in Hx
                | Hx : Py.parse_trailers f _ _ = Py.POk _ _ |- _ =>
                    apply Cl in Hx
                | Hx : Py.parse_atom f _ = Py.POk _ _ |- _ => apply Ca in Hx
                end
          end ].
Qed.

(** The depth [Py.parse] allows is enough for every text: at any greater
    depth the tokens are read the same. *)
Lemma parse_fuel_suffices (ts : list Py.token) (g : nat) :
  (Py.parse_fuel ts <= g)%nat ->
  Py.parse_sum g ts = Py.parse_sum (Py.parse_fuel ts) ts.
Proof.
  intros H. apply (proj1 (parse_stable (Py.parse_fuel ts))); [exact H|].
  unfold Py.parse_fuel. lia.
Qed.

Lemma eval_expr_int (e : Py.expr) (fr : Eval.frame) :
  int_expr e = true ->
  Eval.eval_expr e fr
  = Some (inr (Eval.RVal (Py.PyInt (exact_int e))), fr).
Proof.
  induction e as [z|m k|name|e1 IH name|f IH|f IHf arg IHa|op e1 IH
                 |op e1 IH1 e2 IH2];
    cbn [int_expr]; intros H; try discriminate H.
  - reflexivity.
  - destruct op; [discriminate H|].
    cbn [Eval.eval_expr exact_int]. now rewrite (IH H).
  - assert (H12 : int_expr e1 = true /\ int_expr e2 = true)
      by (destruct op; try discriminate H; now apply andb_prop).
    destruct H12 as [H1 H2].
    cbn [Eval.eval_expr]. rewrite (IH1 H1), (IH2 H2).
    destruct op; try discriminate H; reflexivity.
Qed.

Lemma apply_binop_arithmetic (op : Py.binop) (v w : Py.value)
    (r : Py.exn + Py.value) :
  match op with Py.Add | Py.Sub | Py.Mul | Py.Div => True | _ => False end ->
  is_number v = true -> is_number w = true ->
  Py.apply_binop op v w = Some r ->
  arithmetic_outcome (outcome_of_arith r).
Proof.
  unfold Py.apply_binop, Py.int_binop, Py.float_binop, Py.int_truediv,
    Py.float_of_int.
  destruct op, v, w; simpl; intros Hop Hv Hw; try contradiction;
    try discriminate;
    repeat match goal with
           | |- context [if ?c then _ else _] => destruct c
           end;
    intros H; inversion H; simpl; auto.
Qed.

Lemma arith_arithmetic (e : Py.expr) :
  spec_expr e = true ->
  forall r, arith e = Some r -> arithmetic_outcome (outcome_of_arith r).
Proof.
  induction e as [z|m k|name|e1 IH name|f IH|f IHf arg IHa|op e1 IH
                 |op e1 IH1 e2 IH2];
    cbn [spec_expr arith]; intros H r Hr; try discriminate H.
  - inversion Hr. reflexivity.
  - inversion Hr. reflexivity.
  - destruct op; [discriminate H|].
    destruct (arith e1) as [[x|v]|] eqn:Ha; [| |discriminate Hr].
    + inversion Hr; subst. exact (IH H _ eq_refl).
    + pose proof (IH H _ eq_refl) as Hv. inversion Hr; subst.
      destruct v; simpl in *; auto; discriminate.
  - assert (Hop : match op with
                  | Py.Add | Py.Sub | Py.Mul | Py.Div => True
                  | _ => False
                  end) by (destruct op; try discriminate H; exact I).
    assert (H12 : spec_expr e1 = true /\ spec_expr e2 = true)
      by (destruct op; try discriminate H; now apply andb_prop).
    destruct H12 as [H1 H2].
    destruct (arith e1) as [[x|v]|] eqn:Ha1; [| |discriminate Hr].
    + inversion Hr; subst. exact (IH1 H1 _ eq_refl).
    + destruct (arith e2) as [[x|w]|] eqn:Ha2; [| |discriminate Hr].
      * inversion Hr; subst. exact (IH2 H2 _ eq_refl).
      * exact (apply_binop_arithmetic op v w Hop
                 (IH1 H1 _ eq_refl) (IH2 H2 _ eq_refl) Hr).
Qed.

Lemma name_start_class (c : ascii) :
  Py.is_name_start c = true ->
  Py.is_space c = false /\ Py.is_digit c = false.
Proof.
  destruct c as [[] [] [] [] [] [] [] []]; intros H;
    try discriminate H; split; reflexivity.
Qed.

Lemma lex_from_name (s : string) :
  forall acc, all_chars is_name_char s = true ->
    Py.lex_from (Py.LName acc) s = Py.lex_flush (Py.LName (acc ++ s)).
Proof.
  induction s as [|c s IH]; intros acc H.
  - cbn [Py.lex_from]. now rewrite string_app_nil_r.
  - cbn [all_chars] in H. apply andb_prop in H. destruct H as [Hc Hs].
    unfold is_name_char in Hc.
    cbn [Py.lex_from Py.lex_step]. rewrite Hc, (IH _ Hs), string_app_assoc.
    cbn [append]. destruct (Py.lex_flush _); reflexivity.
Qed.

(** An identifier is read as a name. *)
Lemma parse_identifier (name : string) :
  is_identifier name = true -> Py.parse name = Py.POk (Py.EName name) [].
Proof.
  unfold is_identifier. intros H. apply andb_prop in H.
  destruct H as [Hid Hkw]. apply negb_true_iff in Hkw.
  destruct name as [|c s]; [discriminate Hid|].
  apply andb_prop in Hid. destruct Hid as [Hc Hs].
  destruct (name_start_class c Hc) as [Hsp Hdg].
  unfold Py.parse, Py.lex. cbn [Py.lex_from Py.lex_step].
  unfold Py.lex_start. rewrite Hsp, Hdg, Hc.
  rewrite (lex_from_name s _ Hs). cbn [append Py.lex_flush].
  rewrite Hkw. reflexivity.
Qed.

Lemma lookup_out_of_scope (name : string) (fr : Eval.frame) :
  in_scope name = false ->
  Eval.lookup_name name fr = Some (inl Py.NameError).
Proof.
  unfold in_scope, Eval.lookup_name. intros H.
  repeat (apply orb_false_elim in H; destruct H as [H ?]).
  repeat match goal with
         | Heq : _ = false |- _ => rewrite Heq; clear Heq
         end.
  reflexivity.
Qed.

Lemma only_quotes_free (s : string) :
  only_quotes s = true -> free_of "D" s = true.
Proof.
  unfold only_quotes, free_of.
  induction s as [|c s IH]; cbn [all_chars]; intros H; [reflexivity|].
  apply andb_prop in H. destruct H as [Hc Hs].
  apply Ascii.eqb_eq in Hc. subst c. now rewrite (IH Hs).
Qed.

Lemma lstrip_only_quotes (s : string) :
  only_quotes s = true -> Py.lstrip Py.dquote s = EmptyString.
Proof.
  unfold only_quotes.
  induction s as [|c s IH]; cbn [all_chars Py.lstrip]; intros H;
    [reflexivity|].
  apply andb_prop in H. destruct H as [Hc Hs]. rewrite Hc. exact (IH Hs).
Qed.

(** A text of quotes only is empty once prepared. *)
Lemma prepare_only_quotes (panel0 : BoardSize) (s : string) :
  only_quotes s = true -> prepare panel0 s = EmptyString.
Proof.
  intros H. unfold prepare, Py.replace, Py.strip.
  assert (Hrep : forall tail new,
             Py.replace_from (String "D" tail) new 0 s = s).
  { intros tail new.
    pose proof (carries_text tail new s (only_quotes_free s H) EmptyString)
      as Hc.
    rewrite string_app_nil_r in Hc. rewrite Hc. apply string_app_nil_r. }
  rewrite !Hrep, (lstrip_only_quotes s H). reflexivity.
Qed.




(** ** Further properties of the evaluator *)

Section QuietPrefix.

Variable V : Type.
Variable eval : evaluator V.
Variable self0 : QltMachineRow.t.
Variable panel0 : BoardSize.

Lemma quiet_expr_outcome (coord_expr : string) :
  quiet_expr eval self0 panel0 coord_expr ->
  exists o, caught o /\ outcome_of eval self0 panel0 coord_expr = Some o /\
    forall res trip cv,
      eval (prepare panel0 coord_expr) (at_rest self0 panel0 res trip cv)
      = Some (o, at_rest self0 panel0 res trip cv).
Proof.
  intros [o [Hc Ho]]. exists o. split; [exact Hc|split; [|exact Ho]].
  unfold outcome_of.
  change (enter V self0 panel0) with (@at_rest V self0 panel0 [] [] None).
  now rewrite Ho.
Qed.

(** The loop over a quiet stretch of the row. *)
Lemma loop_quiet_prefix (pre : list string) :
  forall before after,
    coordinates self0 = before ++ pre ++ after ->
    (forall c, In c pre -> c <> EmptyString ->
               quiet_expr eval self0 panel0 c) ->
    forall fuel res trip cv out,
      loop eval (List.length pre + fuel) (List.length before)
        (at_rest self0 panel0 res trip cv) out
      = loop eval fuel (List.length (before ++ pre))
          (fold_left (@take V) (flat_map (value_of eval self0 panel0) pre)
             (at_rest self0 panel0 res trip cv))
          (out ++ flat_map (lines_of eval self0 panel0) pre).
Proof.
  induction pre as [|e pre IH];
    intros before after Hco Hq fuel res trip cv out.
  - simpl. now rewrite !app_nil_r.
  - assert (Hco' : coordinates self0 = (before ++ [e]) ++ pre ++ after)
      by (rewrite <- app_assoc; exact Hco).
    assert (Hlen : List.length (before ++ [e]) = S (List.length before))
      by (rewrite length_app; simpl; lia).
    assert (Hq' : forall c, In c pre -> c <> EmptyString ->
                            quiet_expr eval self0 panel0 c)
      by (intros c Hc; apply Hq; now right).
    replace (before ++ e :: pre) with ((before ++ [e]) ++ pre)
      by now rewrite <- app_assoc.
    cbn [List.length Nat.add loop]. cbn [self at_rest]. rewrite Hco.
    rewrite nth_error_app2 by lia. rewrite Nat.sub_diag. cbn [app nth_error].
    cbn [flat_map].
    destruct (String.eqb_spec e EmptyString) as [He|He].
    + assert (Hv : value_of eval self0 panel0 e = [])
        by (unfold value_of; rewrite He; reflexivity).
      assert (Hl : lines_of eval self0 panel0 e = [])
        by (unfold lines_of; rewrite He; reflexivity).
      rewrite Hv, Hl. cbn [app]. rewrite <- Hlen.
      now apply (IH (before ++ [e]) after).
    + destruct (@quiet_expr_outcome e) as [o [Hc [Ho Hev]]];
        [apply Hq; [now left|exact He]|].
      assert (Hv : value_of eval self0 panel0 e
                   = match o with Value v => [v] | Raised _ => [] end).
      { unfold value_of. rewrite (proj2 (String.eqb_neq _ _) He), Ho.
        now destruct o. }
      assert (Hl : lines_of eval self0 panel0 e
                   = match o with
                     | Value _ => [Echo e]
                     | Raised x => [Echo e; EvalError (prepare panel0 e) x]
                     end).
      { unfold lines_of. rewrite (proj2 (String.eqb_neq _ _) He), Ho.
        now destruct o. }
      rewrite Hv, Hl. cbn [panel].
      change {| self := self0; panel := panel0; results := res;
                current_triplet := trip; calculated_value := cv |}
        with (at_rest self0 panel0 res trip cv).
      rewrite Hev. destruct o as [v|x].
      * cbn [app fold_left]. fold (take (at_rest self0 panel0 res trip cv) v).
        rewrite take_at_rest, <- Hlen.
        destruct (List.length (trip ++ [v]) =? 3)%nat;
          rewrite (IH (before ++ [e]) after Hco' Hq');
          rewrite <- (app_assoc out); reflexivity.
      * simpl in Hc. rewrite Hc. rewrite <- Hlen.
        rewrite (IH (before ++ [e]) after Hco' Hq').
        rewrite <- !(app_assoc out). reflexivity.
Qed.

Lemma values_bounded (l : list string) :
  (List.length (flat_map (value_of eval self0 panel0) l)
   <= List.length (filter non_empty l))%nat.
Proof.
  induction l as [|e l IH]; [simpl; lia|].
  cbn [flat_map filter]. rewrite length_app.
  unfold value_of at 1, non_empty at 1.
  destruct (String.eqb e EmptyString); cbn [negb]; [simpl; lia|].
  destruct (outcome_of eval self0 panel0 e) as [[v|x]|]; simpl; lia.
Qed.

End QuietPrefix.

(** X7.  An exception that does not derive from [Exception] is not
    caught: when the expressions before it are quiet and the evaluation
    of the next one raises such an exception, the call ends with that
    exception, after the echo of the expression, and the triples
    assembled so far are not returned. *)
Theorem uncaught_exception_aborts (V : Type) (eval : evaluator V)
    (self0 : QltMachineRow.t) (panel0 : BoardSize)
    (pre : list string) (coord_expr : string) (post : list string)
    (x : Py.exn) (fr' : frame V) (fuel : nat) :
  coordinates self0 = pre ++ coord_expr :: post ->
  (forall c, In c pre -> c <> EmptyString -> quiet_expr eval self0 panel0 c) ->
  coord_expr <> EmptyString ->
  eval (prepare panel0 coord_expr)
    (at_rest self0 panel0
       (chunk3 (flat_map (value_of eval self0 panel0) pre))
       (rest3 (flat_map (value_of eval self0 panel0) pre))
       (latest None (flat_map (value_of eval self0 panel0) pre)))
  = Some (Raised x, fr') ->
  Py.is_Exception x = false ->
  calculate_coordinates eval (List.length pre + S fuel) self0 panel0
  = Some (Propagated x, fr',
          flat_map (lines_of eval self0 panel0) pre ++ [Echo coord_expr]).
Proof.
  intros Hco Hq Hne Hev Hx. unfold calculate_coordinates.
  change (enter V self0 panel0) with (@at_rest V self0 panel0 [] [] None).
  change 0%nat with (List.length (@nil string)).
  rewrite (loop_quiet_prefix pre [] (coord_expr :: post) Hco Hq).
  rewrite feed_at_rest by (simpl; lia).
  cbn [app loop]. cbn [self panel at_rest]. rewrite Hco.
  rewrite nth_error_app2 by lia. rewrite Nat.sub_diag. cbn [nth_error].
  rewrite (proj2 (String.eqb_neq _ _) Hne).
  change {| self := self0; panel := panel0;
            results := chunk3 (flat_map (value_of eval self0 panel0) pre);
            current_triplet := rest3 (flat_map (value_of eval self0 panel0) pre);
            calculated_value :=
              latest None (flat_map (value_of eval self0 panel0) pre) |}
    with (at_rest self0 panel0
            (chunk3 (flat_map (value_of eval self0 panel0) pre))
            (rest3 (flat_map (value_of eval self0 panel0) pre))
            (latest None (flat_map (value_of eval self0 panel0) pre))).
  rewrite Hev, Hx. reflexivity.
Qed.

Lemma uncaught_exception_aborts_witness :
  calculate_coordinates py_eval_exit (3 + 1)
    (row_of ["1"; "2"; "3"; "exit()"; "4"]) BoardSize_default
  = Some (Propagated Py.SystemExit,
          at_rest (row_of ["1"; "2"; "3"; "exit()"; "4"]) BoardSize_default
            [[Py.PyInt 1; Py.PyInt 2; Py.PyInt 3]] [] (Some (Py.PyInt 3)),
          [Echo "1"; Echo "2"; Echo "3"; Echo "exit()"]).
Proof.
  apply (@uncaught_exception_aborts Py.value py_eval_exit
           (row_of ["1"; "2"; "3"; "exit()"; "4"]) BoardSize_default
           ["1"; "2"; "3"] "exit()" ["4"] Py.SystemExit _ 0).
  - reflexivity.
  - intros c Hin Hne. simpl in Hin.
    repeat (destruct Hin as [Hin|Hin];
            [subst c; eexists; split;
             [|intros res trip cv; lazy; reflexivity]; simpl; auto|]).
    contradiction.
  - discriminate.
  - vm_compute. reflexivity.
  - reflexivity.
Defined.

(** X8.  On a quiet row the triples returned number at most a third of
    the non-empty expressions; a row with fewer than three non-empty
    expressions, such as one whose only coordinates are x, y and an
    empty z, gives no triple at all. *)
Theorem few_expressions_no_triple (V : Type) (eval : evaluator V)
    (self0 : QltMachineRow.t) (panel0 : BoardSize) (fuel : nat) :
  quiet eval self0 panel0 ->
  (List.length (coordinates self0) < fuel)%nat ->
  exists res fr out,
    calculate_coordinates eval fuel self0 panel0 = Some (Returned res, fr, out)
    /\ (3 * List.length res
        <= List.length (filter non_empty (coordinates self0)))%nat
    /\ ((List.length (filter non_empty (coordinates self0)) < 3)%nat ->
        res = []).
Proof.
  intros Hq Hfuel.
  rewrite (calculate_coordinates_quiet Hq Hfuel).
  do 3 eexists. split; [reflexivity|].
  pose proof (values_bounded eval self0 panel0 (coordinates self0)) as Hb.
  fold (resolved eval self0 panel0) in Hb.
  pose proof (chunk3_length (resolved eval self0 panel0)) as Hl.
  pose proof (Nat.Div0.mul_div_le (List.length (resolved eval self0 panel0)) 3) as Hd.
  split; [rewrite Hl; lia|].
  intros Hlt. apply length_zero_iff_nil. rewrite Hl.
  apply Nat.div_small. lia.
Qed.

Lemma few_expressions_no_triple_witness :
  exists res fr out,
    calculate_coordinates Eval.py_eval 4 example_record BoardSize_default
    = Some (Returned res, fr, out)
    /\ (3 * List.length res
        <= List.length (filter non_empty (coordinates example_record)))%nat
    /\ ((List.length (filter non_empty (coordinates example_record)) < 3)%nat ->
        res = []).
Proof.
  apply few_expressions_no_triple; [quiet_by_evaluation|simpl; lia].
Defined.

Lemma value_of_arith (self0 : QltMachineRow.t) (panel0 : BoardSize)
    (coord_expr : string) :
  (coord_expr <> EmptyString ->
   in_spec_grammar (prepare panel0 coord_expr) = true) ->
  value_of Eval.py_eval self0 panel0 coord_expr
  = arith_value panel0 coord_expr.
Proof.
  intros H. unfold value_of, arith_value.
  destruct (String.eqb_spec coord_expr EmptyString) as [He|He];
    [reflexivity|].
  destruct (py_eval_arith _ (H He)) as [e [r [Hp [Ha [_ Hev]]]]].
  unfold outcome_of. rewrite Hev, Hp, Ha. now destruct r.
Qed.

Lemma flat_map_eq_in (A B : Type) (f g : A -> list B) (l : list A) :
  (forall a, In a l -> f a = g a) -> flat_map f l = flat_map g l.
Proof.
  induction l as [|a l IH]; intros H; [reflexivity|].
  cbn [flat_map]. rewrite (H a) by now left.
  rewrite IH; [reflexivity|]. intros b Hb. apply H. now right.
Qed.

Lemma resolved_arith (self0 : QltMachineRow.t) (panel0 : BoardSize) :
  arithmetic_row panel0 self0 ->
  resolved Eval.py_eval self0 panel0
  = flat_map (arith_value panel0) (coordinates self0).
Proof.
  intros H. unfold resolved. apply flat_map_eq_in.
  intros e He. apply value_of_arith. intros Hne. now apply H.
Qed.

Lemma arith_value_non_empty (panel0 : BoardSize) (l : list string) :
  flat_map (arith_value panel0) (filter non_empty l)
  = flat_map (arith_value panel0) l.
Proof.
  induction l as [|e l IH]; [reflexivity|].
  cbn [filter flat_map].
  assert (Hn : non_empty e = negb (String.eqb e EmptyString)) by reflexivity.
  destruct (String.eqb e EmptyString) eqn:He; rewrite Hn; cbn [negb].
  - unfold arith_value at 2. rewrite He. exact IH.
  - cbn [flat_map]. now rewrite IH.
Qed.



Lemma chunk3_app (V : Type) (a b : list V) :
  rest3 a = [] -> chunk3 (a ++ b) = chunk3 a ++ chunk3 b.
Proof.
  induction a as [| x | x y | x y z a IH] using list_ind3; intros H;
    try discriminate; [reflexivity|].
  cbn [rest3] in H. cbn [app chunk3]. now rewrite (IH H).
Qed.

(** X10.  Rows of arithmetic expressions compose: when the expressions
    of a row are those of a first row followed by those of a second, and
    the first row leaves no value over in the buffer, the triples of the
    whole are the triples of the first followed by the triples of the
    second. *)
Theorem aligned_rows_compose (self_a self_b self_ab : QltMachineRow.t)
    (panel0 : BoardSize) (fuel : nat)
    (res_a : list (list Py.value)) (fr_a : frame Py.value)
    (out_a : list output) :
  coordinates self_ab = coordinates self_a ++ coordinates self_b ->
  arithmetic_row panel0 self_ab ->
  (List.length (coordinates self_ab) < fuel)%nat ->
  calculate_coordinates Eval.py_eval fuel self_a panel0
  = Some (Returned res_a, fr_a, out_a) ->
  current_triplet fr_a = [] ->
  exists res_b fr_b out_b fr_ab out_ab,
    calculate_coordinates Eval.py_eval fuel self_b panel0
    = Some (Returned res_b, fr_b, out_b)
    /\ calculate_coordinates Eval.py_eval fuel self_ab panel0
       = Some (Returned (res_a ++ res_b), fr_ab, out_ab).
Proof.
  intros Hco Hab Hfuel Ha Hbuf.
  assert (Hlen : (List.length (coordinates self_a) < fuel
                  /\ List.length (coordinates self_b) < fuel)%nat)
    by (rewrite Hco, length_app in Hfuel; lia).
  destruct Hlen as [Hfa Hfb].
  assert (Hra : arithmetic_row panel0 self_a)
    by (intros c Hc; apply Hab; rewrite Hco; apply in_or_app; now left).
  assert (Hrb : arithmetic_row panel0 self_b)
    by (intros c Hc; apply Hab; rewrite Hco; apply in_or_app; now right).
  rewrite (calculate_coordinates_quiet
             (arithmetic_rows_are_quiet self_a panel0 Hra) Hfa) in Ha.
  inversion Ha as [[Hres Hfr Hout]]. clear Ha.
  rewrite <- Hfr in Hbuf. cbn [current_triplet at_rest] in Hbuf.
  rewrite (calculate_coordinates_quiet
             (arithmetic_rows_are_quiet self_b panel0 Hrb) Hfb).
  rewrite (calculate_coordinates_quiet
             (arithmetic_rows_are_quiet self_ab panel0 Hab) Hfuel).
  rewrite (resolved_arith Hra) in *.
  rewrite (resolved_arith Hrb), (resolved_arith Hab).
  rewrite Hco, flat_map_app, (chunk3_app _ _ Hbuf).
  do 5 eexists. split; reflexivity.
Qed.

Lemma aligned_rows_compose_witness :
  exists res_b fr_b out_b fr_ab out_ab,
    calculate_coordinates Eval.py_eval 9 (row_of ["4"; ""; "5"; "6"; "7"])
      BoardSize_default
    = Some (Returned res_b, fr_b, out_b)
    /\ calculate_coordinates Eval.py_eval 9
         (row_of ["Dim1/2"; "50"; "Dim3"; "4"; ""; "5"; "6"; "7"])
         BoardSize_default
       = Some (Returned
                 ([[Py.PyFloat 400; Py.PyInt 50; Py.PyInt 16]] ++ res_b),
               fr_ab, out_ab).
Proof.
  apply (@aligned_rows_compose (row_of ["Dim1/2"; "50"; "Dim3"])
           (row_of ["4"; ""; "5"; "6"; "7"])
           (row_of ["Dim1/2"; "50"; "Dim3"; "4"; ""; "5"; "6"; "7"])
           BoardSize_default 9
           [[Py.PyFloat 400; Py.PyInt 50; Py.PyInt 16]]
           (at_rest (row_of ["Dim1/2"; "50"; "Dim3"]) BoardSize_default
              [[Py.PyFloat 400; Py.PyInt 50; Py.PyInt 16]] []
              (Some (Py.PyInt 16)))
           [Echo "Dim1/2"; Echo "50"; Echo "Dim3"]).
  - reflexivity.
  - intros c Hin Hne; simpl in Hin;
      repeat (destruct Hin as [Hin|Hin];
              [subst c; first [exfalso; apply Hne; reflexivity
                              |vm_compute; reflexivity]|]);
      contradiction.
  - simpl; lia.
  - vm_compute. reflexivity.
  - reflexivity.
Defined.

(** ** Properties of [main] *)

Section MainFacts.

Variable V : Type.
Variable eval : evaluator V.
Variable print_triplet : list V -> effect.
Variable ax_plot : V -> V -> effect.

Lemma plot_triplets_chunk3 (vs : list V) :
  (forall triplet, In triplet (chunk3 vs) ->
     drawn print_triplet ax_plot triplet) ->
  plot_triplets print_triplet ax_plot (chunk3 vs)
  = Some (flat_map (@events_of_triplet V) (chunk3 vs), None).
Proof.
  induction vs as [| a | a b | a b c vs IH] using list_ind3; intros H;
    try reflexivity.
  cbn [chunk3] in H.
  destruct (H [a; b; c] (or_introl eq_refl)) as [Hprint Hplot].
  cbn [chunk3 plot_triplets nth_error flat_map events_of_triplet].
  rewrite Hprint, (Hplot a b eq_refl eq_refl).
  rewrite IH by (intros t Ht; apply H; now right).
  reflexivity.
Qed.

(** The second loop of [main] over a stretch of quiet rows whose triples
    are printed and plotted. *)
Lemma plot_rows_quiet_prefix (fuel : nat) (board : BoardSize)
    (before rest : list QltMachineRow.t) :
  (forall r, In r before ->
     quiet eval r board /\ (List.length (coordinates r) < fuel)%nat) ->
  (forall r triplet, In r before ->
     In triplet (chunk3 (resolved eval r board)) ->
     drawn print_triplet ax_plot triplet) ->
  plot_rows eval print_triplet ax_plot fuel board (before ++ rest)
  = match plot_rows eval print_triplet ax_plot fuel board rest with
    | None => None
    | Some (evs, end_) =>
        Some (flat_map (events_of_row eval board) before ++ evs, end_)
    end.
Proof.
  induction before as [|r before IH]; intros H Hd.
  - simpl.
    destruct (plot_rows eval print_triplet ax_plot fuel board rest)
      as [[evs e]|]; reflexivity.
  - destruct (H r (or_introl eq_refl)) as [Hq Hf].
    cbn [app plot_rows flat_map].
    rewrite (calculate_coordinates_quiet Hq Hf).
    rewrite plot_triplets_chunk3
      by (intros t Ht; exact (Hd r t (or_introl eq_refl) Ht)).
    cbn [panel at_rest].
    rewrite IH;
      [|intros r' Hr'; apply H; now right
       |intros r' t Hr'; apply Hd; now right].
    destruct (plot_rows eval print_triplet ax_plot fuel board rest)
      as [[evs e]|]; [|reflexivity].
    unfold events_of_row at 2. now rewrite <- !app_assoc.
Qed.

Lemma reports_of_header (data : list (list string)) :
  forall i, (i + List.length data <= 4)%nat ->
    flat_map report_of (enumerate_from i data) = [].
Proof.
  induction data as [|row rest IH]; intros i Hi; [reflexivity|].
  cbn [enumerate_from flat_map]. unfold report_of at 1. cbn [fst snd].
  simpl in Hi. rewrite (proj2 (Nat.leb_gt 4 i)) by lia. cbn [andb app].
  apply IH. lia.
Qed.

(** [main] in terms of the second loop. *)
Lemma main_unfold (fuel : nat) (reader : list (list string)) :
  main eval print_triplet ax_plot fuel reader
  = match plot_rows eval print_triplet ax_plot fuel BoardSize_default
            (main_decode reader) with
    | None => None
    | Some (evs, Some e) =>
        Some ((map (@ERow V)
                 (flat_map report_of (enumerate_from 0 (decode_tsv reader)))
               ++ [EPatch 0 0 200 800]) ++ evs, Some e)
    | Some (evs, None) =>
        Some ((map (@ERow V)
                 (flat_map report_of (enumerate_from 0 (decode_tsv reader)))
               ++ [EPatch 0 0 200 800]) ++ evs ++ [EShow], None)
    end.
Proof.
  unfold main, main_decode.
  pose proof (main_rows_from_reports (decode_tsv reader) 0 [] []) as Hr.
  fold (main_rows (decode_tsv reader)) in Hr.
  destruct (main_rows (decode_tsv reader)) as [qlt_rows reports].
  cbn [fst snd app] in *. subst reports. reflexivity.
Qed.

End MainFacts.

(** X11.  When every record built from the file is quiet for the
    default board, and every triple of its values is one that
    [print] prints and [ax.plot] plots, [main] runs to the end: it
    prints the reports of the skipped rows, draws the board outline at
    the origin, 200 wide and 800 high, and then, row by row in file
    order, prints what the evaluation prints and for each triple prints
    it and plots its first two values; the third value of a triple is
    never plotted. *)
Theorem main_plots_quiet_rows (V : Type) (eval : evaluator V)
    (print_triplet : list V -> effect) (ax_plot : V -> V -> effect)
    (fuel : nat) (reader : list (list string)) :
  (forall r, In r (main_decode reader) ->
     quiet eval r BoardSize_default
     /\ (List.length (coordinates r) < fuel)%nat) ->
  (forall r triplet, In r (main_decode reader) ->
     In triplet (chunk3 (resolved eval r BoardSize_default)) ->
     drawn print_triplet ax_plot triplet) ->
  main eval print_triplet ax_plot fuel reader
  = Some (map (@ERow V)
            (flat_map report_of (enumerate_from 0 (decode_tsv reader)))
          ++ [EPatch 0 0 200 800]
          ++ flat_map (events_of_row eval BoardSize_default)
               (main_decode reader)
          ++ [EShow], None).
Proof.
  intros H Hd. rewrite main_unfold.
  rewrite <- (app_nil_r (main_decode reader)) at 1.
  rewrite (@plot_rows_quiet_prefix V eval print_triplet ax_plot fuel
             BoardSize_default (main_decode reader) [] H Hd).
  cbn [plot_rows]. rewrite app_nil_r. now rewrite <- app_assoc.
Qed.

Lemma main_plots_quiet_rows_witness :
  main Eval.py_eval print_values plot_values 4
    [["a"]; []; ["b"]; ["c"]; example_header;
     ["1"; "1"; "Top"; "M3"; "Through"; "Dim1/2"; "50"; "1"; "0"; "0"; "Dim3"];
     ["2"; "x"]; ["3"; "1"; "2"; "3"; "4"; "5"; "6"; "7"; "8"; "9"]]
  = Some ([ERow (RowError 6 Py.TypeError); EPatch 0 0 200 800;
           ECalc (Echo "Dim1/2"); ECalc (Echo "50"); ECalc (Echo "Dim3");
           ETriplet [Py.PyFloat 400; Py.PyInt 50; Py.PyInt 16];
           EPlot (Py.PyFloat 400) (Py.PyInt 50); EShow], None).
Proof.
  apply (@main_plots_quiet_rows Py.value Eval.py_eval print_values plot_values
           4
           [["a"]; []; ["b"]; ["c"]; example_header;
            ["1"; "1"; "Top"; "M3"; "Through"; "Dim1/2"; "50"; "1"; "0"; "0";
             "Dim3"];
            ["2"; "x"]; ["3"; "1"; "2"; "3"; "4"; "5"; "6"; "7"; "8"; "9"]]).
  - intros r Hr. vm_compute in Hr. destruct Hr as [<-|[]].
    split; [quiet_by_evaluation|simpl; lia].
  - intros r t Hr Ht. vm_compute in Hr. destruct Hr as [<-|[]].
    vm_compute in Ht. destruct Ht as [<-|[]].
    split; [reflexivity|].
    intros x y Hx Hy. inversion Hx. inversion Hy. reflexivity.
Defined.

(** X12.  A file with at most four non-empty rows has no data row:
    whatever the evaluator, [main] evaluates nothing, prints nothing and
    draws only the board outline. *)
Theorem main_on_header_only_file (V : Type) (eval : evaluator V)
    (print_triplet : list V -> effect) (ax_plot : V -> V -> effect)
    (fuel : nat) (reader : list (list string)) :
  (List.length (decode_tsv reader) <= 4)%nat ->
  main eval print_triplet ax_plot fuel reader
  = Some ([EPatch 0 0 200 800; EShow], None).
Proof.
  intros H. rewrite main_unfold, main_decode_spec.
  rewrite skipn_all2 by exact H.
  rewrite reports_of_header by (simpl; exact H). reflexivity.
Qed.

Lemma main_on_header_only_file_witness :
  main py_eval_exit print_values plot_values 0
    [["a"]; []; example_header; []; example_data; ["exit()"]]
  = Some ([EPatch 0 0 200 800; EShow], None).
Proof.
  apply main_on_header_only_file. simpl. lia.
Defined.

(** X13.  An exception that escapes the evaluation of a row ends
    [main]: when the rows before it are quiet and their triples are
    printed and plotted, everything up to the failing call has been
    printed and plotted, no later row is evaluated and the plot is never
    shown. *)
Theorem main_aborts_on_escaping_exception (V : Type) (eval : evaluator V)
    (print_triplet : list V -> effect) (ax_plot : V -> V -> effect)
    (fuel : nat) (reader : list (list string))
    (before : list QltMachineRow.t) (machine_row : QltMachineRow.t)
    (after : list QltMachineRow.t)
    (x : Py.exn) (fr : frame V) (out : list output) :
  main_decode reader = before ++ machine_row :: after ->
  (forall r, In r before ->
     quiet eval r BoardSize_default
     /\ (List.length (coordinates r) < fuel)%nat) ->
  (forall r triplet, In r before ->
     In triplet (chunk3 (resolved eval r BoardSize_default)) ->
     drawn print_triplet ax_plot triplet) ->
  calculate_coordinates eval fuel machine_row BoardSize_default
  = Some (Propagated x, fr, out) ->
  main eval print_triplet ax_plot fuel reader
  = Some (map (@ERow V)
            (flat_map report_of (enumerate_from 0 (decode_tsv reader)))
          ++ [EPatch 0 0 200 800]
          ++ flat_map (events_of_row eval BoardSize_default) before
          ++ map (@ECalc V) out, Some x).
Proof.
  intros Hrows Hq Hd Hcall. rewrite main_unfold, Hrows.
  rewrite (@plot_rows_quiet_prefix V eval print_triplet ax_plot fuel
             BoardSize_default before (machine_row :: after) Hq Hd).
  cbn [plot_rows]. rewrite Hcall. now rewrite <- app_assoc.
Qed.

Lemma main_aborts_on_escaping_exception_witness :
  main py_eval_exit print_values plot_values 4
    [["a"]; ["b"]; ["c"]; example_header;
     ["1"; "1"; "Top"; "M3"; "Through"; "Dim1/2"; "50"; "1"; "0"; "0"; "Dim3"];
     ["2"; "1"; "Top"; "M3"; "Through"; "7"; "exit()"; "1"; "0"; "0"; "9"];
     ["3"; "1"; "Top"; "M3"; "Through"; "1"; "2"; "1"; "0"; "0"; "3"]]
  = Some ([EPatch 0 0 200 800;
           ECalc (Echo "Dim1/2"); ECalc (Echo "50"); ECalc (Echo "Dim3");
           ETriplet [Py.PyFloat 400; Py.PyInt 50; Py.PyInt 16];
           EPlot (Py.PyFloat 400) (Py.PyInt 50);
           ECalc (Echo "7"); ECalc (Echo "exit()")], Some Py.SystemExit).
Proof.
  apply (@main_aborts_on_escaping_exception Py.value py_eval_exit
           print_values plot_values 4
           [["a"]; ["b"]; ["c"]; example_header;
            ["1"; "1"; "Top"; "M3"; "Through"; "Dim1/2"; "50"; "1"; "0"; "0";
             "Dim3"];
            ["2"; "1"; "Top"; "M3"; "Through"; "7"; "exit()"; "1"; "0"; "0";
             "9"];
            ["3"; "1"; "Top"; "M3"; "Through"; "1"; "2"; "1"; "0"; "0"; "3"]]
           [ {| coordinates := ["Dim1/2"; "50"; "Dim3"]; use := "1";
                layer := "Top"; diam := "M3"; depth := "Through";
                rep_qty := "1"; repx := "0"; repy := "0" |} ]
           {| coordinates := ["7"; "exit()"; "9"]; use := "1";
              layer := "Top"; diam := "M3"; depth := "Through";
              rep_qty := "1"; repx := "0"; repy := "0" |}
           [ {| coordinates := ["1"; "2"; "3"]; use := "1";
                layer := "Top"; diam := "M3"; depth := "Through";
                rep_qty := "1"; repx := "0"; repy := "0" |} ]
           Py.SystemExit
           (at_rest {| coordinates := ["7"; "exit()"; "9"]; use := "1";
                       layer := "Top"; diam := "M3"; depth := "Through";
                       rep_qty := "1"; repx := "0"; repy := "0" |}
                    BoardSize_default [] [Py.PyInt 7] (Some (Py.PyInt 7)))
           [Echo "7"; Echo "exit()"]).
  - vm_compute. reflexivity.
  - intros r Hr. destruct Hr as [<-|[]].
    split; [|simpl; lia].
    intros c Hin Hne. simpl in Hin.
    repeat (destruct Hin as [Hin|Hin];
            [subst c; eexists; split;
             [|intros res trip cv; lazy; reflexivity]; simpl; auto|]).
    contradiction.
  - intros r t Hr Ht. destruct Hr as [<-|[]].
    vm_compute in Ht. destruct Ht as [<-|[]].
    split; [reflexivity|].
    intros x y Hx Hy. inversion Hx. inversion Hy. reflexivity.
  - vm_compute. reflexivity.
Defined.

Lemma plot_triplets_stops (V : Type) (print_triplet : list V -> effect)
    (ax_plot : V -> V -> effect) (done : list (list V)) (triplet : list V)
    (rest : list (list V)) :
  (forall t, In t done ->
     drawn print_triplet ax_plot t /\ (2 <= List.length t)%nat) ->
  plot_triplets print_triplet ax_plot (done ++ triplet :: rest)
  = match plot_triplets print_triplet ax_plot (triplet :: rest) with
    | None => None
    | Some (evs, end_) =>
        Some (flat_map (@events_of_triplet V) done ++ evs, end_)
    end.
Proof.
  induction done as [|t done IH]; intros H.
  - cbn [app flat_map].
    destruct (plot_triplets print_triplet ax_plot (triplet :: rest))
      as [[evs e]|]; reflexivity.
  - destruct (H t (or_introl eq_refl)) as [[Hprint Hplot] Hlen].
    destruct t as [|x [|y t]]; simpl in Hlen; try lia.
    cbn [app flat_map events_of_triplet].
    cbn [plot_triplets nth_error] in *.
    rewrite Hprint, (Hplot x y eq_refl eq_refl).
    rewrite IH by (intros t' Ht'; apply H; now right).
    destruct (match print_triplet triplet with
              | Done => _ | Fails e => _ | Unknown => _ end)
      as [[evs e]|]; reflexivity.
Qed.

(** X17.  The second loop of [main] stops at the first call that
    raises.  When the rows before are quiet with triples that are
    printed and plotted, and in the next quiet row [print] raises on a
    triple, [main] ends with that exception: the triples before it have
    been printed and plotted, the failing triple is neither printed nor
    plotted, no later triple or row is touched and the plot is never
    shown.  When it is [ax.plot] that raises, the triple has been
    printed. *)
Theorem main_aborts_on_plot_failure (V : Type) (eval : evaluator V)
    (print_triplet : list V -> effect) (ax_plot : V -> V -> effect)
    (fuel : nat) (reader : list (list string))
    (before : list QltMachineRow.t) (machine_row : QltMachineRow.t)
    (after : list QltMachineRow.t)
    (done : list (list V)) (triplet : list V) (rest : list (list V))
    (e : Py.exn) :
  main_decode reader = before ++ machine_row :: after ->
  (forall r, In r (before ++ [machine_row]) ->
     quiet eval r BoardSize_default
     /\ (List.length (coordinates r) < fuel)%nat) ->
  (forall r t, In r before ->
     In t (chunk3 (resolved eval r BoardSize_default)) ->
     drawn print_triplet ax_plot t) ->
  chunk3 (resolved eval machine_row BoardSize_default)
  = done ++ triplet :: rest ->
  (forall t, In t done -> drawn print_triplet ax_plot t) ->
  (print_triplet triplet = Fails e ->
   main eval print_triplet ax_plot fuel reader
   = Some (map (@ERow V)
             (flat_map report_of (enumerate_from 0 (decode_tsv reader)))
           ++ [EPatch 0 0 200 800]
           ++ flat_map (events_of_row eval BoardSize_default) before
           ++ map (@ECalc V) (reported eval machine_row BoardSize_default)
           ++ flat_map (@events_of_triplet V) done, Some e))
  /\ (forall x y,
        print_triplet triplet = Done ->
        nth_error triplet 0 = Some x -> nth_error triplet 1 = Some y ->
        ax_plot x y = Fails e ->
        main eval print_triplet ax_plot fuel reader
        = Some (map (@ERow V)
                  (flat_map report_of (enumerate_from 0 (decode_tsv reader)))
                ++ [EPatch 0 0 200 800]
                ++ flat_map (events_of_row eval BoardSize_default) before
                ++ map (@ECalc V) (reported eval machine_row BoardSize_default)
                ++ flat_map (@events_of_triplet V) done
                ++ [ETriplet triplet], Some e)).
Proof.
  intros Hrows Hq Hd Hchunks Hdone.
  assert (Hqb : forall r, In r before ->
            quiet eval r BoardSize_default
            /\ (List.length (coordinates r) < fuel)%nat)
    by (intros r Hr; apply Hq, in_or_app; now left).
  destruct (Hq machine_row) as [Hqm Hfm];
    [apply in_or_app; right; now left|].
  assert (Hdone' : forall t, In t done ->
            drawn print_triplet ax_plot t /\ (2 <= List.length t)%nat).
  { intros t Ht. split; [exact (Hdone t Ht)|].
    pose proof (chunk3_triples (resolved eval machine_row BoardSize_default))
      as Hall.
    rewrite Hchunks in Hall. rewrite Forall_forall in Hall.
    rewrite (Hall t) by (apply in_or_app; now left). lia. }
  assert (Hmain : forall evs,
            plot_triplets print_triplet ax_plot (triplet :: rest)
            = Some (evs, Some e) ->
            main eval print_triplet ax_plot fuel reader
            = Some (map (@ERow V)
                      (flat_map report_of
                         (enumerate_from 0 (decode_tsv reader)))
                    ++ [EPatch 0 0 200 800]
                    ++ flat_map (events_of_row eval BoardSize_default) before
                    ++ map (@ECalc V)
                         (reported eval machine_row BoardSize_default)
                    ++ flat_map (@events_of_triplet V) done ++ evs, Some e)).
  { intros evs Hevs. rewrite main_unfold, Hrows.
    rewrite (@plot_rows_quiet_prefix V eval print_triplet ax_plot fuel
               BoardSize_default before (machine_row :: after) Hqb Hd).
    cbn [plot_rows]. rewrite (calculate_coordinates_quiet Hqm Hfm).
    rewrite Hchunks, (plot_triplets_stops _ _ _ Hdone'), Hevs.
    now rewrite <- !app_assoc. }
  split.
  - intros Hprint. rewrite (Hmain []); [now rewrite app_nil_r|].
    cbn [plot_triplets]. now rewrite Hprint.
  - intros x y Hprint Hx Hy Hplot. apply Hmain.
    cbn [plot_triplets]. now rewrite Hprint, Hx, Hy, Hplot.
Qed.

Lemma main_aborts_on_plot_failure_witness :
  main Eval.py_eval print_within_limit plot_values 4
    [["a"]; ["b"]; ["c"]; example_header;
     ["1"; "1"; "Top"; "M3"; "Through"; "Dim1/2"; "50"; "1"; "0"; "0"; "Dim3"];
     ["2"; "1"; "Top"; "M3"; "Through"; "100**2200"; "1"; "1"; "0"; "0"; "2"];
     ["3"; "1"; "Top"; "M3"; "Through"; "1"; "2"; "1"; "0"; "0"; "3"]]
  = Some ([EPatch 0 0 200 800;
           ECalc (Echo "Dim1/2"); ECalc (Echo "50"); ECalc (Echo "Dim3");
           ETriplet [Py.PyFloat 400; Py.PyInt 50; Py.PyInt 16];
           EPlot (Py.PyFloat 400) (Py.PyInt 50);
           ECalc (Echo "100**2200"); ECalc (Echo "1"); ECalc (Echo "2")],
          Some (Py.OtherException "ValueError")).
Proof.
  refine (proj1 (@main_aborts_on_plot_failure Py.value Eval.py_eval
           print_within_limit plot_values 4
           [["a"]; ["b"]; ["c"]; example_header;
            ["1"; "1"; "Top"; "M3"; "Through"; "Dim1/2"; "50"; "1"; "0"; "0";
             "Dim3"];
            ["2"; "1"; "Top"; "M3"; "Through"; "100**2200"; "1"; "1"; "0";
             "0"; "2"];
            ["3"; "1"; "Top"; "M3"; "Through"; "1"; "2"; "1"; "0"; "0"; "3"]]
           [row_of ["Dim1/2"; "50"; "Dim3"]]
           (row_of ["100**2200"; "1"; "2"])
           [row_of ["1"; "2"; "3"]]
           [] [Py.PyInt (100 ^ 2200); Py.PyInt 1; Py.PyInt 2] []
           (Py.OtherException "ValueError") _ _ _ _ _) _).
  - reflexivity.
  - intros r Hr. simpl in Hr. destruct Hr as [<-|[<-|[]]];
      (split; [quiet_by_evaluation|simpl; lia]).
  - intros r t Hr Ht. destruct Hr as [<-|[]].
    vm_compute in Ht. destruct Ht as [<-|[]].
    split; [reflexivity|].
    intros x y Hx Hy. inversion Hx. inversion Hy. reflexivity.
  - vm_compute. reflexivity.
  - intros t [].
  - vm_compute. reflexivity.
Defined.

(** ** Further edge cases *)

(** X14.  The two tables have one entry per column, 38 each.  A row as
    wide as the tables is accepted, and its coordinate expressions are
    exactly the cells under the keys x, y, z, x2, ..., z10, in the order
    of the table: thirty expressions, ten groups of three. *)
Theorem full_schema_rows :
  List.length COLUMN_KEYS = 38%nat
  /\ List.length COLUMN_TYPES = List.length COLUMN_KEYS
  /\ forall row,
       List.length row = List.length COLUMN_KEYS ->
       exists q,
         accepted row = [q]
         /\ coordinates q
            = map snd (filter (fun kv => coordinate_key (fst kv))
                         (combine COLUMN_KEYS row))
         /\ List.length (coordinates q) = 30%nat.
Proof.
  split; [reflexivity|split; [reflexivity|]].
  intros row H.
  do 38 (destruct row as [|? row]; [discriminate H|]).
  destruct row; [|discriminate H].
  eexists. split; [reflexivity|split; reflexivity].
Qed.

Lemma full_schema_rows_witness :
  exists q,
    accepted COLUMN_KEYS = [q]
    /\ coordinates q
       = map snd (filter (fun kv => coordinate_key (fst kv))
                    (combine COLUMN_KEYS COLUMN_KEYS))
    /\ List.length (coordinates q) = 30%nat.
Proof.
  apply (proj2 (proj2 full_schema_rows)). reflexivity.
Defined.

(** X15.  A row whose coordinate expressions are all empty is never
    handed to the evaluator: whatever the evaluator, the call returns no
    triple, prints nothing and leaves row, board and buffer as they
    were. *)
Theorem all_empty_row (V : Type) (eval : evaluator V)
    (self0 : QltMachineRow.t) (panel0 : BoardSize) (fuel : nat) :
  (forall c, In c (coordinates self0) -> c = EmptyString) ->
  (List.length (coordinates self0) < fuel)%nat ->
  calculate_coordinates eval fuel self0 panel0
  = Some (Returned [], enter V self0 panel0, []).
Proof.
  intros Hall Hfuel.
  assert (Hq : quiet eval self0 panel0)
    by (intros c Hin Hne; elim Hne; now apply Hall).
  rewrite (calculate_coordinates_quiet Hq Hfuel).
  assert (Hnil : forall (B : Type) (l : list string),
             flat_map (fun _ : string => @nil B) l = [])
    by (intros B l; induction l; simpl; auto).
  assert (Hv : resolved eval self0 panel0 = []).
  { unfold resolved. rewrite <- (Hnil V (coordinates self0)).
    apply flat_map_eq_in. intros c Hc. unfold value_of.
    now rewrite (Hall c Hc). }
  assert (Hl : reported eval self0 panel0 = []).
  { unfold reported. rewrite <- (Hnil output (coordinates self0)).
    apply flat_map_eq_in. intros c Hc. unfold lines_of.
    now rewrite (Hall c Hc). }
  rewrite Hv, Hl. reflexivity.
Qed.

Lemma all_empty_row_witness :
  calculate_coordinates py_eval_exit 4 (row_of [""; ""; ""]) BoardSize_default
  = Some (Returned [],
          enter Py.value (row_of [""; ""; ""]) BoardSize_default, []).
Proof.
  apply all_empty_row; [|simpl; lia].
  intros c Hin. simpl in Hin.
  repeat (destruct Hin as [Hin|Hin]; [now subst c|]). contradiction.
Defined.

Lemma feed_overfull (V : Type) (self0 : QltMachineRow.t) (panel0 : BoardSize)
    (vs : list V) :
  forall res trip cv, (3 <= List.length trip)%nat ->
    fold_left (@take V) vs (at_rest self0 panel0 res trip cv)
    = at_rest self0 panel0 res (trip ++ vs) (latest cv vs).
Proof.
  induction vs as [|v vs IH]; intros res trip cv Hlen.
  - now rewrite app_nil_r.
  - cbn [fold_left]. rewrite take_at_rest.
    rewrite (proj2 (Nat.eqb_neq _ 3)) by (rewrite length_app; simpl; lia).
    rewrite IH by (rewrite length_app; simpl; lia).
    now rewrite <- app_assoc.
Qed.

(** X16.  The buffer is emitted only at the moment it holds exactly
    three values.  Once it holds three or more when an expression is
    about to be read (evaluated text can bring that about), a quiet rest
    of the row adds its values to the buffer and no further triple is
    returned. *)
Theorem overfull_buffer_emits_nothing (V : Type) (eval : evaluator V)
    (self0 : QltMachineRow.t) (panel0 : BoardSize)
    (before rest : list string) (res : list (list V)) (trip : list V)
    (cv : option V) (out : list output) (fuel : nat) :
  coordinates self0 = before ++ rest ->
  (forall c, In c rest -> c <> EmptyString -> quiet_expr eval self0 panel0 c) ->
  (3 <= List.length trip)%nat ->
  loop eval (List.length rest + S fuel) (List.length before)
    (at_rest self0 panel0 res trip cv) out
  = Some (Returned res,
          at_rest self0 panel0 res
            (trip ++ flat_map (value_of eval self0 panel0) rest)
            (latest cv (flat_map (value_of eval self0 panel0) rest)),
          out ++ flat_map (lines_of eval self0 panel0) rest).
Proof.
  intros Hco Hq Hlen.
  rewrite (@loop_quiet_prefix V eval self0 panel0 rest before []);
    [|now rewrite app_nil_r|exact Hq].
  rewrite feed_overfull by exact Hlen.
  cbn [loop]. cbn [self at_rest]. rewrite Hco.
  rewrite (proj2 (nth_error_None _ _)) by lia. reflexivity.
Qed.

Lemma overfull_buffer_emits_nothing_witness :
  loop Eval.py_eval (3 + 1) 2
    (at_rest
       (row_of ["current_triplet.append(1)"; "current_triplet.append(2)";
                "5"; "6"; "7"]) BoardSize_default []
       [Py.PyInt 1; Py.PyNone; Py.PyInt 2; Py.PyNone] (Some Py.PyNone))
    [Echo "current_triplet.append(1)"; Echo "current_triplet.append(2)"]
  = Some (Returned [],
          at_rest
            (row_of ["current_triplet.append(1)"; "current_triplet.append(2)";
                     "5"; "6"; "7"]) BoardSize_default []
            ([Py.PyInt 1; Py.PyNone; Py.PyInt 2; Py.PyNone]
             ++ [Py.PyInt 5; Py.PyInt 6; Py.PyInt 7])
            (Some (Py.PyInt 7)),
          [Echo "current_triplet.append(1)"; Echo "current_triplet.append(2)"]
          ++ [Echo "5"; Echo "6"; Echo "7"]).
Proof.
  apply (@overfull_buffer_emits_nothing Py.value Eval.py_eval
           (row_of ["current_triplet.append(1)"; "current_triplet.append(2)";
                    "5"; "6"; "7"]) BoardSize_default
           ["current_triplet.append(1)"; "current_triplet.append(2)"]
           ["5"; "6"; "7"] []
           [Py.PyInt 1; Py.PyNone; Py.PyInt 2; Py.PyNone] (Some Py.PyNone)
           [Echo "current_triplet.append(1)"; Echo "current_triplet.append(2)"]
           0).
  - reflexivity.
  - intros c Hin Hne. simpl in Hin.
    repeat (destruct Hin as [Hin|Hin];
            [subst c; eexists; split;
             [|intros res trip cv; lazy; reflexivity]; simpl; auto|]).
    contradiction.
  - simpl. lia.
Defined.
